(** * SmartVoyage (Travel_Agent2Agent): the validators, the order backend,
      the order agent and the health check, embedded from the Python sources

    Python values are modelled as the interpreter has them: a [str] is a
    sequence of Unicode code points, an [int] is an unbounded integer, a
    dictionary that comes out of the database or of [json.loads] is an
    association list in key order, and a call that can raise returns an
    [outcome]. *)

From Stdlib Require Import ZArith List String Ascii Lia Bool.
From stdpp Require Import base option list gmap.
Import ListNotations.
Local Open Scope Z_scope.
Local Open Scope list_scope.

(** ** Python strings *)

Module PyStr.

(** A Python [str]: its code points, in order.  [len] counts code points. *)
Definition str : Type := list Z.

(** Decoder for the UTF-8 bytes of a literal of this file, so that the
    constants of the sources can be written as they are in the sources. *)
Fixpoint utf8_decode (pending : nat) (acc : Z) (bs : list Z) : str :=
  match bs with
  | [] => []
  | b :: rest =>
      if b <? 128 then b :: utf8_decode 0 0 rest
      else if b <? 192 then
        let acc' := acc * 64 + (b - 128) in
        match pending with
        | O => utf8_decode 0 0 rest
        | S O => acc' :: utf8_decode 0 0 rest
        | S k => utf8_decode k acc' rest
        end
      else if b <? 224 then utf8_decode 1 (b - 192) rest
      else if b <? 240 then utf8_decode 2 (b - 224) rest
      else utf8_decode 3 (b - 240) rest
  end.

Definition py (s : string) : str :=
  utf8_decode 0 0 (map (fun a => Z.of_N (N_of_ascii a)) (list_ascii_of_string s)).

(** [s1 == s2] on strings. *)
Fixpoint str_eqb (a b : str) : bool :=
  match a, b with
  | [], [] => true
  | x :: a', y :: b' => (x =? y) && str_eqb a' b'
  | _, _ => false
  end.

(** [not s] for a string: the empty string is falsy. *)
Definition is_empty (s : str) : bool :=
  match s with [] => true | _ :: _ => false end.

(** [len(s)]. *)
Definition len (s : str) : Z := Z.of_nat (length s).

(** [s.startswith(p)]. *)
Fixpoint starts_with (p s : str) : bool :=
  match p, s with
  | [], _ => true
  | _ :: _, [] => false
  | a :: p', b :: s' => (a =? b) && starts_with p' s'
  end.

(** [needle in hay]: substring test. *)
Fixpoint contains (needle hay : str) : bool :=
  starts_with needle hay ||
  match hay with
  | [] => false
  | _ :: hay' => contains needle hay'
  end.

(** The [k] low decimal digits of [n], most significant first: the
    zero-padded fields of [strftime] ([%m], [%d], [%H], [%M], [%S], and [%Y]
    for a four-digit year). *)
Fixpoint zdigits (k : nat) (n : Z) : str :=
  match k with
  | O => []
  | S k' => zdigits k' (n / 10) ++ [48 + n mod 10]
  end.

(** [str(n)] for a non-negative [int]. *)
Fixpoint nat_digits (fuel : nat) (n : Z) (acc : str) : str :=
  match fuel with
  | O => acc
  | S f =>
      let acc' := (48 + n mod 10) :: acc in
      if n <? 10 then acc' else nat_digits f (n / 10) acc'
  end.

(** [str(n)], also what an f-string writes for [{n}]. *)
Definition str_of_int (n : Z) : str :=
  if n <? 0 then 45 :: nat_digits (S (Z.to_nat (Z.log2 (- n)))) (- n) []
  else nat_digits (S (Z.to_nat (Z.log2 n))) n [].

(** [c.upper()] on the characters the sources apply it to: ASCII letters,
    decimal digits (which have no case) and the line feed. *)
Definition char_upper (c : Z) : Z :=
  if (97 <=? c) && (c <=? 122) then c - 32 else c.

Definition upper (s : str) : str := map char_upper s.

(** [sep.join(parts)]. *)
Fixpoint join (sep : str) (parts : list str) : str :=
  match parts with
  | [] => []
  | [p] => p
  | p :: ps => p ++ sep ++ join sep ps
  end.

End PyStr.
Export PyStr.

(** ** The [re] module, for the patterns of the sources *)

Module Re.

(** The zero digit of every run of ten decimal digits (general category Nd)
    of the Unicode database 14.0, which is the one CPython 3.11 ships:
    [\d] on a [str] pattern matches exactly the characters of these runs,
    and [int] reads them with their decimal value. *)
Definition decimal_zeros : list Z :=
  [ 0x30; 0x660; 0x6f0; 0x7c0; 0x966; 0x9e6; 0xa66; 0xae6; 0xb66; 0xbe6;
    0xc66; 0xce6; 0xd66; 0xde6; 0xe50; 0xed0; 0xf20; 0x1040; 0x1090;
    0x17e0; 0x1810; 0x1946; 0x19d0; 0x1a80; 0x1a90; 0x1b50; 0x1bb0;
    0x1c40; 0x1c50; 0xa620; 0xa8d0; 0xa900; 0xa9d0; 0xa9f0; 0xaa50;
    0xabf0; 0xff10; 0x104a0; 0x10d30; 0x11066; 0x110f0; 0x11136; 0x111d0;
    0x112f0; 0x11450; 0x114d0; 0x11650; 0x116c0; 0x11730; 0x118e0;
    0x11950; 0x11c50; 0x11d50; 0x11da0; 0x16a60; 0x16ac0; 0x16b50;
    0x1d7ce; 0x1d7d8; 0x1d7e2; 0x1d7ec; 0x1d7f6; 0x1e140; 0x1e2f0;
    0x1e950; 0x1fbf0 ].

(** The zero of the run a character belongs to, when it is a decimal digit. *)
Definition decimal_run (c : Z) : option Z :=
  List.find (fun z => (z <=? c) && (c <? z + 10)) decimal_zeros.

(** [\d]. *)
Definition is_decimal (c : Z) : bool :=
  match decimal_run c with Some _ => true | None => false end.

(** [int(c)] for one character: its decimal value, [None] for [ValueError]. *)
Definition int_char (c : Z) : option Z :=
  match decimal_run c with Some z => Some (c - z) | None => None end.

(** [\s] on a [str] pattern: the characters for which [str.isspace] holds. *)
Definition is_space (c : Z) : bool :=
  ((0x9 <=? c) && (c <=? 0xd)) || ((0x1c <=? c) && (c <=? 0x20))
  || (c =? 0x85) || (c =? 0xa0) || (c =? 0x1680)
  || ((0x2000 <=? c) && (c <=? 0x200a))
  || (c =? 0x2028) || (c =? 0x2029) || (c =? 0x202f) || (c =? 0x205f)
  || (c =? 0x3000).

(** A character class. *)
Definition cclass : Type := Z -> bool.

Definition lit (a : Z) : cclass := fun c => c =? a.
Definition range (lo hi : Z) : cclass := fun c => (lo <=? c) && (c <=? hi).
Definition one_of (cs : list Z) : cclass := fun c => existsb (Z.eqb c) cs.
Definition either (p q : cclass) : cclass := fun c => p c || q c.

(** A pattern that is a sequence of single-character classes, matched at
    the start of [s]: the rest of [s] after the match. *)
Fixpoint match_seq (p : list cclass) (s : str) : option str :=
  match p with
  | [] => Some s
  | c :: p' =>
      match s with
      | [] => None
      | x :: s' => if c x then match_seq p' s' else None
      end
  end.

(** [$] without [re.MULTILINE]: at the end of the string, or just before a
    line feed that is the last character of the string. *)
Definition at_dollar (rest : str) : bool :=
  match rest with
  | [] => true
  | [c] => c =? 10
  | _ => false
  end.

(** [re.match(r'^' p '$', s)] is a match. *)
Definition match_anchored (p : list cclass) (s : str) : bool :=
  match match_seq p s with
  | Some rest => at_dollar rest
  | None => false
  end.

(** [re.search(r'[...]', s)] is a match, for a pattern that is one class. *)
Definition search_class (c : cclass) (s : str) : bool := existsb c s.

(** Greedy [c*] and the rest of the string. *)
Fixpoint span (c : cclass) (s : str) : str * str :=
  match s with
  | [] => ([], [])
  | x :: s' =>
      if c x then let '(a, b) := span c s' in (x :: a, b) else ([], s)
  end.

End Re.
Export Re.

(** ** src/utils/validators.py *)

Module Validators.

(** [r'^1[3-9]\d{9}$'] *)
Definition phone_pattern : list cclass :=
  [lit 49; range 51 57] ++ repeat is_decimal 9.

Definition validate_phone (phone : str) : bool * str :=
  if is_empty phone then (false, py "手机号不能为空")
  else if match_anchored phone_pattern phone then (true, [])
  else (false, py "请输入有效的11位手机号码").

(** [r'^\d{17}[\dXx]$'] *)
Definition id_card_pattern : list cclass :=
  repeat is_decimal 17 ++ [either is_decimal (one_of [88; 120])].

Definition weights : list Z :=
  [7; 9; 10; 5; 8; 4; 2; 1; 6; 3; 7; 9; 10; 5; 8; 4; 2].

Definition check_codes : list Z := py "10X98765432".

(** [sum(f(i) for i in range(n))], [None] when an [f(i)] raises. *)
Fixpoint sum_range (n : nat) (f : nat -> option Z) : option Z :=
  match n with
  | O => Some 0
  | S n' =>
      match sum_range n' f, f n' with
      | Some acc, Some x => Some (acc + x)
      | _, _ => None
      end
  end.

(** [sum(int(id_card[i]) * weights[i] for i in range(17))]. *)
Definition id_card_total (id_card : str) : option Z :=
  sum_range 17 (fun i =>
    match id_card !! i, weights !! i with
    | Some c, Some w =>
        match int_char c with Some d => Some (d * w) | None => None end
    | _, _ => None
    end).

Definition validate_id_card (id_card : str) : bool * str :=
  if is_empty id_card then (true, [])
  else if negb (match_anchored id_card_pattern id_card)
  then (false, py "请输入有效的18位身份证号码")
  else
    match id_card_total id_card with
    | Some total =>
        match check_codes !! Z.to_nat (total mod 11), last id_card with
        | Some expected, Some c =>
            if negb (char_upper c =? expected)
            then (false, py "身份证号码校验码不正确")
            else (true, [])
        | _, _ => (false, py "身份证号码格式不正确")
        end
    | None => (false, py "身份证号码格式不正确")
    end.

(** [r'[0-9@#$%^&*()+=\[\]{}|\\/<>]'] *)
Definition name_denylist : cclass :=
  either (range 48 57) (one_of (py "@#$%^&*()+=[]{}|\/<>")).

Definition validate_name (name : str) : bool * str :=
  if is_empty name then (false, py "姓名不能为空")
  else if len name <? 2 then (false, py "姓名至少需要2个字符")
  else if len name >? 20 then (false, py "姓名不能超过20个字符")
  else if search_class name_denylist name then (false, py "姓名包含非法字符")
  else (true, []).

Definition validate_quantity (quantity max_quantity : Z) : bool * str :=
  if quantity <? 1 then (false, py "购买数量至少为1")
  else if quantity >? max_quantity
  then (false, py "单次购买数量不能超过" ++ str_of_int max_quantity ++ py "张")
  else (true, []).

(** [r'^ORD\d{14}[A-Z0-9]{6}$'] *)
Definition order_no_pattern : list cclass :=
  [lit 79; lit 82; lit 68] ++ repeat is_decimal 14
  ++ repeat (either (range 65 90) (range 48 57)) 6.

Definition validate_order_no (order_no : str) : bool * str :=
  if is_empty order_no then (false, py "订单号不能为空")
  else if negb (match_anchored order_no_pattern order_no)
  then (false, py "订单号格式不正确")
  else (true, []).

End Validators.

(** ** Clock readings and uuids *)

Module PyTime.

(** A [datetime.datetime] value (naive). *)
Record datetime := {
  year : Z; month : Z; day : Z;
  hour : Z; minute : Z; second : Z; microsecond : Z
}.

(** A [datetime.date] value. *)
Record date := { d_year : Z; d_month : Z; d_day : Z }.

(** A [datetime.timedelta] value, normalised as Python keeps it:
    [0 <= seconds < 86400] and [0 <= microseconds < 1000000]. *)
Record timedelta := { td_days : Z; td_seconds : Z; td_microseconds : Z }.

(** The readings a running clock gives.  For these [%Y] is the four decimal
    digits of the year and every other field is zero-padded to two. *)
Definition valid_datetime (t : datetime) : Prop :=
  1000 <= year t <= 9999 /\ 1 <= month t <= 12 /\ 1 <= day t <= 31 /\
  0 <= hour t <= 23 /\ 0 <= minute t <= 59 /\ 0 <= second t <= 59 /\
  0 <= microsecond t <= 999999.

(** [t.strftime('%Y%m%d%H%M%S')] *)
Definition strftime_compact (t : datetime) : str :=
  zdigits 4 (year t) ++ zdigits 2 (month t) ++ zdigits 2 (day t)
  ++ zdigits 2 (hour t) ++ zdigits 2 (minute t) ++ zdigits 2 (second t).

(** [t.strftime('%Y-%m-%d %H:%M:%S')] *)
Definition strftime_datetime (t : datetime) : str :=
  zdigits 4 (year t) ++ [45] ++ zdigits 2 (month t) ++ [45] ++ zdigits 2 (day t)
  ++ [32] ++ zdigits 2 (hour t) ++ [58] ++ zdigits 2 (minute t) ++ [58]
  ++ zdigits 2 (second t).

(** [d.strftime('%Y-%m-%d')] *)
Definition strftime_date (d : date) : str :=
  zdigits 4 (d_year d) ++ [45] ++ zdigits 2 (d_month d) ++ [45]
  ++ zdigits 2 (d_day d).

(** [str(td)] for a [timedelta]: ["[D day[s], ]H:MM:SS[.UUUUUU]"]. *)
Definition str_timedelta (td : timedelta) : str :=
  let mm := td_seconds td / 60 in
  let ss := td_seconds td mod 60 in
  let hh := mm / 60 in
  let mm := mm mod 60 in
  let s := str_of_int hh ++ [58] ++ zdigits 2 mm ++ [58] ++ zdigits 2 ss in
  let s :=
    if td_days td =? 0 then s
    else str_of_int (td_days td)
         ++ (if Z.abs (td_days td) =? 1 then py " day, " else py " days, ")
         ++ s in
  if td_microseconds td =? 0 then s
  else s ++ [46] ++ zdigits 6 (td_microseconds td).

(** One lowercase hexadecimal digit. *)
Definition hexchar (d : Z) : Z := if d <? 10 then 48 + d else 87 + d.

(** ['%0kx' % n]: the [k] low hexadecimal digits of [n]. *)
Fixpoint hexdigits (k : nat) (n : Z) : str :=
  match k with
  | O => []
  | S k' => hexdigits k' (n / 16) ++ [hexchar (n mod 16)]
  end.

(** [uuid.UUID(int=u).hex]: thirty-two lowercase hexadecimal digits. *)
Definition uuid_hex (u : Z) : str := hexdigits 32 u.

End PyTime.
Export PyTime.

(** [OrderService.generate_order_no], with the reading of the clock [now]
    and the integer [u] of the [uuid.uuid4()] it draws. *)
Definition generate_order_no (now : datetime) (u : Z) : str :=
  let timestamp := strftime_compact now in
  let random_suffix := upper (take 6 (uuid_hex u)) in
  py "ORD" ++ timestamp ++ random_suffix.


(** ** scripts/health_check.py *)

Module HealthCheck.

(** A probed service: [(name, url, service_type)]. *)
Definition service : Type := str * str * str.

Definition SERVICES : list (str * list service) :=
  [ (py "MCP服务",
     [ (py "Weather MCP", py "http://localhost:8000/mcp", py "MCP");
       (py "Ticket MCP", py "http://localhost:8001/mcp", py "MCP");
       (py "Order MCP", py "http://localhost:8002/mcp", py "MCP") ]);
    (py "Agent服务",
     [ (py "Weather Agent", py "http://localhost:5005/.well-known/agent.json", py "A2A");
       (py "Ticket Agent", py "http://localhost:5006/.well-known/agent.json", py "A2A");
       (py "Order Agent", py "http://localhost:5007/.well-known/agent.json", py "A2A") ]);
    (py "Web服务",
     [ (py "Streamlit", py "http://localhost:8501", py "HTTP") ]) ].

(** What [client.get(url)] does.  For a response, [card] is what reading
    the body as an agent card gives: [None] when [response.json()] or
    [card.get] raises, [Some None] for a card without a version, and
    [Some (Some v)] for a card whose version is written [v]. *)
Inductive http_outcome :=
| Response (status_code : Z) (card : option (option str))
| ConnectError
| TimeoutException
| OtherException (message : str).

(** [check_service]: [(name, is_healthy, detail)]. *)
Definition check_service (name url service_type : str) (o : http_outcome)
  : str * bool * str :=
  match o with
  | Response status_code card =>
      if status_code =? 200 then
        if str_eqb service_type (py "A2A") then
          match card with
          | Some version => (name, true, py "v" ++ default (py "unknown") version)
          | None => (name, true, py "OK")
          end
        else (name, true, py "OK")
      else (name, false, py "HTTP " ++ str_of_int status_code)
  | ConnectError => (name, false, py "连接失败")
  | TimeoutException => (name, false, py "超时")
  | OtherException e => (name, false, e)
  end.

(** [check_all_services], with the outcome [get url] of each request: one
    entry per category, in the order of [SERVICES]. *)
Definition check_all_services (get : str -> http_outcome)
  : list (str * list (str * bool * str)) :=
  map (fun '(category, services) =>
         (category,
          map (fun '(name, url, stype) => check_service name url stype (get url))
              services))
      SERVICES.

(** [print_results]: the value it returns, [all_healthy]; the lines it
    prints do not enter it. *)
Definition print_results (results : list (str * list (str * bool * str))) : bool :=
  fold_left
    (fun all_healthy '(category, services) =>
       fold_left
         (fun all_healthy '(name, is_healthy, detail) =>
            if (is_healthy : bool) then all_healthy else false)
         services all_healthy)
    results true.

(** [main]: the status the process exits with, given what [check_database]
    returned and the outcome of each request. *)
Definition main (db_ok : bool) (get : str -> http_outcome) : Z :=
  let results := check_all_services get in
  let all_healthy := print_results results in
  if all_healthy && db_ok then 0 else 1.

(** Every service of the fixed list. *)
Definition all_services : list service := concat (map snd SERVICES).

(** The probe of one service succeeded. *)
Definition probe_ok (get : str -> http_outcome) (s : service) : bool :=
  let '(name, url, stype) := s in
  snd (fst (check_service name url stype (get url))).

End HealthCheck.

(** ** Python values, exceptions, and calls that touch the database *)

Module Py.

(** A [decimal.Decimal]: [coefficient * 10 ^ exponent]. *)
Record Decimal := { coefficient : Z; exponent : Z }.

(** A Python [float].  Floating-point arithmetic is not evaluated: a float
    is kept as the expression that produced it. *)
Inductive pyfloat :=
| FloatOfDecimal (d : Decimal)      (* float(d), also a float literal of a JSON text *)
| FloatOfInt (n : Z)                (* float(n) *)
| FloatMul (a b : pyfloat).         (* a * b *)

(** The values that come out of the database driver and of [json.loads].
    A [dict] keeps its items in insertion order. *)
#[local] Unset Elimination Schemes.
Inductive value :=
| VNone
| VBool (b : bool)
| VInt (n : Z)
| VFloat (f : pyfloat)
| VStr (s : str)
| VBytes (b : list Z)
| VDatetime (t : datetime)
| VDate (d : date)
| VTimedelta (td : timedelta)
| VDecimal (d : Decimal)
| VList (items : list value)
| VDict (items : list (str * value)).
#[local] Set Elimination Schemes.

(** [d.get(key)] on the items of a dictionary. *)
Fixpoint dict_get (key : str) (items : list (str * value)) : option value :=
  match items with
  | [] => None
  | (k, v) :: rest => if str_eqb k key then Some v else dict_get key rest
  end.

(** [float(d) == 0.0]: the decimal is zero or rounds to zero
    (at most [2 ** -1075] in magnitude). *)
Definition decimal_rounds_to_zero (d : Decimal) : bool :=
  (coefficient d =? 0)
  || ((exponent d <? 0)
      && (Z.abs (coefficient d) * 2 ^ 1075 <=? 10 ^ (- exponent d))).

(** [f == 0.0]; for a product, up to underflow. *)
Fixpoint float_is_zero (f : pyfloat) : bool :=
  match f with
  | FloatOfDecimal d => decimal_rounds_to_zero d
  | FloatOfInt n => n =? 0
  | FloatMul a b => float_is_zero a || float_is_zero b
  end.

(** [bool(v)]. *)
Definition truthy (v : value) : bool :=
  match v with
  | VNone => false
  | VBool b => b
  | VInt n => negb (n =? 0)
  | VFloat f => negb (float_is_zero f)
  | VStr s => negb (is_empty s)
  | VBytes b => match b with [] => false | _ => true end
  | VDatetime _ | VDate _ | VDecimal _ => true
  | VTimedelta td =>
      negb ((td_days td =? 0) && (td_seconds td =? 0) && (td_microseconds td =? 0))
  | VList l => match l with [] => false | _ => true end
  | VDict l => match l with [] => false | _ => true end
  end.

(** [bool(d.get(key))]: a missing key gives [None], which is falsy. *)
Definition truthy_opt (v : option value) : bool :=
  match v with Some x => truthy x | None => false end.

(** [v == s] for a string constant [s]. *)
Definition is_str (v : option value) (s : str) : bool :=
  match v with Some (VStr x) => str_eqb x s | _ => false end.

(** The exceptions the sources meet. *)
Inductive exn :=
| MySQLError (msg : str)     (* mysql.connector.Error and its subclasses *)
| TypeError (msg : str)
| OtherError (msg : str).

(** [str(e)]. *)
Definition exn_str (e : exn) : str :=
  match e with MySQLError m | TypeError m | OtherError m => m end.

(** A call returns or raises. *)
Inductive outcome (A : Type) :=
| Ret (a : A)
| Raise (e : exn).
Arguments Ret {A} a.
Arguments Raise {A} e.

End Py.
Export Py.

(** ** The database the services talk to *)

Module Db.

(** One row of a ticket table: the columns the order backend reads or
    writes ([id] is the key of the table). *)
Record ticket_row := {
  total_seats : Z;
  remaining_seats : Z;
  price : Decimal
}.

(** One row of [orders]: the columns of the INSERT statement. *)
Record order_row := {
  order_no : str;
  ticket_type : str;
  ticket_id : Z;
  quantity : Z;
  unit_price : pyfloat;
  total_price : pyfloat;
  contact_name : str;
  contact_phone : str;
  contact_id_card : str;
  status : str
}.

Inductive ticket_table := train_tickets | flight_tickets | concert_tickets.

(** The tables: [id] is the primary key of each ticket table; [orders]
    keeps its rows in insertion order. *)
Record database := {
  trains : gmap Z ticket_row;
  flights : gmap Z ticket_row;
  concerts : gmap Z ticket_row;
  orders : list order_row
}.

Definition tickets (t : ticket_table) (d : database) : gmap Z ticket_row :=
  match t with
  | train_tickets => trains d
  | flight_tickets => flights d
  | concert_tickets => concerts d
  end.

Definition set_tickets (t : ticket_table) (m : gmap Z ticket_row) (d : database)
  : database :=
  match t with
  | train_tickets =>
      {| trains := m; flights := flights d; concerts := concerts d; orders := orders d |}
  | flight_tickets =>
      {| trains := trains d; flights := m; concerts := concerts d; orders := orders d |}
  | concert_tickets =>
      {| trains := trains d; flights := flights d; concerts := m; orders := orders d |}
  end.

Definition set_orders (os : list order_row) (d : database) : database :=
  {| trains := trains d; flights := flights d; concerts := concerts d; orders := os |}.

(** What the server does with one request of the driver: [Good], it serves
    it; [Bad msg], the driver raises [MySQLError(msg)] (for [is_connected]:
    the connection is reported lost). *)
Inductive event := Good | Bad (msg : str).

(** The world a service runs in: the tables, what will happen to the next
    connection-level calls ([net]: [is_connected], [connect]) and to the
    next statements ([faults]), in order, nothing going wrong once a list is
    used up, and the rows the server answers to a statement given as text. *)
Record world := {
  db : database;
  net : list event;
  faults : list event;
  raw : str -> list (list (str * value))
}.

Definition set_db (d : database) (w : world) : world :=
  {| db := d; net := net w; faults := faults w; raw := raw w |}.

(** The statements of the sources, as their templates with the arguments
    written into them.  (An argument of type [str] is written between single
    quotes: the statement is the template's for a string without quote or
    backslash, as order numbers are.) *)
Inductive query :=
| SelectTicket (table : ticket_table) (ticket_id : Z)
    (* SELECT * FROM {table} WHERE id = {ticket_id} *)
| SelectOrder (order_no : str)
    (* SELECT * FROM orders WHERE order_no = '{order_no}' *)
| RawQuery (sql : str)
    (* another SELECT, given as its text: the server answers [raw w sql] *).

Inductive update :=
| UpdateSeats (table : ticket_table) (ticket_id quantity : Z)
    (* UPDATE {table} SET remaining_seats = remaining_seats - {quantity}
       WHERE id = {ticket_id} AND remaining_seats >= {quantity} *)
| CancelOrder (order_no : str).
    (* UPDATE orders SET status = 'cancelled' WHERE order_no = '{order_no}' *)

(** A string that the sources write between the single quotes of a
    statement leaves the statement the template's when it has no quote and
    no backslash. *)
Definition quote_free (s : str) : bool :=
  forallb (fun c => negb (c =? 39) && negb (c =? 92)) s.

Definition quote_free_opt (s : option str) : bool :=
  match s with
  | Some s => quote_free s
  | None => true
  end.

(** A row as [cursor(dictionary=True)] returns it. *)
Definition ticket_dict (id : Z) (r : ticket_row) : list (str * value) :=
  [ (py "id", VInt id);
    (py "total_seats", VInt (total_seats r));
    (py "remaining_seats", VInt (remaining_seats r));
    (py "price", VDecimal (price r)) ].

Definition order_dict (o : order_row) : list (str * value) :=
  [ (py "order_no", VStr (order_no o));
    (py "ticket_type", VStr (ticket_type o));
    (py "ticket_id", VInt (ticket_id o));
    (py "quantity", VInt (quantity o));
    (py "unit_price", VFloat (unit_price o));
    (py "total_price", VFloat (total_price o));
    (py "contact_name", VStr (contact_name o));
    (py "contact_phone", VStr (contact_phone o));
    (py "contact_id_card", VStr (contact_id_card o));
    (py "status", VStr (status o)) ].

(** The rows a SELECT returns. *)
Definition run_query (q : query) (w : world) : list (list (str * value)) :=
  match q with
  | SelectTicket t id =>
      match tickets t (db w) !! id with
      | Some r => [ticket_dict id r]
      | None => []
      end
  | SelectOrder no =>
      map order_dict
        (List.filter (fun o => str_eqb (order_no o) no) (orders (db w)))
  | RawQuery sql => raw w sql
  end.

Definition cancel_row (no : str) (o : order_row) : order_row :=
  if str_eqb (order_no o) no then
    {| order_no := order_no o; ticket_type := ticket_type o;
       ticket_id := ticket_id o; quantity := quantity o;
       unit_price := unit_price o; total_price := total_price o;
       contact_name := contact_name o; contact_phone := contact_phone o;
       contact_id_card := contact_id_card o; status := py "cancelled" |}
  else o.

(** An UPDATE: the tables after it and [cursor.rowcount], the number of
    rows it changed. *)
Definition run_update (u : update) (d : database) : database * Z :=
  match u with
  | UpdateSeats t id q =>
      match tickets t d !! id with
      | Some r =>
          if (remaining_seats r >=? q) && negb (q =? 0) then
            (set_tickets t
               (<[id := {| total_seats := total_seats r;
                           remaining_seats := remaining_seats r - q;
                           price := price r |}]> (tickets t d)) d,
             1)
          else (d, 0)
      | None => (d, 0)
      end
  | CancelOrder no =>
      (set_orders (map (cancel_row no) (orders d)) d,
       Z.of_nat (length (List.filter
                           (fun o => str_eqb (order_no o) no
                                     && negb (str_eqb (status o) (py "cancelled")))
                           (orders d))))
  end.

(** The INSERT into [orders]: the tables after it and [cursor.lastrowid]
    (as an AUTO_INCREMENT key counts when no row was ever deleted). *)
Definition run_insert (o : order_row) (d : database) : database * Z :=
  (set_orders (orders d ++ [o]) d, Z.of_nat (length (orders d)) + 1).

End Db.
Export Db.

(** ** src/mcp_servers/base_service.py *)

Module DatabaseService.

(** A method of the service: it runs in a world, returns or raises, and
    leaves a world. *)
Definition M (A : Type) : Type := world -> outcome A * world.

Definition ret {A : Type} (a : A) : M A := fun w => (Ret a, w).

Definition raise {A : Type} (e : exn) : M A := fun w => (Raise e, w).

Definition bind {A B : Type} (m : M A) (k : A -> M B) : M B :=
  fun w =>
    match m w with
    | (Ret a, w') => k a w'
    | (Raise e, w') => (Raise e, w')
    end.

Notation "'let!' x ':=' m 'in' k" := (bind m (fun x => k))
  (at level 10, x name, m at level 200, k at level 200).

(** [try: m  except MySQLError as e: h e]. *)
Definition except_mysql {A : Type} (m : M A) (h : str -> M A) : M A :=
  fun w =>
    match m w with
    | (Raise (MySQLError msg), w') => h msg w'
    | r => r
    end.

(** [try: m  except Exception as e: h e]. *)
Definition except_any {A : Type} (m : M A) (h : exn -> M A) : M A :=
  fun w =>
    match m w with
    | (Raise e, w') => h e w'
    | r => r
    end.

Definition next (l : list event) : event * list event :=
  match l with
  | [] => (Good, [])
  | e :: l' => (e, l')
  end.

(** [mysql.connector.connect(...)], as [_connect] calls it: it logs and
    re-raises a [MySQLError]. *)
Definition _connect : M unit :=
  fun w =>
    let '(e, rest) := next (net w) in
    let w' := {| db := db w; net := rest; faults := faults w; raw := raw w |} in
    match e with
    | Good => (Ret tt, w')
    | Bad msg => (Raise (MySQLError msg), w')
    end.

(** [self._conn.is_connected()]; [self._conn] is never [None] once the
    service is constructed. *)
Definition is_connected : M bool :=
  fun w =>
    let '(e, rest) := next (net w) in
    let w' := {| db := db w; net := rest; faults := faults w; raw := raw w |} in
    match e with
    | Good => (Ret true, w')
    | Bad _ => (Ret false, w')
    end.

Definition _ensure_connection : M unit :=
  except_mysql
    (let! up := is_connected in
     if negb up then _connect else ret tt)
    (fun _ => _connect).

(** One statement sent through a cursor: the server runs it, or the driver
    raises. *)
Definition statement {A : Type} (run : world -> A * world) : M A :=
  fun w =>
    let '(e, rest) := next (faults w) in
    let w' := {| db := db w; net := net w; faults := rest; raw := raw w |} in
    match e with
    | Good => let '(a, w'') := run w' in (Ret a, w'')
    | Bad msg => (Raise (MySQLError msg), w')
    end.

(** [_encode_value]. *)
Definition _encode_value (v : value) : value :=
  match v with
  | VDatetime t => VStr (strftime_datetime t)
  | VDate d => VStr (strftime_date d)
  | VTimedelta td => VStr (str_timedelta td)
  | VDecimal d => VFloat (FloatOfDecimal d)
  | _ => v
  end.

(** [f] on every item of a list, [None] as soon as one call raises. *)
Definition all_some {A B : Type} (f : A -> option B) : list A -> option (list B) :=
  fix go (l : list A) : option (list B) :=
    match l with
    | [] => Some []
    | x :: r =>
        match f x, go r with
        | Some a, Some b => Some (a :: b)
        | _, _ => None
        end
    end.

(** [json.dumps(v, cls=DateTimeEncoder)]: the document the text denotes
    (what [json.loads] reads back from it), [None] when the encoder raises
    [TypeError].  [DateTimeEncoder.default] converts the temporal and decimal
    values it meets; bytes are not serializable. *)
Fixpoint json_dumps (v : value) : option value :=
  match v with
  | VNone | VBool _ | VInt _ | VFloat _ | VStr _ => Some v
  | VDatetime t => Some (VStr (strftime_datetime t))
  | VDate d => Some (VStr (strftime_date d))
  | VTimedelta td => Some (VStr (str_timedelta td))
  | VDecimal d => Some (VFloat (FloatOfDecimal d))
  | VBytes _ => None
  | VList l => option_map VList (all_some json_dumps l)
  | VDict l =>
      option_map VDict
        (all_some (fun kv => option_map (pair (fst kv)) (json_dumps (snd kv))) l)
  end.

(** [row[key] = self._encode_value(value)] for every item of a row. *)
Definition encode_row (row : list (str * value)) : value :=
  VDict (map (fun kv => (fst kv, _encode_value (snd kv))) row).

(** The three documents of [execute_query]. *)
Definition success_json (data : value) : value :=
  VDict [(py "status", VStr (py "success")); (py "data", data)].

Definition no_data_json : value :=
  VDict [(py "status", VStr (py "no_data")); (py "message", VStr (py "未找到数据"))].

Definition error_json (message : str) : value :=
  VDict [(py "status", VStr (py "error")); (py "message", VStr message)].

(** [execute_query]: the JSON text it returns, as the document it denotes.
    The statement is one of the queries above, a SELECT. *)
Definition execute_query (sql : query) : M value :=
  let! _ := _ensure_connection in
  except_mysql
    (let! results := statement (fun w => (run_query sql w, w)) in
     let results := map encode_row results in
     match results with
     | _ :: _ =>
         match json_dumps (success_json (VList results)) with
         | Some doc => ret doc
         | None => raise (TypeError (py "Object of type bytes is not JSON serializable"))
         end
     | [] => ret no_data_json
     end)
    (fun msg => ret (error_json msg)).

(** [execute_insert], for the INSERT of the order backend.  The connection
    is opened with [autocommit=True]: [rollback] undoes nothing. *)
Definition execute_insert (row : order_row) : M (list (str * value)) :=
  let! _ := _ensure_connection in
  except_mysql
    (let! last_id := statement (fun w =>
                  let '(d, id) := run_insert row (db w) in (id, set_db d w)) in
     ret [(py "status", VStr (py "success")); (py "id", VInt last_id)])
    (fun msg => ret [(py "status", VStr (py "error")); (py "message", VStr msg)]).

(** [execute_update]. *)
Definition execute_update (sql : update) : M (list (str * value)) :=
  let! _ := _ensure_connection in
  except_mysql
    (let! affected := statement (fun w =>
                   let '(d, n) := run_update sql (db w) in (n, set_db d w)) in
     ret [(py "status", VStr (py "success")); (py "affected_rows", VInt affected)])
    (fun msg => ret [(py "status", VStr (py "error")); (py "message", VStr msg)]).

End DatabaseService.
Export DatabaseService.

(** ** src/mcp_servers/order_mcp.py *)

Module OrderService.

Definition table_map (ticket_type : str) : option ticket_table :=
  if str_eqb ticket_type (py "train") then Some train_tickets
  else if str_eqb ticket_type (py "flight") then Some flight_tickets
  else if str_eqb ticket_type (py "concert") then Some concert_tickets
  else None.

Definition get_ticket_info (ticket_type : str) (ticket_id : Z)
  : M (option (list (str * value))) :=
  match table_map ticket_type with
  | None => ret None
  | Some table =>
      let! result := execute_query (SelectTicket table ticket_id) in
      (* data = json.loads(result), inside a try whose handler is [pass] *)
      match result with
      | VDict data =>
          if is_str (dict_get (py "status") data) (py "success")
             && truthy_opt (dict_get (py "data") data)
          then
            match dict_get (py "data") data with
            | Some (VList (first :: _)) =>
                match first with
                | VDict ticket => ret (Some ticket)
                | _ => ret None
                end
            | _ => ret None
            end
          else ret None
      | _ => ret None
      end
  end.

Definition update_remaining_seats (ticket_type : str) (ticket_id quantity : Z)
  : M bool :=
  match table_map ticket_type with
  | None => ret false
  | Some table =>
      let! result := execute_update (UpdateSeats table ticket_id quantity) in
      match default (VInt 0) (dict_get (py "affected_rows") result) with
      | VInt n => ret (n >? 0)
      | _ => raise (TypeError (py "'>' not supported"))
      end
  end.

Definition error_result (message : str) : value :=
  VDict [(py "status", VStr (py "error")); (py "message", VStr message)].

(** [create_order], with the reading [now] of the clock and the integer
    [u] of the uuid that [generate_order_no] draws. *)
Definition create_order (now : datetime) (u : Z)
    (ticket_type : str) (ticket_id quantity : Z)
    (contact_name contact_phone contact_id_card : str) : M value :=
  let! ticket := get_ticket_info ticket_type ticket_id in
  match ticket with
  | None | Some [] => ret (error_result (py "票务不存在"))
  | Some ticket =>
      match default (VInt 0) (dict_get (py "remaining_seats") ticket) with
      | VInt remaining =>
          if remaining <? quantity then
            ret (error_result
                   (py "余票不足，当前仅剩 " ++ str_of_int remaining ++ py " 张"))
          else
            match
              match default (VInt 0) (dict_get (py "price") ticket) with
              | VFloat f => Some f
              | VInt n => Some (FloatOfInt n)
              | VDecimal d => Some (FloatOfDecimal d)
              | _ => None
              end
            with
            | None => raise (TypeError (py "float() argument must be a string or a real number"))
            | Some unit_price_ =>
                let total_price_ := FloatMul unit_price_ (FloatOfInt quantity) in
                let order_no_ := generate_order_no now u in
                let! ok := update_remaining_seats ticket_type ticket_id quantity in
                if negb ok then ret (error_result (py "库存扣减失败，请重试"))
                else
                  let! result := execute_insert
                    {| order_no := order_no_; ticket_type := ticket_type;
                       ticket_id := ticket_id; quantity := quantity;
                       unit_price := unit_price_; total_price := total_price_;
                       contact_name := contact_name;
                       contact_phone := contact_phone;
                       contact_id_card := contact_id_card;
                       status := py "pending" |} in
                  if is_str (dict_get (py "status") result) (py "success") then
                    ret (VDict
                      [ (py "status", VStr (py "success"));
                        (py "data", VDict
                          [ (py "order_no", VStr order_no_);
                            (py "ticket_type", VStr ticket_type);
                            (py "ticket_id", VInt ticket_id);
                            (py "quantity", VInt quantity);
                            (py "unit_price", VFloat unit_price_);
                            (py "total_price", VFloat total_price_);
                            (py "contact_name", VStr contact_name);
                            (py "contact_phone", VStr contact_phone);
                            (py "status", VStr (py "pending")) ]) ])
                  else
                    let! _ := update_remaining_seats ticket_type ticket_id (- quantity) in
                    ret (error_result (py "订单创建失败"))
            end
      | _ => raise (TypeError (py "'<' not supported"))
      end
  end.

Definition query_order (order_no : str) : M value :=
  execute_query (SelectOrder order_no).

Definition cancel_order (order_no : str) : M value :=
  let! result := execute_query (SelectOrder order_no) in
  except_any
    (match result with
     | VDict data =>
         if negb (is_str (dict_get (py "status") data) (py "success"))
            || negb (truthy_opt (dict_get (py "data") data))
         then ret (error_result (py "订单不存在"))
         else
           match dict_get (py "data") data with
           | Some (VList (VDict order :: _)) =>
               if negb (is_str (dict_get (py "status") order) (py "pending"))
               then ret (error_result (py "只能取消待支付的订单"))
               else
                 let! _ := execute_update (CancelOrder order_no) in
                 match dict_get (py "ticket_type") order,
                       dict_get (py "ticket_id") order,
                       dict_get (py "quantity") order with
                 | Some (VStr tt_), Some (VInt id), Some (VInt q) =>
                     let! _ := update_remaining_seats tt_ id (- q) in
                     ret (VDict [ (py "status", VStr (py "success"));
                                  (py "message", VStr (py "订单已取消")) ])
                 | _, _, _ => raise (OtherError (py "bad order row"))
                 end
           | _ => raise (OtherError (py "bad result"))
           end
     | _ => raise (OtherError (py "bad result"))
     end)
    (fun e => ret (error_result (exn_str e))).

(** The text of the statement [list_orders] builds. *)
Definition list_orders_sql (contact_phone status : option str) (limit : Z) : str :=
  let conditions :=
    (match contact_phone with
     | Some p => if is_empty p then [] else [py "contact_phone = '" ++ p ++ py "'"]
     | None => []
     end)
    ++
    (match status with
     | Some s => if is_empty s then [] else [py "status = '" ++ s ++ py "'"]
     | None => []
     end) in
  let where_clause :=
    match conditions with
    | [] => py "1=1"
    | _ => join (py " AND ") conditions
    end in
  py "SELECT order_no, ticket_type, quantity, total_price, contact_name, contact_phone, status, created_at FROM orders WHERE "
  ++ where_clause ++ py " ORDER BY created_at DESC LIMIT " ++ str_of_int limit.

Definition list_orders (contact_phone status : option str) (limit : Z) : M value :=
  execute_query (RawQuery (list_orders_sql contact_phone status limit)).

End OrderService.

(** ** src/agents/order_agent.py *)

Module OrderAgent.

Inductive TaskState := COMPLETED | FAILED | INPUT_REQUIRED.

(** A [TaskStatus]: its state and the content of its message. *)
Record TaskStatus := { state : TaskState; content : value }.

(** Modelled from the spec: [create_success_response],
    [create_error_response] and [create_input_required_response], which
    [handle_task] calls and no class under src/ defines under these names
    ([BaseAgent] has [success_response], [error_response] and
    [input_required_response]): a [TaskStatus] with the corresponding state
    and an assistant message carrying the text. *)
Definition create_success_response (text : value) : TaskStatus :=
  {| state := COMPLETED; content := text |}.

Definition create_error_response (text : value) : TaskStatus :=
  {| state := FAILED; content := text |}.

Definition create_input_required_response (text : value) : TaskStatus :=
  {| state := INPUT_REQUIRED; content := text |}.

(** [type(v).__name__]. *)
Definition type_name (v : value) : str :=
  match v with
  | VNone => py "NoneType"
  | VBool _ => py "bool"
  | VInt _ => py "int"
  | VFloat _ => py "float"
  | VStr _ => py "str"
  | VBytes _ => py "bytes"
  | VDatetime _ => py "datetime.datetime"
  | VDate _ => py "datetime.date"
  | VTimedelta _ => py "datetime.timedelta"
  | VDecimal _ => py "decimal.Decimal"
  | VList _ => py "list"
  | VDict _ => py "dict"
  end.

(** The items of [v] when [v.get] exists, [AttributeError] otherwise. *)
Definition items_of (v : value) : outcome (list (str * value)) :=
  match v with
  | VDict items => Ret items
  | _ => Raise (OtherError
                  (py "'" ++ type_name v ++ py "' object has no attribute 'get'"))
  end.

(** [int(s)] for a string of decimal digits. *)
Definition int_of_digits (s : str) : Z :=
  fold_left (fun acc c => acc * 10 + default 0 (int_char c)) s 0.

(** One attempt to match [r'票务ID[：:]\s*(\d+)'] at the start of [s]: the
    group and the number of characters matched.  [\s] and [\d] share no
    character, so the greedy [\s*] never has to give a character back. *)
Definition match_ticket_id (s : str) : option (str * nat) :=
  if starts_with (py "票务ID") s then
    match drop 4 s with
    | c :: rest =>
        if (c =? 0xFF1A) || (c =? 58) then
          let '(ws, rest1) := span is_space rest in
          let '(ds, _) := span is_decimal rest1 in
          match ds with
          | [] => None
          | _ :: _ => Some (ds, (5 + length ws + length ds)%nat)
          end
        else None
    | [] => None
    end
  else None.

(** [re.findall(pattern, content)]: the groups of the matches found
    scanning from left to right, a match starting where the one before it
    ended; [skip] counts the characters still covered by the last match. *)
Fixpoint findall_ticket_ids (skip : nat) (s : str) : list str :=
  match s with
  | [] => []
  | _ :: rest =>
      match skip with
      | S k => findall_ticket_ids k rest
      | O =>
          match match_ticket_id s with
          | Some (group, n) => group :: findall_ticket_ids (n - 1) rest
          | None => findall_ticket_ids 0 rest
          end
      end
  end.

(** [extract_ticket_ids].  ([int] is taken without the interpreter's limit
    on the number of digits.) *)
Definition extract_ticket_ids (content : str) : list Z :=
  map int_of_digits (findall_ticket_ids 0 content).

Definition nl : str := [10].

(** [v = d.get(key)] followed by [if v:]: the value when the branch is
    taken. *)
Definition when_truthy (v : option value) : option value :=
  match v with
  | Some x => if truthy x then Some x else None
  | None => None
  end.

Section Agent.

(** What the agent talks to: the language model behind [parse_intent], the
    Ticket Agent behind [ticket_client.query_tickets], the order backend
    behind [call_mcp_tool], and two functions of the interpreter,
    [json.loads] ([None] when it raises) and the text an f-string writes for
    a value that is not a string. *)
Variable parse_intent : str -> value.
Variable query_tickets : str -> list (str * value).
Variable call_mcp_tool : str -> list (str * value) -> list (str * value).
Variable json_loads : str -> option value.
Variable repr_value : value -> str.

(** [f"{v}"]. *)
Definition fmt (v : value) : str :=
  match v with
  | VStr s => s
  | VInt n => str_of_int n
  | _ => repr_value v
  end.

Definition get_welcome_message : str :=
  py "请输入您的订票需求，例如：订一张明天北京到上海的高铁票，二等座，张三，13800138000".

(** [' '.join(parts)]: every part has to be a string. *)
Fixpoint join_parts (i : Z) (parts : list value) : outcome (list str) :=
  match parts with
  | [] => Ret []
  | VStr s :: rest =>
      match join_parts (i + 1) rest with
      | Ret l => Ret (s :: l)
      | Raise e => Raise e
      end
  | v :: _ =>
      Raise (TypeError (py "sequence item " ++ str_of_int i
                        ++ py ": expected str instance, " ++ type_name v
                        ++ py " found"))
  end.

(** [if params.get(key): parts.append(f(params[key]))]. *)
Definition part (params : list (str * value)) (key : str) (f : value -> value)
  : list value :=
  match dict_get key params with
  | Some v => if truthy v then [f v] else []
  | None => []
  end.

Definition build_query_text (intent : list (str * value)) : outcome str :=
  let ticket_type := default (VStr []) (dict_get (py "ticket_type") intent) in
  let params := default (VDict []) (dict_get (py "query_params") intent) in
  let to_ := fun v => VStr (py "到" ++ fmt v) in
  let build (head : str) (fields : list (str * value) -> list value) :=
    match items_of params with
    | Raise e => Raise e
    | Ret params =>
        match join_parts 1 (fields params) with
        | Ret l => Ret (join (py " ") (head :: l))
        | Raise e => Raise e
        end
    end in
  if is_str (Some ticket_type) (py "train") then
    build (py "查询火车票")
      (fun params =>
         part params (py "date") id ++ part params (py "departure_city") id
         ++ part params (py "arrival_city") to_
         ++ part params (py "seat_type") id)
  else if is_str (Some ticket_type) (py "flight") then
    build (py "查询机票")
      (fun params =>
         part params (py "date") id ++ part params (py "departure_city") id
         ++ part params (py "arrival_city") to_
         ++ part params (py "cabin_type") id)
  else if is_str (Some ticket_type) (py "concert") then
    build (py "查询演唱会")
      (fun params => part params (py "artist") id ++ part params (py "city") id)
  else Ret (py "查询票务").

Definition format_booking_result (result : list (str * value)) : outcome str :=
  if is_str (dict_get (py "status") result) (py "success") then
    let data := default (VDict []) (dict_get (py "data") result) in
    let lines (data : value) : outcome str :=
      match items_of data with
      | Raise e => Raise e
      | Ret data =>
          Ret (join nl
            [ py "✅ 订票成功！" ++ nl;
              py "📋 订单号: " ++ fmt (default (VStr (py "N/A")) (dict_get (py "order_no") data));
              py "🎫 数量: " ++ fmt (default (VInt 1) (dict_get (py "quantity") data)) ++ py "张";
              py "💰 总价: ¥" ++ fmt (default (VStr (py "N/A")) (dict_get (py "total_price") data));
              py "👤 联系人: " ++ fmt (default (VStr (py "N/A")) (dict_get (py "contact_name") data));
              py "📱 电话: " ++ fmt (default (VStr (py "N/A")) (dict_get (py "contact_phone") data));
              nl ++ py "⏰ 请在30分钟内完成支付" ])
      end in
    match data with
    | VStr text =>
        match json_loads text with
        | Some data => lines data
        | None => Ret (py "✅ 订票成功！" ++ nl ++ text)
        end
    | _ => lines data
    end
  else
    Ret (py "❌ 订票失败: "
         ++ fmt (default (VStr (py "未知错误")) (dict_get (py "message") result))).

(** A call of a tool of the order backend: its name and its arguments. *)
Definition call : Type := str * list (str * value).

(** The arguments of [create_order] for a ticket id. *)
Definition order_data (intent contact : list (str * value)) (ticket_id : value)
  : list (str * value) :=
  [ (py "ticket_type", default (VStr (py "train")) (dict_get (py "ticket_type") intent));
    (py "ticket_id", ticket_id);
    (py "quantity", default (VInt 1) (dict_get (py "quantity") intent));
    (py "contact_name", default (VStr []) (dict_get (py "name") contact));
    (py "contact_phone", default (VStr []) (dict_get (py "phone") contact));
    (py "contact_id_card", default (VStr []) (dict_get (py "id_card") contact)) ].

(** The block written twice in [handle_task] (for a ticket id given by the
    user, and for the only ticket id found): call [create_order], format the
    result, answer by its status. *)
Definition place_order (intent contact : list (str * value)) (ticket_id : value)
  : outcome TaskStatus * list call :=
  let order_result := call_mcp_tool (py "create_order")
                        (order_data intent contact ticket_id) in
  (match format_booking_result order_result with
   | Ret formatted =>
       if is_str (dict_get (py "status") order_result) (py "success")
       then Ret (create_success_response (VStr formatted))
       else Ret (create_error_response (VStr formatted))
   | Raise e => Raise e
   end,
   [(py "create_order", order_data intent contact ticket_id)]).

(** [needle in v]. *)
Definition py_in (needle : str) (v : value) : outcome bool :=
  match v with
  | VStr s => Ret (contains needle s)
  | VList l =>
      Ret (existsb (fun x => match x with VStr s => str_eqb s needle | _ => false end) l)
  | VDict l => Ret (existsb (fun kv => str_eqb (fst kv) needle) l)
  | _ => Raise (TypeError (py "argument of type '" ++ type_name v
                           ++ py "' is not iterable"))
  end.

(** The body of the [try] of [handle_task], for the text [user_input] that
    [extract_user_input] found in the task: what it returns or raises, and
    the tool calls it made. *)
Definition handle_task_body (user_input : str) : outcome TaskStatus * list call :=
  if is_empty user_input then
    (Ret (create_input_required_response (VStr get_welcome_message)), [])
  else
    match items_of (parse_intent user_input) with
    | Raise e => (Raise e, [])
    | Ret intent =>
        if is_str (dict_get (py "status") intent) (py "input_required") then
          (Ret (create_input_required_response
                  (default (VStr (py "请提供更多订票信息"))
                           (dict_get (py "message") intent))), [])
        else
          match items_of (default (VDict []) (dict_get (py "contact") intent)) with
          | Raise e => (Raise e, [])
          | Ret contact =>
              if negb (truthy_opt (dict_get (py "name") contact))
                 || negb (truthy_opt (dict_get (py "phone") contact))
              then
                (Ret (create_input_required_response
                        (VStr (py "请提供联系人姓名和手机号码，例如：张三，13800138000"))), [])
              else
                match when_truthy (dict_get (py "ticket_id") intent) with
                | Some ticket_id => place_order intent contact ticket_id
                | None =>
                    match build_query_text intent with
                    | Raise e => (Raise e, [])
                    | Ret query_text =>
                        let ticket_result := query_tickets query_text in
                        if is_str (dict_get (py "status") ticket_result) (py "error")
                        then
                          (Ret (create_error_response
                                  (VStr (py "查询余票失败: "
                                         ++ fmt (default VNone
                                                   (dict_get (py "message") ticket_result))))),
                           [])
                        else
                          let content :=
                            default (VStr []) (dict_get (py "content") ticket_result) in
                          match
                            match py_in (py "未找到") content with
                            | Ret true => Ret true
                            | Ret false => py_in (py "没有") content
                            | Raise e => Raise e
                            end
                          with
                          | Raise e => (Raise e, [])
                          | Ret true =>
                              (Ret (create_input_required_response
                                      (VStr (py "😔 " ++ fmt content ++ nl ++ nl
                                             ++ py "请调整您的出行计划：" ++ nl
                                             ++ py "- 尝试其他日期" ++ nl
                                             ++ py "- 尝试其他座位类型" ++ nl
                                             ++ py "- 尝试其他车次/航班"))),
                               [])
                          | Ret false =>
                              match content with
                              | VStr text =>
                                  match extract_ticket_ids text with
                                  | [] =>
                                      (Ret (create_input_required_response
                                              (VStr (py "查询到以下票务信息：" ++ nl ++ nl
                                                     ++ text ++ nl ++ nl
                                                     ++ py "请提供您要预订的票务ID，例如：订票务ID 123"))),
                                       [])
                                  | [ticket_id] =>
                                      place_order intent contact (VInt ticket_id)
                                  | first :: _ :: _ =>
                                      (Ret (create_input_required_response
                                              (VStr (py "查询到多个票务选项：" ++ nl ++ nl
                                                     ++ text ++ nl ++ nl
                                                     ++ py "请指定您要预订的票务ID，例如：订票务ID "
                                                     ++ str_of_int first))),
                                       [])
                                  end
                              | _ =>
                                  (Raise (TypeError
                                            (py "expected string or bytes-like object, got '"
                                             ++ type_name content ++ py "'")),
                                   [])
                              end
                          end
                    end
                end
          end
    end.

(** [handle_task]: what it answers for the text [user_input] of the task,
    and the tool calls it made. *)
Definition handle_task (user_input : str) : TaskStatus * list call :=
  match handle_task_body user_input with
  | (Ret response, calls) => (response, calls)
  | (Raise e, calls) =>
      (create_error_response (VStr (py "处理订票请求时发生错误: " ++ exn_str e)), calls)
  end.

End Agent.
End OrderAgent.

(** * Properties *)

(** ** Pattern matching *)

Lemma match_seq_spec (p : list cclass) (s rest : str) :
  match_seq p s = Some rest <->
  exists pre, s = pre ++ rest /\ Forall2 (fun c x => c x = true) p pre.
Proof.
  revert s. induction p as [|c p IH]; intros s; simpl.
  - split.
    + intros [= ->]. exists []. split; [reflexivity | constructor].
    + intros (pre & -> & H). inversion H. reflexivity.
  - destruct s as [|x s].
    + split; [discriminate |].
      intros (pre & Hs & H). inversion H; subst. discriminate.
    + destruct (c x) eqn:Hc.
      * rewrite IH. split.
        -- intros (pre & -> & H). exists (x :: pre). split; [reflexivity |].
           constructor; assumption.
        -- intros (pre & Hs & H). inversion H; subst.
           injection Hs as -> ->. eexists. split; [reflexivity | assumption].
      * split; [discriminate |].
        intros (pre & Hs & H). inversion H; subst.
        injection Hs as -> ->. congruence.
Qed.

Lemma Forall2_class_repeat (c : cclass) (n : nat) (pre : str) :
  Forall2 (fun c x => c x = true) (repeat c n) pre <->
  length pre = n /\ Forall (fun x => c x = true) pre.
Proof.
  revert pre. induction n as [|n IH]; intros pre; simpl.
  - split.
    + intros H. inversion H. split; [reflexivity | constructor].
    + intros [H _]. destruct pre; [constructor | discriminate].
  - split.
    + intros H. inversion H as [|? y ? l' Hy Hl]; subst.
      apply IH in Hl as [Hlen Hall]. simpl. split; [congruence |].
      constructor; assumption.
    + intros [Hlen Hall]. destruct pre as [|y pre]; [discriminate |].
      inversion Hall; subst. constructor; [assumption |].
      apply IH. split; [simpl in Hlen; congruence | assumption].
Qed.

Lemma at_dollar_spec (rest : str) :
  at_dollar rest = true <-> rest = [] \/ rest = [10].
Proof.
  destruct rest as [|c [|d rest]]; simpl.
  - split; auto.
  - rewrite Z.eqb_eq. split.
    + intros ->. auto.
    + intros [H | H]; congruence.
  - split; [discriminate | intros [H | H]; discriminate].
Qed.

Lemma match_anchored_spec (p : list cclass) (s : str) :
  match_anchored p s = true <->
  exists pre, Forall2 (fun c x => c x = true) p pre /\
              (s = pre \/ s = pre ++ [10]).
Proof.
  unfold match_anchored. split.
  - destruct (match_seq p s) as [rest|] eqn:Hm; [| discriminate].
    intros Hd. apply match_seq_spec in Hm as (pre & -> & HF).
    apply at_dollar_spec in Hd as [-> | ->]; exists pre.
    + rewrite app_nil_r. auto.
    + auto.
  - intros (pre & HF & [-> | ->]).
    + assert (Hm : match_seq p pre = Some []).
      { apply match_seq_spec. exists pre. rewrite app_nil_r. auto. }
      rewrite Hm. reflexivity.
    + assert (Hm : match_seq p (pre ++ [10]) = Some [10]).
      { apply match_seq_spec. exists pre. auto. }
      rewrite Hm. reflexivity.
Qed.

Lemma ascii_digit_is_decimal (c : Z) :
  48 <= c <= 57 -> is_decimal c = true /\ int_char c = Some (c - 48).
Proof.
  intros H. unfold is_decimal, int_char, decimal_run, decimal_zeros.
  cbn [List.find].
  replace ((48 <=? c) && (c <? 48 + 10)) with true; [auto |].
  symmetry. apply andb_true_iff. split; [apply Z.leb_le | apply Z.ltb_lt]; lia.
Qed.

Lemma zdigits_length (k : nat) (n : Z) : length (zdigits k n) = k.
Proof.
  revert n. induction k as [|k IH]; intros n; simpl; [reflexivity |].
  rewrite length_app, IH. simpl. lia.
Qed.

Lemma zdigits_decimal (k : nat) (n : Z) :
  Forall (fun c => is_decimal c = true) (zdigits k n).
Proof.
  revert n. induction k as [|k IH]; intros n; simpl; [constructor |].
  apply Forall_app. split; [apply IH |].
  constructor; [| constructor].
  apply ascii_digit_is_decimal.
  pose proof (Z.mod_pos_bound n 10). lia.
Qed.

Lemma hexdigits_length (k : nat) (n : Z) : length (hexdigits k n) = k.
Proof.
  revert n. induction k as [|k IH]; intros n; simpl; [reflexivity |].
  rewrite length_app, IH. simpl. lia.
Qed.

Lemma hexdigits_upper_class (k : nat) (n : Z) :
  Forall (fun c => either (range 65 90) (range 48 57) (char_upper c) = true)
         (hexdigits k n).
Proof.
  revert n. induction k as [|k IH]; intros n; simpl; [constructor |].
  apply Forall_app. split; [apply IH |].
  constructor; [| constructor].
  pose proof (Z.mod_pos_bound n 16 ltac:(lia)) as Hb.
  unfold hexchar, either, range, char_upper.
  destruct (n mod 16 <? 10) eqn:Hlt.
  - apply Z.ltb_lt in Hlt.
    replace ((97 <=? 48 + n mod 16) && (48 + n mod 16 <=? 122)) with false
      by (symmetry; apply andb_false_iff; left; apply Z.leb_gt; lia).
    apply orb_true_iff. right.
    apply andb_true_iff. split; apply Z.leb_le; lia.
  - apply Z.ltb_ge in Hlt.
    replace ((97 <=? 87 + n mod 16) && (87 + n mod 16 <=? 122)) with true
      by (symmetry; apply andb_true_iff; split; apply Z.leb_le; lia).
    apply orb_true_iff. left.
    apply andb_true_iff. split; apply Z.leb_le; lia.
Qed.

(** ** Order numbers and the validators *)

Lemma order_no_parts (now : datetime) (u : Z) :
  Forall2 (fun c x => c x = true) Validators.order_no_pattern
          (generate_order_no now u).
Proof.
  unfold Validators.order_no_pattern, generate_order_no.
  apply Forall2_app; [| apply Forall2_app].
  - repeat constructor.
  - apply Forall2_class_repeat. split.
    + unfold strftime_compact. rewrite !length_app, !zdigits_length. reflexivity.
    + unfold strftime_compact. rewrite !Forall_app.
      repeat split; apply zdigits_decimal.
  - apply Forall2_class_repeat. unfold upper, uuid_hex. split.
    + rewrite length_map, length_take, hexdigits_length. reflexivity.
    + apply Forall_map. apply Forall_take. apply hexdigits_upper_class.
Qed.

(** C5: every order number the generator builds, from any reading of the
    clock and any uuid, is matched in full by [^ORD\d{14}[A-Z0-9]{6}$] (the
    pattern consumes the whole string) and [validate_order_no] accepts it
    with an empty message. *)
Theorem generate_order_no_validates (now : datetime) (u : Z) :
  valid_datetime now -> 0 <= u < 2 ^ 128 ->
  match_seq Validators.order_no_pattern (generate_order_no now u) = Some [] /\
  Validators.validate_order_no (generate_order_no now u) = (true, []).
Proof.
  intros _ _.
  assert (Hm : match_seq Validators.order_no_pattern (generate_order_no now u)
               = Some []).
  { apply match_seq_spec. exists (generate_order_no now u).
    rewrite app_nil_r. split; [reflexivity | apply order_no_parts]. }
  split; [exact Hm |].
  unfold Validators.validate_order_no, match_anchored. rewrite Hm.
  reflexivity.
Qed.

Lemma generate_order_no_validates_witness :
  match_seq Validators.order_no_pattern
    (generate_order_no
       {| year := 2026; month := 1; day := 19; hour := 8; minute := 5;
          second := 59; microsecond := 0 |}
       0xabcdef0123456789abcdef0123456789) = Some [] /\
  Validators.validate_order_no
    (generate_order_no
       {| year := 2026; month := 1; day := 19; hour := 8; minute := 5;
          second := 59; microsecond := 0 |}
       0xabcdef0123456789abcdef0123456789) = (true, []).
Proof.
  apply generate_order_no_validates.
  - unfold valid_datetime. simpl. lia.
  - lia.
Defined.

(** The shape [1[3-9]\d{9}]: eleven characters. *)
Definition phone_shape (s : str) : Prop :=
  exists d2 ds, s = 49 :: d2 :: ds /\ 51 <= d2 <= 57 /\ length ds = 9%nat /\
                Forall (fun c => is_decimal c = true) ds.

Lemma phone_pattern_shape (pre : str) :
  Forall2 (fun c x => c x = true) Validators.phone_pattern pre <->
  phone_shape pre.
Proof.
  unfold Validators.phone_pattern, phone_shape. simpl. split.
  - intros H. inversion H as [|? d1 ? l1 H1 Hl1]; subst.
    inversion Hl1 as [|? d2 ? l2 H2 Hl2]; subst.
    apply (Forall2_class_repeat is_decimal 9) in Hl2 as [Hlen Hall].
    unfold lit in H1. apply Z.eqb_eq in H1. subst d1.
    unfold range in H2. apply andb_true_iff in H2 as [Ha Hb].
    apply Z.leb_le in Ha, Hb.
    exists d2, l2. repeat split; try assumption; lia.
  - intros (d2 & ds & -> & Hd2 & Hlen & Hall).
    constructor; [reflexivity |]. constructor.
    + unfold range. apply andb_true_iff. split; apply Z.leb_le; lia.
    + apply (Forall2_class_repeat is_decimal 9). auto.
Qed.

(** What [validate_phone] accepts: the eleven-character shape, alone or
    followed by one line feed. *)
Lemma validate_phone_valid_iff (s : str) :
  fst (Validators.validate_phone s) = true <->
  phone_shape s \/ exists s0, s = s0 ++ [10] /\ phone_shape s0.
Proof.
  unfold Validators.validate_phone.
  destruct s as [|c s]; simpl is_empty; cbv iota.
  - simpl. split; [discriminate |].
    intros [(d2 & ds & H & _) | (s0 & H & _)]; [discriminate |].
    destruct s0; discriminate.
  - destruct (match_anchored Validators.phone_pattern (c :: s)) eqn:Hm; simpl.
    + apply match_anchored_spec in Hm as (pre & HF & Hs).
      apply phone_pattern_shape in HF.
      split; [intros _ | reflexivity].
      destruct Hs as [-> | ->]; [left; assumption | right; eauto].
    + split; [discriminate |]. intros H.
      assert (Ht : match_anchored Validators.phone_pattern (c :: s) = true);
        [| congruence].
      apply match_anchored_spec.
      destruct H as [H | (s0 & Hs & H)].
      * exists (c :: s). split; [apply phone_pattern_shape; assumption | auto].
      * exists s0. split; [apply phone_pattern_shape; assumption | auto].
Qed.

(** C8: [validate_phone] accepts ["13800138000\n"], a string of twelve
    characters: [$] also matches just before a final line feed, so the
    pattern is not matched in full. *)
Theorem validate_phone_trailing_newline :
  Validators.validate_phone (py "13800138000" ++ [10]) = (true, []) /\
  len (py "13800138000" ++ [10]) = 12.
Proof. vm_compute. split; reflexivity. Qed.

(** The examples of the tests. *)
Lemma validate_phone_examples :
  Validators.validate_phone (py "13800138000") = (true, []) /\
  fst (Validators.validate_phone (py "23800138000")) = false /\
  fst (Validators.validate_phone (py "1380013800")) = false /\
  fst (Validators.validate_phone []) = false.
Proof. vm_compute. repeat split; reflexivity. Qed.

(** C10: a name that contains one of the digits 0-9 is never valid, and
    when its length is between 2 and 20 the answer is the message
    ['姓名包含非法字符'], whatever else the name holds. *)
Theorem validate_name_rejects_digit (name : str) (c : Z) :
  In c name -> 48 <= c <= 57 ->
  fst (Validators.validate_name name) = false /\
  (2 <= len name <= 20 ->
   Validators.validate_name name = (false, py "姓名包含非法字符")).
Proof.
  intros Hin Hc.
  assert (Hs : search_class Validators.name_denylist name = true).
  { unfold search_class. apply existsb_exists. exists c. split; [assumption |].
    unfold Validators.name_denylist, either, range.
    apply orb_true_iff. left.
    apply andb_true_iff. split; apply Z.leb_le; lia. }
  unfold Validators.validate_name. rewrite Hs.
  destruct name as [|x name]; [contradiction |].
  cbn [is_empty].
  destruct (len (x :: name) <? 2) eqn:H2.
  - split; [reflexivity | intros H; apply Z.ltb_lt in H2; lia].
  - destruct (len (x :: name) >? 20) eqn:H20.
    + split; [reflexivity |].
      intros H. rewrite Z.gtb_ltb in H20. apply Z.ltb_lt in H20. lia.
    + split; reflexivity.
Qed.

Lemma validate_name_rejects_digit_witness :
  fst (Validators.validate_name (py "张三3")) = false /\
  Validators.validate_name (py "张三3") = (false, py "姓名包含非法字符").
Proof.
  destruct (validate_name_rejects_digit (py "张三3") 51) as [H1 H2].
  - vm_compute. right. right. left. reflexivity.
  - lia.
  - split; [exact H1 |]. apply H2. vm_compute. split; discriminate.
Defined.

(** The check digit as the specification words it:
    [checkCodes[sum(digit[i] * weights[i] for i in 0..16) mod 11]]. *)
Definition digit_value (c : Z) : Z := default 0 (int_char c).

Fixpoint sum_below (n : nat) (g : nat -> Z) : Z :=
  match n with
  | O => 0
  | S n' => sum_below n' g + g n'
  end.

Definition spec_weighted_sum (body : str) : Z :=
  sum_below 17 (fun i => digit_value (nth i body 0) * nth i Validators.weights 0).

Definition spec_check_code (body : str) : Z :=
  nth (Z.to_nat (spec_weighted_sum body mod 11)) Validators.check_codes 0.

(** Seventeen digits followed by one digit or X or x, the last character
    uppercased being the check digit of the first seventeen. *)
Definition id_card_ok (s : str) : Prop :=
  exists body c,
    s = body ++ [c] /\ length body = 17%nat /\
    Forall (fun x => is_decimal x = true) body /\
    (is_decimal c = true \/ c = 88 \/ c = 120) /\
    char_upper c = spec_check_code body.

Lemma sum_range_total (n : nat) (f : nat -> option Z) (g : nat -> Z) :
  (forall i, (i < n)%nat -> f i = Some (g i)) ->
  Validators.sum_range n f = Some (sum_below n g).
Proof.
  induction n as [|n IH]; intros H; simpl; [reflexivity |].
  rewrite IH by (intros i Hi; apply H; lia).
  rewrite H by lia. reflexivity.
Qed.

Lemma sum_below_ext (n : nat) (g h : nat -> Z) :
  (forall i, (i < n)%nat -> g i = h i) -> sum_below n g = sum_below n h.
Proof.
  induction n as [|n IH]; intros H; simpl; [reflexivity |].
  rewrite IH by (intros i Hi; apply H; lia).
  rewrite H by lia. reflexivity.
Qed.

Lemma int_char_decimal (c : Z) :
  is_decimal c = true -> int_char c = Some (digit_value c).
Proof.
  unfold is_decimal, digit_value, int_char.
  destruct (decimal_run c); [reflexivity | discriminate].
Qed.

Lemma id_card_total_digits (body rest : str) :
  length body = 17%nat -> Forall (fun x => is_decimal x = true) body ->
  Validators.id_card_total (body ++ rest) = Some (spec_weighted_sum body).
Proof.
  intros Hlen Hall. unfold Validators.id_card_total, spec_weighted_sum.
  apply sum_range_total. intros i Hi.
  assert (Hb : is_Some (body !! i)) by (apply lookup_lt_is_Some_2; lia).
  destruct Hb as [c Hc].
  rewrite (lookup_app_l_Some _ _ _ _ Hc).
  assert (Hw : is_Some (Validators.weights !! i)).
  { apply lookup_lt_is_Some_2. simpl. lia. }
  destruct Hw as [w Hw]. rewrite Hw.
  rewrite (nth_lookup_Some _ _ _ _ Hc), (nth_lookup_Some _ _ _ _ Hw).
  rewrite int_char_decimal; [reflexivity |].
  rewrite Forall_forall in Hall. apply Hall.
  apply list_elem_of_lookup. eauto.
Qed.

Lemma check_codes_lookup (t : Z) :
  exists e, Validators.check_codes !! Z.to_nat (t mod 11) = Some e /\
            e = nth (Z.to_nat (t mod 11)) Validators.check_codes 0 /\
            e <> 10.
Proof.
  pose proof (Z.mod_pos_bound t 11 ltac:(lia)) as Hb.
  assert (Hn : (Z.to_nat (t mod 11) < 11)%nat) by lia.
  destruct (Z.to_nat (t mod 11)) as [|[|[|[|[|[|[|[|[|[|[|n]]]]]]]]]]];
    try lia; vm_compute; eexists; (split; [reflexivity |]);
    (split; [reflexivity | discriminate]).
Qed.

Lemma id_card_pattern_shape (pre : str) :
  Forall2 (fun c x => c x = true) Validators.id_card_pattern pre <->
  exists body c, pre = body ++ [c] /\ length body = 17%nat /\
    Forall (fun x => is_decimal x = true) body /\
    (is_decimal c = true \/ c = 88 \/ c = 120).
Proof.
  unfold Validators.id_card_pattern. split.
  - intros H. apply Forall2_app_inv_l in H as (body & tl & Hb & Ht & ->).
    apply Forall2_class_repeat in Hb as [Hlen Hall].
    inversion Ht as [|? c ? l' Hc Hl']; subst. inversion Hl'; subst.
    exists body, c. repeat split; try assumption.
    unfold either, one_of in Hc. simpl in Hc.
    rewrite orb_false_r in Hc.
    apply orb_true_iff in Hc as [Hc | Hc]; [left; assumption | right].
    apply orb_true_iff in Hc as [Hc | Hc]; apply Z.eqb_eq in Hc; auto.
  - intros (body & c & -> & Hlen & Hall & Hc).
    apply Forall2_app.
    + apply Forall2_class_repeat. auto.
    + constructor; [| constructor].
      unfold either, one_of. simpl.
      destruct Hc as [Hc | [-> | ->]].
      * rewrite Hc. reflexivity.
      * rewrite orb_true_iff. right. reflexivity.
      * rewrite orb_true_iff. right. reflexivity.
Qed.

(** C7: the empty string is valid with an empty message; a string that is
    not empty is valid exactly when it is seventeen digits followed by one
    digit or X/x whose uppercase is
    [checkCodes[sum(digit[i]*weights[i]) mod 11]]; a valid answer carries an
    empty message; and seventeen digits alone are invalid. *)
Theorem validate_id_card_spec (s : str) :
  Validators.validate_id_card [] = (true, []) /\
  (s <> [] -> (fst (Validators.validate_id_card s) = true <-> id_card_ok s)) /\
  (fst (Validators.validate_id_card s) = true ->
   snd (Validators.validate_id_card s) = []) /\
  (length s = 17%nat -> Forall (fun x => is_decimal x = true) s ->
   fst (Validators.validate_id_card s) = false).
Proof.
  assert (Hiff : s <> [] ->
            (fst (Validators.validate_id_card s) = true <-> id_card_ok s)).
  { intros Hne. unfold Validators.validate_id_card.
    destruct s as [|x0 s0]; [congruence |]. cbn [is_empty].
    set (s := x0 :: s0) in *.
    destruct (match_anchored Validators.id_card_pattern s) eqn:Hm; cbn [negb].
    - apply match_anchored_spec in Hm as (pre & HF & Hs).
      apply id_card_pattern_shape in HF as (body & c & -> & Hlen & Hall & Hc).
      destruct (check_codes_lookup (spec_weighted_sum body))
        as (e & He & Hnth & He10).
      destruct Hs as [Hs | Hs]; rewrite Hs.
      + rewrite (id_card_total_digits body _ Hlen Hall), He, last_snoc.
        destruct (char_upper c =? e) eqn:Hup; cbn [negb fst].
        * apply Z.eqb_eq in Hup. split; [intros _ | reflexivity].
          exists body, c.
          split; [reflexivity |]. split; [assumption |].
          split; [assumption |]. split; [assumption |].
          rewrite Hup. exact Hnth.
        * apply Z.eqb_neq in Hup. split; [discriminate |].
          intros (body' & c' & Heq & _ & _ & _ & Hcode).
          apply app_inj_tail in Heq as [-> ->].
          exfalso. apply Hup. rewrite Hcode. symmetry. exact Hnth.
      + rewrite <- !app_assoc.
        rewrite (id_card_total_digits body _ Hlen Hall), He.
        rewrite !app_assoc, last_snoc.
        replace (char_upper 10 =? e) with false
          by (symmetry; apply Z.eqb_neq; vm_compute (char_upper 10); congruence).
        cbn [negb fst]. split; [discriminate |].
        intros (body' & c' & Heq & Hlen' & _ & _ & _).
        apply app_inj_tail in Heq as [Heq _].
        apply (f_equal (@length Z)) in Heq.
        rewrite length_app in Heq. simpl in Heq. lia.
    - cbn [negb fst]. split; [discriminate |].
      intros (body & c & Heq & Hlen & Hall & Hc & _).
      assert (Ht : match_anchored Validators.id_card_pattern s = true);
        [| congruence].
      apply match_anchored_spec. exists s. split; [| auto].
      apply id_card_pattern_shape. exists body, c. auto. }
  split; [reflexivity |]. split; [exact Hiff |]. split.
  - unfold Validators.validate_id_card.
    destruct (is_empty s); [reflexivity |].
    destruct (negb _); [discriminate |].
    destruct (Validators.id_card_total s); [| discriminate].
    destruct (_ !! _); [| discriminate].
    destruct (last s); [| discriminate].
    destruct (negb _); [discriminate | reflexivity].
  - intros Hlen Hall.
    apply not_true_is_false. intros Hv.
    assert (Hne : s <> []) by (intros ->; discriminate Hlen).
    apply (Hiff Hne) in Hv as (body & c & -> & Hlen' & _).
    rewrite length_app in Hlen. simpl in Hlen. lia.
Qed.

(** The examples of the tests, and a number with a correct check digit. *)
Lemma validate_id_card_examples :
  Validators.validate_id_card [] = (true, []) /\
  fst (Validators.validate_id_card (py "11010119900101123")) = false /\
  Validators.validate_id_card (py "11010519491231002X") = (true, []) /\
  Validators.validate_id_card (py "11010519491231002x") = (true, []) /\
  fst (Validators.validate_id_card (py "110105194912310021")) = false.
Proof. vm_compute. repeat split; reflexivity. Qed.

(** ** The health check *)

Lemma fold_healthy_services (services : list (str * bool * str)) (acc : bool) :
  fold_left
    (fun all_healthy '(name, is_healthy, detail) =>
       if (is_healthy : bool) then all_healthy else false)
    services acc
  = acc && forallb (fun r => snd (fst r)) services.
Proof.
  revert acc. induction services as [|[[n h] d] l IH]; intros acc; simpl.
  - rewrite andb_true_r. reflexivity.
  - rewrite IH. destruct h, acc; reflexivity.
Qed.

Lemma print_results_forallb (results : list (str * list (str * bool * str))) :
  HealthCheck.print_results results
  = forallb (fun r => snd (fst r)) (concat (map snd results)).
Proof.
  unfold HealthCheck.print_results.
  change (forallb (fun r : str * bool * str => snd (fst r))
            (concat (map snd results)))
    with (true && forallb (fun r : str * bool * str => snd (fst r))
            (concat (map snd results))).
  generalize true.
  induction results as [|[c l] rs IH]; intros acc; simpl.
  - rewrite andb_true_r. reflexivity.
  - rewrite fold_healthy_services, IH, forallb_app, andb_assoc. reflexivity.
Qed.

Lemma forallb_Forall_true {A : Type} (f : A -> bool) (l : list A) :
  forallb f l = true <-> Forall (fun x => f x = true) l.
Proof.
  induction l as [|x l IH]; simpl.
  - split; [constructor | reflexivity].
  - rewrite andb_true_iff, IH, Forall_cons. reflexivity.
Qed.

Lemma check_service_healthy (name url stype : str) (o : HealthCheck.http_outcome) :
  snd (fst (HealthCheck.check_service name url stype o)) = true <->
  exists card, o = HealthCheck.Response 200 card.
Proof.
  destruct o as [code card| | |m]; simpl.
  - destruct (code =? 200) eqn:Hc.
    + apply Z.eqb_eq in Hc. subst code. split; [eauto |]. intros _.
      destruct (str_eqb stype (py "A2A")); [destruct card |]; reflexivity.
    + apply Z.eqb_neq in Hc. simpl. split; [discriminate |].
      intros (card' & [= H _]). contradiction.
  - split; [discriminate | intros (c & H); discriminate].
  - split; [discriminate | intros (c & H); discriminate].
  - split; [discriminate | intros (c & H); discriminate].
Qed.

(** C9: the exit status is 0 exactly when the database probe and the probe
    of every one of the seven services succeeded (a probe succeeds when the
    request is answered with status 200), and it is 1 in every other case. *)
Theorem health_check_exit_code (db_ok : bool) (get : str -> HealthCheck.http_outcome) :
  (HealthCheck.main db_ok get = 0 <->
   db_ok = true /\
   Forall (fun s => HealthCheck.probe_ok get s = true) HealthCheck.all_services) /\
  (HealthCheck.main db_ok get = 0 \/ HealthCheck.main db_ok get = 1) /\
  (Forall (fun s => HealthCheck.probe_ok get s = true) HealthCheck.all_services <->
   Forall (fun '(name, url, stype) =>
             exists card, get url = HealthCheck.Response 200 card)
          HealthCheck.all_services) /\
  length HealthCheck.all_services = 7%nat.
Proof.
  assert (Hall : HealthCheck.print_results (HealthCheck.check_all_services get)
                 = forallb (HealthCheck.probe_ok get) HealthCheck.all_services).
  { rewrite print_results_forallb. reflexivity. }
  unfold HealthCheck.main. cbv zeta. rewrite Hall.
  split; [| split; [| split]].
  - rewrite <- forallb_Forall_true.
    destruct (forallb (HealthCheck.probe_ok get) HealthCheck.all_services);
      destruct db_ok; simpl; split; try discriminate; try tauto.
    + intros [H _]. discriminate H.
    + intros [_ H]. discriminate H.
    + intros [H _]. discriminate H.
  - destruct (forallb _ _ && db_ok); auto.
  - unfold HealthCheck.all_services, HealthCheck.SERVICES. cbn [map snd concat app].
    rewrite !Forall_cons. unfold HealthCheck.probe_ok.
    rewrite !check_service_healthy, !Forall_nil. reflexivity.
  - reflexivity.
Qed.

(** ** The database service *)

Lemma str_eqb_eq (a b : str) : str_eqb a b = true <-> a = b.
Proof.
  revert b. induction a as [|x a IH]; intros [|y b]; simpl;
    try (split; [discriminate | intros H; discriminate H]).
  - split; reflexivity.
  - rewrite andb_true_iff, Z.eqb_eq, IH. split.
    + intros [-> ->]. reflexivity.
    + intros [= -> ->]. auto.
Qed.

Lemma str_eqb_refl (a : str) : str_eqb a a = true.
Proof. apply str_eqb_eq. reflexivity. Qed.

Lemma str_eqb_neq (a b : str) : a <> b -> str_eqb a b = false.
Proof.
  intros H. destruct (str_eqb a b) eqn:E; [| reflexivity].
  apply str_eqb_eq in E. contradiction.
Qed.

(** The values of a row that the driver gives for a column that is a
    number, a text, a time or NULL. *)
Definition db_scalar (v : value) : bool :=
  match v with
  | VBytes _ | VList _ | VDict _ => false
  | _ => true
  end.

Definition scalar_rows (rows : list (list (str * value))) : Prop :=
  Forall (Forall (fun kv => db_scalar (snd kv) = true)) rows.

Lemma json_dumps_encode_row (row : list (str * value)) :
  Forall (fun kv => db_scalar (snd kv) = true) row ->
  json_dumps (encode_row row) = Some (encode_row row).
Proof.
  intros H. unfold encode_row. cbn [json_dumps].
  induction H as [|[k v] row Hv Hrow IH]; [reflexivity |].
  cbn [map all_some fst snd] in *.
  destruct (all_some _ _) as [l|]; [| discriminate IH].
  injection IH as IH. rewrite IH.
  destruct v; try discriminate Hv; reflexivity.
Qed.

Lemma json_dumps_rows (rows : list (list (str * value))) :
  scalar_rows rows ->
  json_dumps (VList (map encode_row rows)) = Some (VList (map encode_row rows)).
Proof.
  intros H. cbn [json_dumps].
  induction H as [|row rows Hrow Hrows IH]; [reflexivity |].
  cbn [map all_some] in *.
  rewrite (json_dumps_encode_row row Hrow).
  destruct (all_some _ _) as [l|]; [| discriminate IH].
  injection IH as IH. rewrite IH. reflexivity.
Qed.

Lemma json_dumps_success (data : value) :
  json_dumps (success_json data) = option_map success_json (json_dumps data).
Proof.
  unfold success_json. cbn [json_dumps all_some option_map fst snd].
  destruct (json_dumps data); reflexivity.
Qed.

Lemma run_query_ext (q : query) (w w' : world) :
  db w = db w' -> raw w = raw w' -> run_query q w = run_query q w'.
Proof.
  intros Hd Hr. destruct q; simpl; rewrite ?Hd, ?Hr; reflexivity.
Qed.

(** What [_ensure_connection] does: it only uses up connection-level
    events, and it raises exactly when the connection is lost and both
    attempts to connect fail. *)
Lemma ensure_connection_frame (w : world) :
  db (snd (_ensure_connection w)) = db w /\
  faults (snd (_ensure_connection w)) = faults w /\
  raw (snd (_ensure_connection w)) = raw w.
Proof.
  unfold _ensure_connection, except_mysql, bind, is_connected, _connect, ret, next.
  destruct (net w) as [|[|m0] [|[|m1] [|[|m2] rest]]]; simpl; auto.
Qed.

Lemma ensure_connection_quiet (w : world) :
  net w = [] -> _ensure_connection w = (Ret tt, w).
Proof.
  intros H. destruct w as [d n f r]. simpl in H. subst n. reflexivity.
Qed.

Lemma ensure_connection_raises (w : world) (m0 m1 m2 : str) (rest : list event) :
  net w = Bad m0 :: Bad m1 :: Bad m2 :: rest ->
  fst (_ensure_connection w) = Raise (MySQLError m2).
Proof.
  intros H. unfold _ensure_connection, except_mysql, bind, is_connected,
    _connect, ret, next. rewrite H. reflexivity.
Qed.

(** C3, as the code has it: when the connection is there or is opened
    again, [execute_query] returns, for every statement and every state of
    the tables, the error document with the driver's message when the driver
    raises on the statement, the no-data document when no row comes back,
    and otherwise the success document whose data are the rows with their
    temporal and decimal values converted; the tables are left as they
    were. *)
Theorem execute_query_returns (sql : query) (w w1 : world) :
  _ensure_connection w = (Ret tt, w1) ->
  scalar_rows (run_query sql w1) ->
  exists w2,
    execute_query sql w =
      (Ret match fst (next (faults w1)) with
           | Bad msg => error_json msg
           | Good =>
               match run_query sql w1 with
               | [] => no_data_json
               | _ :: _ => success_json (VList (map encode_row (run_query sql w1)))
               end
           end,
       w2) /\
    db w2 = db w.
Proof.
  intros Hc Hrows.
  pose proof (ensure_connection_frame w) as (Hdb & _ & _).
  rewrite Hc in Hdb. simpl in Hdb.
  unfold execute_query, bind at 1. rewrite Hc.
  unfold except_mysql, bind, statement, ret, raise.
  destruct (next (faults w1)) as [[|msg] rest] eqn:Hn; cbn [fst].
  - set (w' := {| db := db w1; net := net w1; faults := rest; raw := raw w1 |}).
    assert (Hq : run_query sql w' = run_query sql w1)
      by (apply run_query_ext; reflexivity).
    rewrite Hq.
    destruct (run_query sql w1) as [|row rows] eqn:Hr.
    + exists w'. split; [reflexivity | exact Hdb].
    + rewrite json_dumps_success, (json_dumps_rows (row :: rows) Hrows).
      exists w'. split; [reflexivity | exact Hdb].
  - eexists. split; [reflexivity | exact Hdb].
Qed.

(** The tables and the servers of the examples. *)
Definition quiet : str -> list (list (str * value)) := fun _ => [].

Definition one_train (total remaining : Z) : database :=
  {| trains := {[ 1 := {| total_seats := total; remaining_seats := remaining;
                          price := {| coefficient := 55350; exponent := -2 |} |} ]};
     flights := ∅; concerts := ∅; orders := [] |}.

Lemma execute_query_returns_witness :
  exists w2,
    execute_query (SelectTicket train_tickets 1)
      {| db := one_train 10 10; net := [Bad (py "lost"); Good];
         faults := []; raw := quiet |}
    = (Ret (success_json (VList
         [VDict [ (py "id", VInt 1); (py "total_seats", VInt 10);
                  (py "remaining_seats", VInt 10);
                  (py "price", VFloat (FloatOfDecimal
                                 {| coefficient := 55350; exponent := -2 |})) ]])),
       w2) /\
    db w2 = one_train 10 10.
Proof.
  destruct (execute_query_returns (SelectTicket train_tickets 1)
              {| db := one_train 10 10; net := [Bad (py "lost"); Good];
                 faults := []; raw := quiet |}
              {| db := one_train 10 10; net := [];
                 faults := []; raw := quiet |}) as (w2 & Ha & Hb).
  - reflexivity.
  - vm_compute. repeat constructor.
  - exists w2. split; [| exact Hb]. rewrite Ha. vm_compute. reflexivity.
Defined.

(** C3, the claim as it is stated fails: with the connection lost and the
    server refusing both attempts to connect again, [execute_query] raises
    the driver's error instead of returning a document. *)
Lemma execute_query_raises_when_reconnect_fails :
  fst (execute_query (RawQuery (py "SELECT 1"))
         {| db := one_train 10 10;
            net := [Bad (py "MySQL Connection not available");
                    Bad (py "Can't connect to MySQL server");
                    Bad (py "Can't connect to MySQL server")];
            faults := []; raw := quiet |})
  = Raise (MySQLError (py "Can't connect to MySQL server")).
Proof. reflexivity. Qed.

(** A value the encoder cannot write also makes [execute_query] raise. *)
Lemma execute_query_raises_on_bytes :
  fst (execute_query (RawQuery (py "SELECT BINARY 'a' AS b"))
         {| db := one_train 10 10; net := []; faults := [];
            raw := fun _ => [[(py "b", VBytes [97])]] |})
  = Raise (TypeError (py "Object of type bytes is not JSON serializable")).
Proof. reflexivity. Qed.

(** ** The order backend *)

(** The world after the next statement event is used up. *)
Definition pop_fault (w : world) : world :=
  {| db := db w; net := net w; faults := snd (next (faults w)); raw := raw w |}.

(** The ticket as [get_ticket_info] returns it. *)
Definition ticket_info (id : Z) (r : ticket_row) : list (str * value) :=
  [ (py "id", VInt id);
    (py "total_seats", VInt (total_seats r));
    (py "remaining_seats", VInt (remaining_seats r));
    (py "price", VFloat (FloatOfDecimal (price r))) ].

Lemma execute_update_alive (u : update) (w : world) :
  net w = [] ->
  execute_update u w =
    match fst (next (faults w)) with
    | Good =>
        (Ret [ (py "status", VStr (py "success"));
               (py "affected_rows", VInt (snd (run_update u (db w)))) ],
         set_db (fst (run_update u (db w))) (pop_fault w))
    | Bad msg =>
        (Ret [ (py "status", VStr (py "error")); (py "message", VStr msg) ],
         pop_fault w)
    end.
Proof.
  intros H. destruct w as [d n f r]. simpl in H. subst n.
  unfold execute_update, bind, except_mysql, statement, ret, pop_fault, set_db.
  cbn [_ensure_connection db net faults raw].
  rewrite ensure_connection_quiet by reflexivity.
  cbn [db net faults raw].
  destruct f as [|[|m] f]; cbn [next fst snd];
    try destruct (run_update u d) as [d' k]; reflexivity.
Qed.

Lemma execute_insert_alive (o : order_row) (w : world) :
  net w = [] ->
  execute_insert o w =
    match fst (next (faults w)) with
    | Good =>
        (Ret [ (py "status", VStr (py "success"));
               (py "id", VInt (snd (run_insert o (db w)))) ],
         set_db (fst (run_insert o (db w))) (pop_fault w))
    | Bad msg =>
        (Ret [ (py "status", VStr (py "error")); (py "message", VStr msg) ],
         pop_fault w)
    end.
Proof.
  intros H. destruct w as [d n f r]. simpl in H. subst n.
  unfold execute_insert, bind, except_mysql, statement, ret, pop_fault, set_db.
  rewrite ensure_connection_quiet by reflexivity.
  cbn [db net faults raw].
  destruct f as [|[|m] f]; cbn [next fst snd]; reflexivity.
Qed.

Lemma get_ticket_info_alive (ticket_type : str) (table : ticket_table)
    (id : Z) (w : world) :
  net w = [] ->
  OrderService.table_map ticket_type = Some table ->
  OrderService.get_ticket_info ticket_type id w =
    (Ret match fst (next (faults w)) with
         | Good => option_map (ticket_info id) (tickets table (db w) !! id)
         | Bad _ => None
         end,
     pop_fault w).
Proof.
  intros H Ht. destruct w as [d n f r]. simpl in H. subst n.
  unfold OrderService.get_ticket_info. rewrite Ht.
  unfold execute_query, bind, except_mysql, statement, ret, raise, pop_fault.
  rewrite ensure_connection_quiet by reflexivity.
  cbn [db net faults raw].
  destruct f as [|[|m] f]; cbn [next fst snd run_query db];
    try (destruct (tickets table d !! id) as [row|]); reflexivity.
Qed.

Lemma get_ticket_info_unknown_type (ticket_type : str) (id : Z) (w : world) :
  OrderService.table_map ticket_type = None ->
  OrderService.get_ticket_info ticket_type id w = (Ret None, w).
Proof.
  intros Ht. unfold OrderService.get_ticket_info. rewrite Ht. reflexivity.
Qed.

Lemma update_remaining_seats_alive (ticket_type : str) (table : ticket_table)
    (id q : Z) (w : world) :
  net w = [] ->
  OrderService.table_map ticket_type = Some table ->
  OrderService.update_remaining_seats ticket_type id q w =
    match fst (next (faults w)) with
    | Good =>
        (Ret (snd (run_update (UpdateSeats table id q) (db w)) >? 0),
         set_db (fst (run_update (UpdateSeats table id q) (db w))) (pop_fault w))
    | Bad msg => (Ret false, pop_fault w)
    end.
Proof.
  intros H Ht. unfold OrderService.update_remaining_seats. rewrite Ht.
  unfold bind. rewrite execute_update_alive by exact H.
  destruct (fst (next (faults w))); reflexivity.
Qed.



Lemma db_pop_fault (w : world) : db (pop_fault w) = db w.
Proof. reflexivity. Qed.

Lemma db_set_db (d : database) (w : world) : db (set_db d w) = d.
Proof. reflexivity. Qed.

Lemma faults_set_db (d : database) (w : world) : faults (set_db d w) = faults w.
Proof. reflexivity. Qed.

(** The statement events of a world, by position. *)
Definition ev (k : nat) (w : world) : event := nth k (faults w) Good.

Lemma ev_0 (w : world) : fst (next (faults w)) = ev 0 w.
Proof. unfold ev. destruct (faults w); reflexivity. Qed.







Lemma dict_get_remaining_seats (a b c d : value) :
  dict_get (py "remaining_seats")
    [(py "id", a); (py "total_seats", b); (py "remaining_seats", c); (py "price", d)]
  = Some c.
Proof. reflexivity. Qed.

Lemma dict_get_price (a b c d : value) :
  dict_get (py "price")
    [(py "id", a); (py "total_seats", b); (py "remaining_seats", c); (py "price", d)]
  = Some d.
Proof. reflexivity. Qed.

Lemma is_str_status_success (k : str) (v : value) :
  is_str (dict_get (py "status") [(py "status", VStr (py "success")); (k, v)])
         (py "success") = true.
Proof. reflexivity. Qed.


Lemma tickets_set_tickets (t : ticket_table) (m : gmap Z ticket_row) (d : database) :
  tickets t (set_tickets t m d) = m.
Proof. destruct t; reflexivity. Qed.



Lemma orders_set_tickets (t : ticket_table) (m : gmap Z ticket_row) (d : database) :
  orders (set_tickets t m d) = orders d.
Proof. destruct t; reflexivity. Qed.

(** The row after [remaining_seats = remaining_seats - q]. *)
Definition deduct (q : Z) (r : ticket_row) : ticket_row :=
  {| total_seats := total_seats r;
     remaining_seats := remaining_seats r - q;
     price := price r |}.

Lemma run_update_seats (t : ticket_table) (id q : Z) (d : database) (row : ticket_row) :
  tickets t d !! id = Some row ->
  run_update (UpdateSeats t id q) d =
    if (remaining_seats row >=? q) && negb (q =? 0)
    then (set_tickets t (<[id := deduct q row]> (tickets t d)) d, 1)
    else (d, 0).
Proof. intros H. unfold run_update. rewrite H. reflexivity. Qed.

Lemma deduct_restore (q : Z) (row : ticket_row) : deduct (- q) (deduct q row) = row.
Proof.
  destruct row as [t r p]. unfold deduct. simpl. f_equal. lia.
Qed.






Lemma get_ticket_info_found (ticket_type : str) (table : ticket_table)
    (tid : Z) (row : ticket_row) (w : world) :
  net w = [] ->
  OrderService.table_map ticket_type = Some table ->
  ev 0 w = Good ->
  tickets table (db w) !! tid = Some row ->
  OrderService.get_ticket_info ticket_type tid w =
    (Ret (Some [ (py "id", VInt tid);
                 (py "total_seats", VInt (total_seats row));
                 (py "remaining_seats", VInt (remaining_seats row));
                 (py "price", VFloat (FloatOfDecimal (price row))) ]),
     pop_fault w).
Proof.
  intros H Ht He Hr. rewrite (get_ticket_info_alive _ table) by assumption.
  rewrite ev_0, He, Hr. reflexivity.
Qed.

Lemma get_ticket_info_missing (ticket_type : str) (table : ticket_table)
    (tid : Z) (w : world) :
  net w = [] ->
  OrderService.table_map ticket_type = Some table ->
  (ev 0 w <> Good \/ tickets table (db w) !! tid = None) ->
  OrderService.get_ticket_info ticket_type tid w = (Ret None, pop_fault w).
Proof.
  intros H Ht Hc. rewrite (get_ticket_info_alive _ table) by assumption.
  rewrite ev_0. destruct (ev 0 w); [| reflexivity].
  destruct Hc as [Hc | Hc]; [congruence | rewrite Hc; reflexivity].
Qed.

Lemma default_Some {A : Type} (d x : A) : default d (Some x) = x.
Proof. reflexivity. Qed.

(** *** A connection that is lost and opened again *)




















Definition create_order_example (q : Z) (w : world) : outcome value * world :=
  OrderService.create_order
    {| year := 2026; month := 1; day := 19; hour := 8; minute := 5;
       second := 59; microsecond := 0 |}
    0xabcdef0123456789abcdef0123456789
    (py "train") 1 q (py "张三") (py "13800138000") [] w.



(** C6: a sequence of one operation that breaks the bound.  On a train
    with 10 seats, all of them free, [create_order] with quantity [-5]
    succeeds and leaves 15 seats free: the decrement
    [remaining_seats - (-5)] passes its guard [remaining_seats >= -5], and
    nothing checks that the quantity is at least one. *)
Theorem create_order_negative_quantity_breaks_bound :
  exists data w',
    create_order_example (-5)
      {| db := one_train 10 10; net := []; faults := []; raw := quiet |}
    = (Ret (VDict [(py "status", VStr (py "success")); (py "data", data)]), w') /\
    trains (db w') !! 1 =
      Some {| total_seats := 10; remaining_seats := 15;
              price := {| coefficient := 55350; exponent := -2 |} |} /\
    (0 <= 10 <= 10) /\ ~ (15 <= 10).
Proof.
  eexists. eexists. split; [vm_compute; reflexivity |].
  split; [vm_compute; reflexivity |]. lia.
Qed.

(** *** Cancelling *)

Definition calm (w : world) : Prop := net w = [] /\ faults w = [].

Lemma pop_fault_calm (w : world) : faults w = [] -> pop_fault w = w.
Proof. intros H. destruct w as [d n f r]. simpl in H. subst f. reflexivity. Qed.

Lemma ev_calm (k : nat) (w : world) : faults w = [] -> ev k w = Good.
Proof. intros H. unfold ev. rewrite H. destruct k; reflexivity. Qed.

Lemma encode_order_dict (o : order_row) : encode_row (order_dict o) = VDict (order_dict o).
Proof. reflexivity. Qed.

Lemma scalar_order_rows (os : list order_row) : scalar_rows (map order_dict os).
Proof.
  unfold scalar_rows. apply Forall_map. apply Forall_true. intros o.
  repeat constructor.
Qed.

(** The rows of [orders] with a given number. *)
Definition orders_with (no : str) (d : database) : list order_row :=
  List.filter (fun o => str_eqb (order_no o) no) (orders d).

Lemma select_order_calm (no : str) (w : world) :
  calm w ->
  execute_query (SelectOrder no) w =
    (Ret match orders_with no (db w) with
         | [] => no_data_json
         | o :: rest =>
             VDict [ (py "status", VStr (py "success"));
                     (py "data", VList (VDict (order_dict o)
                                        :: map encode_row (map order_dict rest))) ]
         end,
     w).
Proof.
  intros [Hn Hf]. destruct w as [d n f r]. simpl in Hn, Hf. subst n f.
  unfold execute_query, bind, except_mysql, statement, ret, raise.
  rewrite ensure_connection_quiet by reflexivity.
  cbn [db net faults raw next fst snd run_query]. unfold orders_with.
  cbn [db].
  pose proof (scalar_order_rows
                (List.filter (fun o => str_eqb (order_no o) no) (orders d))) as Hs.
  destruct (List.filter (fun o => str_eqb (order_no o) no) (orders d))
    as [|o rest].
  - reflexivity.
  - cbn [map] in *.
    rewrite json_dumps_success.
    change (encode_row (order_dict o) :: map encode_row (map order_dict rest))
      with (map encode_row (order_dict o :: map order_dict rest)).
    rewrite (json_dumps_rows _ Hs). reflexivity.
Qed.

Lemma execute_update_calm (u : update) (w : world) :
  calm w ->
  execute_update u w =
    (Ret [ (py "status", VStr (py "success"));
           (py "affected_rows", VInt (snd (run_update u (db w)))) ],
     set_db (fst (run_update u (db w))) w).
Proof.
  intros [Hn Hf]. rewrite execute_update_alive by exact Hn.
  rewrite ev_0, ev_calm, pop_fault_calm by exact Hf. reflexivity.
Qed.

Lemma update_remaining_seats_calm (ticket_type : str) (table : ticket_table)
    (tid q : Z) (w : world) :
  calm w ->
  OrderService.table_map ticket_type = Some table ->
  OrderService.update_remaining_seats ticket_type tid q w =
    (Ret (snd (run_update (UpdateSeats table tid q) (db w)) >? 0),
     set_db (fst (run_update (UpdateSeats table tid q) (db w))) w).
Proof.
  intros [Hn Hf] Ht.
  rewrite (update_remaining_seats_alive _ table) by assumption.
  rewrite ev_0, ev_calm, pop_fault_calm by exact Hf. reflexivity.
Qed.

Lemma calm_set_db (d : database) (w : world) : calm w -> calm (set_db d w).
Proof. intros H. exact H. Qed.

Lemma dict_get_data (a v : value) :
  dict_get (py "data") [(py "status", a); (py "data", v)] = Some v.
Proof. reflexivity. Qed.

Lemma is_str_no_data :
  is_str (dict_get (py "status")
            [ (py "status", VStr (py "no_data"));
              (py "message", VStr (py "未找到数据")) ])
         (py "success") = false.
Proof. reflexivity. Qed.

Lemma order_dict_status (o : order_row) :
  dict_get (py "status") (order_dict o) = Some (VStr (status o)).
Proof. reflexivity. Qed.

Lemma order_dict_ticket_type (o : order_row) :
  dict_get (py "ticket_type") (order_dict o) = Some (VStr (ticket_type o)).
Proof. reflexivity. Qed.

Lemma order_dict_ticket_id (o : order_row) :
  dict_get (py "ticket_id") (order_dict o) = Some (VInt (ticket_id o)).
Proof. reflexivity. Qed.

Lemma order_dict_quantity (o : order_row) :
  dict_get (py "quantity") (order_dict o) = Some (VInt (quantity o)).
Proof. reflexivity. Qed.

Lemma is_str_Some_VStr (s c : str) : is_str (Some (VStr s)) c = str_eqb s c.
Proof. reflexivity. Qed.

Lemma truthy_cons_list (x : value) (l : list value) :
  truthy_opt (Some (VList (x :: l))) = true.
Proof. reflexivity. Qed.

(** [cancel_order] in a world where nothing goes wrong, when the first row
    with the number is not pending: it is rejected and nothing changes. *)
Lemma cancel_order_not_pending (no : str) (w : world) (o : order_row)
    (rest : list order_row) :
  calm w ->
  orders_with no (db w) = o :: rest ->
  status o <> py "pending" ->
  OrderService.cancel_order no w
  = (Ret (OrderService.error_result (py "只能取消待支付的订单")), w).
Proof.
  intros Hc Ho Hs.
  unfold OrderService.cancel_order. unfold bind at 1.
  rewrite select_order_calm, Ho by exact Hc.
  unfold except_any. cbv beta iota.
  rewrite is_str_status_success, dict_get_data, truthy_cons_list.
  cbn [negb orb]. cbv beta iota.
  rewrite order_dict_status, is_str_Some_VStr, str_eqb_neq by exact Hs.
  cbn [negb]. cbv beta iota. reflexivity.
Qed.

(** [cancel_order] in a world where nothing goes wrong, when the first row
    with the number is pending: every row with the number becomes
    cancelled, and the quantity of the first one goes back to its ticket. *)
Lemma cancel_order_pending (no : str) (w : world) (o : order_row)
    (rest : list order_row) (t : ticket_table) :
  calm w ->
  orders_with no (db w) = o :: rest ->
  status o = py "pending" ->
  OrderService.table_map (ticket_type o) = Some t ->
  OrderService.cancel_order no w
  = (Ret (VDict [ (py "status", VStr (py "success"));
                  (py "message", VStr (py "订单已取消")) ]),
     set_db (fst (run_update (UpdateSeats t (ticket_id o) (- quantity o))
                    (fst (run_update (CancelOrder no) (db w)))))
            w).
Proof.
  intros Hc Ho Hs Ht.
  unfold OrderService.cancel_order. unfold bind at 1.
  rewrite select_order_calm, Ho by exact Hc.
  unfold except_any. cbv beta iota.
  rewrite is_str_status_success, dict_get_data, truthy_cons_list.
  cbn [negb orb]. cbv beta iota.
  rewrite order_dict_status, is_str_Some_VStr, Hs, str_eqb_refl.
  cbn [negb]. cbv beta iota.
  unfold bind at 1. rewrite execute_update_calm by exact Hc.
  cbv beta iota.
  rewrite order_dict_ticket_type, order_dict_ticket_id, order_dict_quantity.
  cbv beta iota.
  unfold bind at 1.
  rewrite (update_remaining_seats_calm _ t) by (try apply calm_set_db; assumption).
  cbv beta iota. reflexivity.
Qed.

Lemma get_ticket_info_calm (ticket_type : str) (table : ticket_table)
    (tid : Z) (row : ticket_row) (w : world) :
  calm w ->
  OrderService.table_map ticket_type = Some table ->
  tickets table (db w) !! tid = Some row ->
  OrderService.get_ticket_info ticket_type tid w =
    (Ret (Some [ (py "id", VInt tid);
                 (py "total_seats", VInt (total_seats row));
                 (py "remaining_seats", VInt (remaining_seats row));
                 (py "price", VFloat (FloatOfDecimal (price row))) ]),
     w).
Proof.
  intros [Hn Hf] Ht Hrow.
  rewrite (get_ticket_info_found _ table tid row) by (try apply ev_calm; assumption).
  rewrite pop_fault_calm by exact Hf. reflexivity.
Qed.

Lemma execute_insert_calm (o : order_row) (w : world) :
  calm w ->
  execute_insert o w =
    (Ret [ (py "status", VStr (py "success"));
           (py "id", VInt (snd (run_insert o (db w)))) ],
     set_db (fst (run_insert o (db w))) w).
Proof.
  intros [Hn Hf]. rewrite execute_insert_alive by exact Hn.
  rewrite ev_0, ev_calm, pop_fault_calm by exact Hf. reflexivity.
Qed.

Lemma set_db_set_db (d d' : database) (w : world) :
  set_db d' (set_db d w) = set_db d' w.
Proof. reflexivity. Qed.

(** The order row that [create_order] inserts. *)
Definition new_order (now : datetime) (u : Z) (ticket_type : str) (tid q : Z)
    (name phone idc : str) (row : ticket_row) : order_row :=
  {| order_no := generate_order_no now u; ticket_type := ticket_type;
     ticket_id := tid; quantity := q;
     unit_price := FloatOfDecimal (price row);
     total_price := FloatMul (FloatOfDecimal (price row)) (FloatOfInt q);
     contact_name := name; contact_phone := phone; contact_id_card := idc;
     status := py "pending" |}.

(** The order record that [create_order] returns. *)
Definition order_record (now : datetime) (u : Z) (ticket_type : str) (tid q : Z)
    (name phone : str) (row : ticket_row) : value :=
  VDict
    [ (py "order_no", VStr (generate_order_no now u));
      (py "ticket_type", VStr ticket_type);
      (py "ticket_id", VInt tid);
      (py "quantity", VInt q);
      (py "unit_price", VFloat (FloatOfDecimal (price row)));
      (py "total_price",
       VFloat (FloatMul (FloatOfDecimal (price row)) (FloatOfInt q)));
      (py "contact_name", VStr name);
      (py "contact_phone", VStr phone);
      (py "status", VStr (py "pending")) ].

(** [create_order] in a world where nothing goes wrong, for a quantity that
    is not zero and that the ticket has. *)
Lemma create_order_success (now : datetime) (u : Z) (ticket_type : str)
    (t : ticket_table) (tid q : Z) (name phone idc : str) (row : ticket_row)
    (w : world) :
  calm w ->
  OrderService.table_map ticket_type = Some t ->
  tickets t (db w) !! tid = Some row ->
  q <= remaining_seats row -> q <> 0 ->
  OrderService.create_order now u ticket_type tid q name phone idc w
  = (Ret (VDict [ (py "status", VStr (py "success"));
                  (py "data", order_record now u ticket_type tid q name phone row) ]),
     set_db
       (set_orders
          (orders (db w)
           ++ [new_order now u ticket_type tid q name phone idc row])
          (set_tickets t (<[tid := deduct q row]> (tickets t (db w))) (db w)))
       w).
Proof.
  intros Hc Ht Hrow Hq Hq0.
  unfold OrderService.create_order. unfold bind at 1.
  rewrite (get_ticket_info_calm _ t tid row) by assumption.
  cbv beta iota.
  rewrite dict_get_remaining_seats, default_Some. cbv beta iota.
  replace (remaining_seats row <? q) with false
    by (symmetry; apply Z.ltb_ge; lia).
  rewrite dict_get_price, default_Some. cbv beta iota.
  unfold bind at 1.
  rewrite (update_remaining_seats_calm _ t) by assumption.
  rewrite (run_update_seats t tid q _ row) by exact Hrow.
  replace (remaining_seats row >=? q) with true
    by (symmetry; apply Z.geb_le; lia).
  replace (q =? 0) with false by (symmetry; apply Z.eqb_neq; lia).
  cbn [andb negb fst snd]. cbv beta iota.
  change (1 >? 0) with true. cbn [negb]. cbv beta iota.
  unfold bind at 1.
  rewrite execute_insert_calm by (apply calm_set_db; exact Hc).
  cbv beta iota.
  rewrite is_str_status_success. cbv beta iota.
  unfold ret, order_record, new_order, run_insert.
  rewrite db_set_db. cbn [fst]. rewrite set_db_set_db, orders_set_tickets.
  reflexivity.
Qed.

Lemma filter_nil_all_false {A : Type} (f : A -> bool) (l : list A) :
  List.filter f l = [] -> Forall (fun x => f x = false) l.
Proof.
  induction l as [|x l IH]; simpl; [constructor |].
  destruct (f x) eqn:E; [discriminate |].
  intros H. constructor; auto.
Qed.

Lemma cancel_rows_other (no : str) (os : list order_row) :
  List.filter (fun o => str_eqb (order_no o) no) os = [] ->
  map (cancel_row no) os = os.
Proof.
  intros H. apply filter_nil_all_false in H.
  induction H as [|o os Ho Hos IH]; [reflexivity |].
  simpl. rewrite IH. unfold cancel_row. rewrite Ho. reflexivity.
Qed.

Lemma restore_deducted (t : ticket_table) (tid q : Z) (d : database)
    (row : ticket_row) :
  tickets t d !! tid = Some (deduct q row) ->
  0 <= remaining_seats row -> q <> 0 ->
  run_update (UpdateSeats t tid (- q)) d
  = (set_tickets t (<[tid := row]> (tickets t d)) d, 1).
Proof.
  intros Hrow Hpos Hq.
  rewrite (run_update_seats t tid (- q) _ (deduct q row)) by exact Hrow.
  replace (remaining_seats (deduct q row) >=? - q) with true
    by (symmetry; apply Z.geb_le; simpl; lia).
  replace (- q =? 0) with false by (symmetry; apply Z.eqb_neq; lia).
  cbn [andb negb]. rewrite deduct_restore. reflexivity.
Qed.

Lemma tickets_set_orders (t : ticket_table) (os : list order_row) (d : database) :
  tickets t (set_orders os d) = tickets t d.
Proof. destruct t; reflexivity. Qed.

Lemma orders_set_orders (os : list order_row) (d : database) :
  orders (set_orders os d) = os.
Proof. reflexivity. Qed.

Lemma set_tickets_back (t : ticket_table) (m1 : gmap Z ticket_row)
    (os os1 : list order_row) (d : database) :
  set_tickets t (tickets t d) (set_orders os (set_orders os1 (set_tickets t m1 d)))
  = set_orders os d.
Proof. destruct t; reflexivity. Qed.

Lemma run_cancel_order (no : str) (d : database) :
  fst (run_update (CancelOrder no) d)
  = set_orders (map (cancel_row no) (orders d)) d.
Proof. reflexivity. Qed.

Lemma cancelled_is_not_pending : py "cancelled" <> py "pending".
Proof. intros H. vm_compute in H. discriminate H. Qed.

(** C1: in a world where nothing goes wrong, for a ticket row with [R]
    seats left, a quantity [q] with [1 <= q <= R] and an order number that no
    row of [orders] has yet: [create_order] succeeds, leaves [R - q] seats
    and returns a pending order whose total price is the unit price times
    [q]; [cancel_order] on its number then succeeds, marks the order
    cancelled and gives the ticket row back its [R] seats; and a second
    [cancel_order] is rejected with '只能取消待支付的订单' and changes nothing. *)
Theorem create_then_cancel_twice (now : datetime) (u : Z) (ticket_type : str)
    (t : ticket_table) (tid q : Z) (name phone idc : str) (row : ticket_row)
    (w : world) :
  calm w ->
  OrderService.table_map ticket_type = Some t ->
  tickets t (db w) !! tid = Some row ->
  1 <= q <= remaining_seats row ->
  orders_with (generate_order_no now u) (db w) = [] ->
  exists w1 w2 row1 cancelled,
    OrderService.create_order now u ticket_type tid q name phone idc w
    = (Ret (VDict [ (py "status", VStr (py "success"));
                    (py "data", order_record now u ticket_type tid q name phone row) ]),
       w1) /\
    tickets t (db w1) !! tid = Some row1 /\
    remaining_seats row1 = remaining_seats row - q /\
    orders (db w1)
    = orders (db w) ++ [new_order now u ticket_type tid q name phone idc row] /\
    OrderService.cancel_order (generate_order_no now u) w1
    = (Ret (VDict [ (py "status", VStr (py "success"));
                    (py "message", VStr (py "订单已取消")) ]),
       w2) /\
    tickets t (db w2) !! tid = Some row /\
    db w2 = set_orders (orders (db w) ++ [cancelled]) (db w) /\
    cancelled = cancel_row (generate_order_no now u)
                  (new_order now u ticket_type tid q name phone idc row) /\
    status cancelled = py "cancelled" /\
    OrderService.cancel_order (generate_order_no now u) w2
    = (Ret (OrderService.error_result (py "只能取消待支付的订单")), w2).
Proof.
  intros Hc Ht Hrow [Hq1 Hq] Hfresh.
  set (no := generate_order_no now u) in *.
  set (new := new_order now u ticket_type tid q name phone idc row).
  set (d1 := set_orders (orders (db w) ++ [new])
               (set_tickets t (<[tid := deduct q row]> (tickets t (db w))) (db w))).
  assert (Hnew : str_eqb (order_no new) no = true) by apply str_eqb_refl.
  assert (Hcreate := create_order_success now u ticket_type t tid q name phone idc
                       row w Hc Ht Hrow Hq ltac:(lia)).
  fold new in Hcreate. fold d1 in Hcreate.
  assert (Hrow1 : tickets t d1 !! tid = Some (deduct q row)).
  { unfold d1. rewrite tickets_set_orders, tickets_set_tickets.
    apply lookup_insert_eq. }
  assert (Hwith1 : orders_with no d1 = [new]).
  { unfold orders_with, d1. rewrite orders_set_orders, List.filter_app.
    unfold orders_with in Hfresh. rewrite Hfresh.
    cbn [app List.filter]. rewrite Hnew. reflexivity. }
  assert (Hcancelled : cancel_row no new
                       = {| order_no := order_no new; ticket_type := ticket_type;
                            ticket_id := tid; quantity := q;
                            unit_price := unit_price new;
                            total_price := total_price new;
                            contact_name := name; contact_phone := phone;
                            contact_id_card := idc; status := py "cancelled" |}).
  { unfold cancel_row. rewrite Hnew. reflexivity. }
  set (d2 := set_orders (orders (db w) ++ [cancel_row no new]) (db w)).
  assert (Hcancel : OrderService.cancel_order no (set_db d1 w)
            = (Ret (VDict [ (py "status", VStr (py "success"));
                            (py "message", VStr (py "订单已取消")) ]),
               set_db d2 (set_db d1 w))).
  { rewrite (cancel_order_pending no (set_db d1 w) new [] t);
      [| apply calm_set_db; exact Hc | exact Hwith1 | reflexivity | exact Ht].
    rewrite db_set_db. f_equal. f_equal.
    change (ticket_id new) with tid. change (quantity new) with q.
    rewrite run_cancel_order.
    rewrite (restore_deducted t tid q _ row);
      [| rewrite tickets_set_orders; exact Hrow1 | lia | lia].
    cbn [fst]. rewrite tickets_set_orders.
    unfold d1 at 1. rewrite tickets_set_orders, tickets_set_tickets.
    rewrite insert_insert_eq, insert_id by exact Hrow.
    unfold d1, d2. rewrite orders_set_orders, map_app.
    unfold orders_with in Hfresh. rewrite (cancel_rows_other no _ Hfresh).
    cbn [map]. apply set_tickets_back. }
  assert (Hwith2 : orders_with no d2 = [cancel_row no new]).
  { unfold orders_with, d2. rewrite orders_set_orders, List.filter_app.
    unfold orders_with in Hfresh. rewrite Hfresh.
    cbn [app List.filter].
    rewrite Hcancelled. cbn [order_no]. rewrite Hnew. reflexivity. }
  exists (set_db d1 w), (set_db d2 (set_db d1 w)), (deduct q row), (cancel_row no new).
  split; [exact Hcreate |].
  split; [rewrite db_set_db; exact Hrow1 |].
  split; [reflexivity |].
  split; [reflexivity |].
  split; [exact Hcancel |].
  split; [rewrite db_set_db; unfold d2; rewrite tickets_set_orders; exact Hrow |].
  split; [reflexivity |].
  split; [reflexivity |].
  split; [rewrite Hcancelled; reflexivity |].
  apply (cancel_order_not_pending no _ (cancel_row no new) []).
  - apply calm_set_db, calm_set_db. exact Hc.
  - rewrite db_set_db. exact Hwith2.
  - rewrite Hcancelled. cbn [status]. exact cancelled_is_not_pending.
Qed.

Lemma create_then_cancel_twice_witness :
  exists w1 w2,
    snd (create_order_example 3
           {| db := one_train 10 10; net := []; faults := []; raw := quiet |}) = w1 /\
    remaining_seats <$> (trains (db w1) !! 1) = Some 7 /\
    snd (OrderService.cancel_order (py "ORD20260119080559ABCDEF") w1) = w2 /\
    remaining_seats <$> (trains (db w2) !! 1) = Some 10 /\
    map status (orders (db w2)) = [py "cancelled"] /\
    OrderService.cancel_order (py "ORD20260119080559ABCDEF") w2
    = (Ret (OrderService.error_result (py "只能取消待支付的订单")), w2).
Proof.
  destruct (create_then_cancel_twice
              {| year := 2026; month := 1; day := 19; hour := 8; minute := 5;
                 second := 59; microsecond := 0 |}
              0xabcdef0123456789abcdef0123456789
              (py "train") train_tickets 1 3 (py "张三") (py "13800138000") []
              {| total_seats := 10; remaining_seats := 10;
                 price := {| coefficient := 55350; exponent := -2 |} |}
              {| db := one_train 10 10; net := []; faults := []; raw := quiet |})
    as (w1 & w2 & row1 & cancelled & H1 & H2 & H3 & H4 & H5 & H6 & H7 & H8 & H9 & H10).
  - split; reflexivity.
  - reflexivity.
  - vm_compute. reflexivity.
  - simpl. lia.
  - reflexivity.
  - exists w1, w2.
    split; [unfold create_order_example; rewrite H1; reflexivity |].
    split; [change (trains (db w1)) with (tickets train_tickets (db w1));
            rewrite H2; simpl; rewrite H3; reflexivity |].
    replace (py "ORD20260119080559ABCDEF")
      with (generate_order_no
              {| year := 2026; month := 1; day := 19; hour := 8; minute := 5;
                 second := 59; microsecond := 0 |}
              0xabcdef0123456789abcdef0123456789)
      by (vm_compute; reflexivity).
    split; [rewrite H5; reflexivity |].
    split; [change (trains (db w2)) with (tickets train_tickets (db w2));
            rewrite H6; reflexivity |].
    split; [rewrite H7; cbn [orders set_orders one_train db map app];
            rewrite H9; reflexivity |].
    exact H10.
Defined.

(** ** The order agent *)

Lemma space_not_decimal (c : Z) : is_space c = true -> is_decimal c = false.
Proof.
  unfold is_space. rewrite !orb_true_iff, !andb_true_iff, !Z.leb_le, !Z.eqb_eq.
  intros H.
  assert (Hc : In c [0x9; 0xa; 0xb; 0xc; 0xd; 0x1c; 0x1d; 0x1e; 0x1f; 0x20;
                     0x85; 0xa0; 0x1680; 0x2000; 0x2001; 0x2002; 0x2003;
                     0x2004; 0x2005; 0x2006; 0x2007; 0x2008; 0x2009; 0x200a;
                     0x2028; 0x2029; 0x202f; 0x205f; 0x3000]).
  { simpl. lia. }
  simpl in Hc.
  repeat (destruct Hc as [<- | Hc]; [vm_compute; reflexivity |]).
  contradiction.
Qed.

Lemma extract_ticket_ids_examples :
  OrderAgent.extract_ticket_ids
    (py "1. G101 北京 → 上海 票务ID: 12 | 2. G103 票务ID：7") = [12; 7] /\
  OrderAgent.extract_ticket_ids (py "共 1 条 票务ID:345 余票: 20张") = [345] /\
  OrderAgent.extract_ticket_ids (py "票务ID 12, ID: 13") = [].
Proof. vm_compute. repeat split; reflexivity. Qed.

Lemma when_truthy_falsy (v : option value) :
  truthy_opt v = false -> OrderAgent.when_truthy v = None.
Proof.
  destruct v as [x|]; simpl; [| reflexivity]. intros ->. reflexivity.
Qed.

Section AgentFacts.

Variable parse_intent : str -> value.
Variable query_tickets : str -> list (str * value).
Variable call_mcp_tool : str -> list (str * value) -> list (str * value).
Variable json_loads : str -> option value.
Variable repr_value : value -> str.

Let handle_task :=
  OrderAgent.handle_task parse_intent query_tickets call_mcp_tool json_loads
    repr_value.

(** C4: for an intent that is ready, carries a contact name and phone and no
    ticket id, and a reply [T] of the Ticket Agent that is not an error:
    when [T] contains '未找到' or '没有', the answer asks for input with the
    apology and the suggestions, and no tool is called; otherwise, with the
    ids extracted from [T]: none, the answer asks for input, echoing [T];
    exactly one, [create_order] is called once, with that id, and the
    answer is not a request for input; several, the answer asks for input,
    listing [T] and naming the first id. *)
Theorem handle_task_decides (user_input : str)
    (intent contact ticket_result : list (str * value))
    (query_text T : str) :
  user_input <> [] ->
  parse_intent user_input = VDict intent ->
  is_str (dict_get (py "status") intent) (py "input_required") = false ->
  dict_get (py "contact") intent = Some (VDict contact) ->
  truthy_opt (dict_get (py "name") contact) = true ->
  truthy_opt (dict_get (py "phone") contact) = true ->
  truthy_opt (dict_get (py "ticket_id") intent) = false ->
  OrderAgent.build_query_text repr_value intent = Ret query_text ->
  query_tickets query_text = ticket_result ->
  is_str (dict_get (py "status") ticket_result) (py "error") = false ->
  dict_get (py "content") ticket_result = Some (VStr T) ->
  if contains (py "未找到") T || contains (py "没有") T then
    handle_task user_input =
      (OrderAgent.create_input_required_response
         (VStr (py "😔 " ++ T ++ OrderAgent.nl ++ OrderAgent.nl
                ++ py "请调整您的出行计划：" ++ OrderAgent.nl
                ++ py "- 尝试其他日期" ++ OrderAgent.nl
                ++ py "- 尝试其他座位类型" ++ OrderAgent.nl
                ++ py "- 尝试其他车次/航班")),
       [])
  else
    match OrderAgent.extract_ticket_ids T with
    | [] =>
        handle_task user_input =
          (OrderAgent.create_input_required_response
             (VStr (py "查询到以下票务信息：" ++ OrderAgent.nl ++ OrderAgent.nl
                    ++ T ++ OrderAgent.nl ++ OrderAgent.nl
                    ++ py "请提供您要预订的票务ID，例如：订票务ID 123")),
           [])
    | [ticket_id] =>
        snd (handle_task user_input) =
          [(py "create_order",
            OrderAgent.order_data intent contact (VInt ticket_id))] /\
        dict_get (py "ticket_id")
          (OrderAgent.order_data intent contact (VInt ticket_id))
        = Some (VInt ticket_id) /\
        OrderAgent.state (fst (handle_task user_input)) <> OrderAgent.INPUT_REQUIRED
    | first :: _ :: _ =>
        handle_task user_input =
          (OrderAgent.create_input_required_response
             (VStr (py "查询到多个票务选项：" ++ OrderAgent.nl ++ OrderAgent.nl
                    ++ T ++ OrderAgent.nl ++ OrderAgent.nl
                    ++ py "请指定您要预订的票务ID，例如：订票务ID "
                    ++ str_of_int first)),
           [])
    end.
Proof.
  intros Hin Hparse Hstatus Hcontact Hname Hphone Hid Hq Hres Herr Hcontent.
  subst handle_task.
  unfold OrderAgent.handle_task, OrderAgent.handle_task_body.
  destruct user_input as [|c0 s0]; [congruence |].
  cbv beta iota delta [is_empty].
  rewrite Hparse. cbv beta iota delta [OrderAgent.items_of].
  rewrite Hstatus, Hcontact. rewrite default_Some. cbv beta iota.
  rewrite Hname, Hphone. cbn [negb orb]. cbv beta iota.
  rewrite (when_truthy_falsy _ Hid), Hq. cbv beta iota zeta.
  rewrite Hres, Herr, Hcontent, default_Some.
  cbv beta iota delta [OrderAgent.py_in OrderAgent.fmt].
  destruct (contains (py "未找到") T) eqn:H1; cbn [orb].
  - reflexivity.
  - destruct (contains (py "没有") T) eqn:H2.
    + reflexivity.
    + destruct (OrderAgent.extract_ticket_ids T) as [|tid [|tid2 rest]].
      * reflexivity.
      * unfold OrderAgent.place_order.
        destruct (OrderAgent.format_booking_result _ _ _) as [f|e];
          [destruct (is_str (dict_get (py "status") (call_mcp_tool _ _)) _) |];
          cbv beta iota; cbn [fst snd OrderAgent.state
                              OrderAgent.create_success_response
                              OrderAgent.create_error_response];
          (split; [reflexivity | split; [reflexivity | discriminate]]).
      * reflexivity.
Qed.

End AgentFacts.

(** An exchange for the examples: the intent the language model returns, the
    reply of the Ticket Agent, and an order backend that accepts. *)
Definition example_contact : list (str * value) :=
  [ (py "name", VStr (py "张三")); (py "phone", VStr (py "13800138000"));
    (py "id_card", VStr []) ].

Definition example_intent : list (str * value) :=
  [ (py "status", VStr (py "ready"));
    (py "ticket_type", VStr (py "train"));
    (py "query_params",
     VDict [ (py "departure_city", VStr (py "北京"));
             (py "arrival_city", VStr (py "上海"));
             (py "date", VStr (py "2026-01-19"));
             (py "seat_type", VStr (py "二等座")) ]);
    (py "ticket_id", VNone);
    (py "quantity", VInt 1);
    (py "contact", VDict example_contact) ].

Definition example_reply : list (str * value) :=
  [ (py "status", VStr (py "success"));
    (py "content", VStr (py "🚄 G101 北京 → 上海 二等座 ¥553.5 | 余票: 20张 票务ID: 12")) ].

Definition example_handle_task : str -> OrderAgent.TaskStatus * list OrderAgent.call :=
  OrderAgent.handle_task
    (fun _ => VDict example_intent)
    (fun _ => example_reply)
    (fun _ _ => [(py "status", VStr (py "success")); (py "data", VStr (py "{}"))])
    (fun _ => None)
    (fun _ => []).

Lemma handle_task_decides_witness :
  snd (example_handle_task (py "订一张明天北京到上海的高铁票，二等座，张三，13800138000"))
  = [(py "create_order",
      OrderAgent.order_data example_intent example_contact (VInt 12))] /\
  dict_get (py "ticket_id")
    (OrderAgent.order_data example_intent example_contact (VInt 12))
  = Some (VInt 12) /\
  OrderAgent.state
    (fst (example_handle_task
            (py "订一张明天北京到上海的高铁票，二等座，张三，13800138000")))
  <> OrderAgent.INPUT_REQUIRED.
Proof.
  pose proof (handle_task_decides
                (fun _ => VDict example_intent)
                (fun _ => example_reply)
                (fun _ _ => [(py "status", VStr (py "success"));
                             (py "data", VStr (py "{}"))])
                (fun _ => None)
                (fun _ => [])
                (py "订一张明天北京到上海的高铁票，二等座，张三，13800138000")
                example_intent example_contact example_reply
                (py "查询火车票 2026-01-19 北京 到上海 二等座")
                (py "🚄 G101 北京 → 上海 二等座 ¥553.5 | 余票: 20张 票务ID: 12")) as H.
  assert (Hin : py "订一张明天北京到上海的高铁票，二等座，张三，13800138000" <> [])
    by (vm_compute; discriminate).
  specialize (H Hin eq_refl).
  specialize (H ltac:(vm_compute; reflexivity) ltac:(vm_compute; reflexivity)
                ltac:(vm_compute; reflexivity) ltac:(vm_compute; reflexivity)
                ltac:(vm_compute; reflexivity) ltac:(vm_compute; reflexivity)
                eq_refl
                ltac:(vm_compute; reflexivity) ltac:(vm_compute; reflexivity)).
  vm_compute in H. vm_compute. exact H.
Defined.

(** * More of the code *)

(** ** src/utils/validators.py: dates, cities and bookings *)

Module Strptime.

(** An alternation [(a1|a2|...)] of sequences of classes followed by the
    rest [k] of the pattern: the alternatives are tried in order, and the
    first one after which the rest matches is taken.  [k] receives the text
    of the group and what follows it. *)
Fixpoint alt {A : Type} (alts : list (list cclass)) (s : str)
    (k : str -> str -> option A) : option A :=
  match alts with
  | [] => None
  | a :: alts' =>
      match match_seq a s with
      | Some rest =>
          match k (take (length a) s) rest with
          | Some r => Some r
          | None => alt alts' s k
          end
      | None => alt alts' s k
      end
  end.

(** The groups of [_strptime.TimeRE] for the directives of ['%Y-%m-%d']:
    [(?P<Y>\d\d\d\d)], [(?P<m>1[0-2]|0[1-9]|[1-9])] and
    [(?P<d>3[0-1]|[1-2]\d|0[1-9]|[1-9]| [1-9])]. *)
Definition Y_group : list cclass := repeat is_decimal 4.

Definition m_group : list (list cclass) :=
  [ [lit 49; range 48 50]; [lit 48; range 49 57]; [range 49 57] ].

Definition d_group : list (list cclass) :=
  [ [lit 51; range 48 49]; [range 49 50; is_decimal]; [lit 48; range 49 57];
    [range 49 57]; [lit 32; range 49 57] ].

(** [format_regex.match(data_string)]: the groups [Y], [m] and [d], and the
    text after the end of the match. *)
Definition format_regex_match (s : str) : option (str * str * str * str) :=
  match match_seq Y_group s with
  | Some (c :: rest) =>
      if c =? 45 then
        alt m_group rest (fun m rest =>
          match rest with
          | c :: rest =>
              if c =? 45 then
                alt d_group rest (fun d rest => Some (take 4 s, m, d, rest))
              else None
          | [] => None
          end)
      else None
  | _ => None
  end.

(** [int(s)] for a group of the match: white space around the digits is
    stripped. *)
Definition int_of_group (s : str) : Z :=
  OrderAgent.int_of_digits (snd (span is_space s)).

Definition is_leap (y : Z) : bool :=
  (y mod 4 =? 0) && (negb (y mod 100 =? 0) || (y mod 400 =? 0)).

Definition days_in_month (y m : Z) : Z :=
  if (m =? 2) && is_leap y then 29
  else nth (Z.to_nat m) [0; 31; 28; 31; 30; 31; 30; 31; 31; 30; 31; 30; 31] 0.

(** [datetime.date(y, m, d)]: [None] for the [ValueError] of a date that is
    not on the calendar. *)
Definition make_date (y m d : Z) : option date :=
  if (1 <=? y) && (y <=? 9999) && (1 <=? m) && (m <=? 12)
     && (1 <=? d) && (d <=? days_in_month y m)
  then Some {| d_year := y; d_month := m; d_day := d |}
  else None.

(** [datetime.strptime(s, '%Y-%m-%d').date()], [None] for [ValueError]:
    the text does not match, characters remain after the match, or the
    fields are not a date of the calendar. *)
Definition strptime (s : str) : option date :=
  match format_regex_match s with
  | Some (Y, m, d, []) => make_date (int_of_group Y) (int_of_group m) (int_of_group d)
  | _ => None
  end.

End Strptime.

Module DateValidators.

(** [a < b] on dates. *)
Definition date_lt (a b : date) : bool :=
  (d_year a <? d_year b)
  || ((d_year a =? d_year b)
      && ((d_month a <? d_month b)
          || ((d_month a =? d_month b) && (d_day a <? d_day b)))).

(** [validate_date], with the date [today] that [date.today()] reads. *)
Definition validate_date (today : date) (date_str : str) (allow_past : bool)
  : bool * str :=
  if is_empty date_str then (false, py "日期不能为空")
  else
    match Strptime.strptime date_str with
    | None => (false, py "日期格式不正确，请使用 YYYY-MM-DD 格式")
    | Some parsed_date =>
        if negb allow_past && date_lt parsed_date today
        then (false, py "日期不能早于今天")
        else (true, [])
    end.

(** [x in l] for a list of strings. *)
Definition str_in (x : str) (l : list str) : bool := existsb (str_eqb x) l.

(** [validate_city]; [supported_cities] is [None] or a list. *)
Definition validate_city (city : str) (supported_cities : option (list str))
  : bool * str :=
  if is_empty city then (false, py "城市不能为空")
  else
    match supported_cities with
    | Some (c :: cs) =>
        if negb (str_in city (c :: cs))
        then (false, py "暂不支持该城市，目前支持: " ++ join (py ", ") (c :: cs))
        else (true, [])
    | _ => (true, [])
    end.

End DateValidators.

Module BookingValidator.

Definition SUPPORTED_SEAT_TYPES : list (str * list str) :=
  [ (py "train", [py "二等座"; py "一等座"; py "商务座"]);
    (py "flight", [py "经济舱"; py "商务舱"; py "头等舱"]);
    (py "concert", [py "看台票"; py "内场票"; py "VIP票"; py "SVIP票"]) ].

(** [cls.SUPPORTED_SEAT_TYPES[key]], for the three keys the class uses. *)
Definition seat_types (key : str) : list str :=
  match List.find (fun kv => str_eqb (fst kv) key) SUPPORTED_SEAT_TYPES with
  | Some kv => snd kv
  | None => []
  end.

(** [seat_type and seat_type not in l], for an optional string. *)
Definition unsupported (seat_type : option str) (l : list str) : bool :=
  match seat_type with
  | Some s => negb (is_empty s) && negb (DateValidators.str_in s l)
  | None => false
  end.

(** The checks the three validators end with: the contact's name, then the
    phone. *)
Definition validate_contact (contact_name contact_phone : str) : bool * str :=
  let '(valid, msg) := Validators.validate_name contact_name in
  if negb valid then (false, msg)
  else
    let '(valid, msg) := Validators.validate_phone contact_phone in
    if negb valid then (false, msg)
    else (true, []).

Definition validate_train_booking (today : date)
    (departure_city arrival_city date_ : str) (seat_type : option str)
    (contact_name contact_phone : str) : bool * str :=
  if is_empty departure_city || is_empty arrival_city
  then (false, py "请提供出发城市和到达城市")
  else if str_eqb departure_city arrival_city
  then (false, py "出发城市和到达城市不能相同")
  else
    let '(valid, msg) := DateValidators.validate_date today date_ false in
    if negb valid then (false, msg)
    else if unsupported seat_type (seat_types (py "train"))
    then (false, py "座位类型不支持，可选: " ++ join (py ", ") (seat_types (py "train")))
    else validate_contact contact_name contact_phone.

Definition validate_flight_booking (today : date)
    (departure_city arrival_city date_ : str) (cabin_type : option str)
    (contact_name contact_phone : str) : bool * str :=
  if is_empty departure_city || is_empty arrival_city
  then (false, py "请提供出发城市和到达城市")
  else if str_eqb departure_city arrival_city
  then (false, py "出发城市和到达城市不能相同")
  else
    let '(valid, msg) := DateValidators.validate_date today date_ false in
    if negb valid then (false, msg)
    else if unsupported cabin_type (seat_types (py "flight"))
    then (false, py "舱位类型不支持，可选: " ++ join (py ", ") (seat_types (py "flight")))
    else validate_contact contact_name contact_phone.

Definition validate_concert_booking (city artist : str) (ticket_type : option str)
    (contact_name contact_phone : str) : bool * str :=
  if is_empty city then (false, py "请提供演出城市")
  else if is_empty artist then (false, py "请提供艺人名称")
  else if unsupported ticket_type (seat_types (py "concert"))
  then (false, py "票类型不支持，可选: " ++ join (py ", ") (seat_types (py "concert")))
  else validate_contact contact_name contact_phone.

End BookingValidator.

(** ** Properties of the validators *)

Lemma one_of_In (cs : list Z) (c : Z) : one_of cs c = true <-> In c cs.
Proof.
  unfold one_of. rewrite existsb_exists. split.
  - intros (x & Hin & Heq). apply Z.eqb_eq in Heq. subst. assumption.
  - intros Hin. exists c. split; [assumption | apply Z.eqb_refl].
Qed.

Lemma existsb_false_Forall {A : Type} (f : A -> bool) (l : list A) :
  existsb f l = false <-> Forall (fun x => f x = false) l.
Proof.
  induction l as [|x l IH]; simpl.
  - split; [constructor | reflexivity].
  - rewrite orb_false_iff, IH, Forall_cons. reflexivity.
Qed.

(** A name [validate_name] has nothing against. *)
Definition name_ok (name : str) : Prop :=
  2 <= len name <= 20 /\
  Forall (fun c => ~ 48 <= c <= 57 /\ ~ In c (py "@#$%^&*()+=[]{}|\/<>")) name.

Lemma name_denylist_false (c : Z) :
  Validators.name_denylist c = false <->
  ~ 48 <= c <= 57 /\ ~ In c (py "@#$%^&*()+=[]{}|\/<>").
Proof.
  unfold Validators.name_denylist, either. rewrite orb_false_iff.
  rewrite <- (one_of_In (py "@#$%^&*()+=[]{}|\/<>") c).
  unfold range. rewrite andb_false_iff, !Z.leb_gt.
  destruct (one_of _ c); split; intros [H1 H2]; split;
    try congruence; try lia; auto.
Qed.

(** X3: [validate_name] accepts a name exactly when it has between 2 and 20
    characters and none of them is a digit 0-9 or one of the symbols
    [@#$%^&*()+=[]{}|\/<>]; an accepted name comes with the empty message. *)
Theorem validate_name_valid_iff (name : str) :
  (fst (Validators.validate_name name) = true <-> name_ok name) /\
  (fst (Validators.validate_name name) = true ->
   Validators.validate_name name = (true, [])).
Proof.
  unfold Validators.validate_name, name_ok, search_class.
  destruct name as [|x name].
  - cbn [is_empty fst]. split; [| discriminate].
    split; [discriminate |]. intros [[H _] _]. unfold len in H. simpl in H. lia.
  - cbn [is_empty].
    destruct (len (x :: name) <? 2) eqn:H2.
    { apply Z.ltb_lt in H2. cbn [fst]. split; [| discriminate].
      split; [discriminate | intros [[H _] _]; lia]. }
    apply Z.ltb_ge in H2.
    destruct (len (x :: name) >? 20) eqn:H20.
    { rewrite Z.gtb_ltb in H20. apply Z.ltb_lt in H20. cbn [fst].
      split; [| discriminate].
      split; [discriminate | intros [[_ H] _]; lia]. }
    rewrite Z.gtb_ltb in H20. apply Z.ltb_ge in H20.
    destruct (existsb Validators.name_denylist (x :: name)) eqn:He; cbn [fst].
    + split; [| discriminate]. split; [discriminate |].
      intros [_ HF].
      assert (Hn : existsb Validators.name_denylist (x :: name) = false);
        [| rewrite Hn in He; discriminate He].
      apply existsb_false_Forall.
      eapply Forall_impl; [exact HF |].
      intros c Hc. apply name_denylist_false. exact Hc.
    + split; [| reflexivity]. split; [intros _ | reflexivity].
      split; [lia |].
      apply existsb_false_Forall in He.
      eapply Forall_impl; [exact He |].
      intros c Hc. apply name_denylist_false. exact Hc.
Qed.

(** The shape [ORD\d{14}[A-Z0-9]{6}]: twenty-three characters. *)
Definition order_no_shape (s : str) : Prop :=
  exists ds suffix,
    s = py "ORD" ++ ds ++ suffix /\
    length ds = 14%nat /\ Forall (fun c => is_decimal c = true) ds /\
    length suffix = 6%nat /\
    Forall (fun c => 65 <= c <= 90 \/ 48 <= c <= 57) suffix.

Lemma order_no_pattern_shape (pre : str) :
  Forall2 (fun c x => c x = true) Validators.order_no_pattern pre <->
  order_no_shape pre.
Proof.
  unfold Validators.order_no_pattern, order_no_shape. split.
  - intros H.
    apply Forall2_app_inv_l in H as (p1 & r1 & H1 & H & ->).
    apply Forall2_app_inv_l in H as (ds & suffix & Hd & Hs & ->).
    apply Forall2_class_repeat in Hd as [Hdl Hd].
    apply Forall2_class_repeat in Hs as [Hsl Hs].
    inversion H1 as [|? a ? l1 Ha Hl1]; subst.
    inversion Hl1 as [|? b ? l2 Hb Hl2]; subst.
    inversion Hl2 as [|? c ? l3 Hc Hl3]; subst.
    inversion Hl3; subst.
    unfold lit in Ha, Hb, Hc. apply Z.eqb_eq in Ha, Hb, Hc. subst a b c.
    exists ds, suffix.
    split; [reflexivity |]. split; [exact Hdl |]. split; [exact Hd |].
    split; [exact Hsl |].
    eapply Forall_impl; [exact Hs |].
    intros c Hc. unfold either, range in Hc.
    rewrite orb_true_iff, !andb_true_iff, !Z.leb_le in Hc. exact Hc.
  - intros (ds & suffix & -> & Hdl & Hd & Hsl & Hs).
    apply Forall2_app; [repeat constructor |].
    apply Forall2_app; apply Forall2_class_repeat; split; try assumption.
    eapply Forall_impl; [exact Hs |].
    intros c Hc. unfold either, range.
    rewrite orb_true_iff, !andb_true_iff, !Z.leb_le. exact Hc.
Qed.

(** X4: [validate_order_no] accepts exactly the strings made of [ORD],
    fourteen decimal digits and six characters among [A-Z] and [0-9], and
    these strings followed by one line feed. *)
Theorem validate_order_no_valid_iff (s : str) :
  fst (Validators.validate_order_no s) = true <->
  order_no_shape s \/ exists s0, s = s0 ++ [10] /\ order_no_shape s0.
Proof.
  unfold Validators.validate_order_no.
  destruct s as [|c s]; cbn [is_empty].
  - cbn [fst]. split; [discriminate |].
    intros [(ds & suffix & H & _) | (s0 & H & _)]; [discriminate H |].
    destruct s0; discriminate H.
  - destruct (match_anchored Validators.order_no_pattern (c :: s)) eqn:Hm;
      cbn [negb fst].
    + apply match_anchored_spec in Hm as (pre & HF & Hs).
      apply order_no_pattern_shape in HF.
      split; [intros _ | reflexivity].
      destruct Hs as [-> | ->]; [left; assumption | right; eauto].
    + split; [discriminate |]. intros H.
      assert (Ht : match_anchored Validators.order_no_pattern (c :: s) = true);
        [| rewrite Ht in Hm; discriminate Hm].
      apply match_anchored_spec.
      destruct H as [H | (s0 & Hs & H)].
      * exists (c :: s). split; [apply order_no_pattern_shape; assumption | auto].
      * exists s0. split; [apply order_no_pattern_shape; assumption | auto].
Qed.

(** *** Dates *)

Lemma int_of_digits_snoc (l : str) (c : Z) :
  OrderAgent.int_of_digits (l ++ [c])
  = OrderAgent.int_of_digits l * 10 + default 0 (int_char c).
Proof. unfold OrderAgent.int_of_digits. rewrite fold_left_app. reflexivity. Qed.

Lemma int_of_digits_zdigits (k : nat) (n : Z) :
  OrderAgent.int_of_digits (zdigits k n) = n mod 10 ^ Z.of_nat k.
Proof.
  revert n. induction k as [|k IH]; intros n.
  - simpl. rewrite Z.mod_1_r. reflexivity.
  - cbn [zdigits]. rewrite int_of_digits_snoc, IH.
    assert (Hd : 48 <= 48 + n mod 10 <= 57)
      by (pose proof (Z.mod_pos_bound n 10); lia).
    destruct (ascii_digit_is_decimal _ Hd) as [_ ->]. rewrite default_Some.
    rewrite Nat2Z.inj_succ, Z.pow_succ_r by lia.
    assert (Hp : 0 < 10 ^ Z.of_nat k) by (apply Z.pow_pos_nonneg; lia).
    rewrite Z.rem_mul_r by lia. lia.
Qed.

Lemma zdigits_head (k : nat) (n : Z) :
  exists c s, zdigits (S k) n = c :: s /\ is_decimal c = true.
Proof.
  pose proof (zdigits_length (S k) n) as Hl.
  pose proof (zdigits_decimal (S k) n) as Hd.
  destruct (zdigits (S k) n) as [|c s]; [discriminate Hl |].
  exists c, s. split; [reflexivity |].
  apply Forall_cons in Hd. apply Hd.
Qed.

Lemma int_of_group_zdigits (k : nat) (n : Z) :
  0 <= n < 10 ^ Z.of_nat (S k) ->
  Strptime.int_of_group (zdigits (S k) n) = n.
Proof.
  intros Hn. unfold Strptime.int_of_group.
  destruct (zdigits_head k n) as (c & s & Hz & Hc).
  assert (Hs : is_space c = false).
  { destruct (is_space c) eqn:E; [| reflexivity].
    apply space_not_decimal in E. rewrite E in Hc. discriminate Hc. }
  rewrite Hz. cbn [span]. rewrite Hs. cbn [snd]. rewrite <- Hz.
  rewrite int_of_digits_zdigits. apply Z.mod_small. exact Hn.
Qed.

Lemma match_seq_Y_group (y : Z) (rest : str) :
  match_seq Strptime.Y_group (zdigits 4 y ++ rest) = Some rest.
Proof.
  apply match_seq_spec. exists (zdigits 4 y). split; [reflexivity |].
  apply Forall2_class_repeat. split; [apply zdigits_length | apply zdigits_decimal].
Qed.

Lemma alt_m_group {A : Type} (m : Z) (rest : str) (k : str -> str -> option A)
    (r : A) :
  1 <= m <= 12 ->
  k (zdigits 2 m) rest = Some r ->
  Strptime.alt Strptime.m_group (zdigits 2 m ++ rest) k = Some r.
Proof.
  intros Hm Hk.
  assert (H : In m [1; 2; 3; 4; 5; 6; 7; 8; 9; 10; 11; 12]) by (simpl; lia).
  simpl in H.
  repeat (destruct H as [<- | H];
          [vm_compute in Hk; vm_compute; rewrite Hk; reflexivity |]).
  contradiction.
Qed.

Lemma alt_d_group {A : Type} (d : Z) (k : str -> str -> option A) (r : A) :
  1 <= d <= 31 ->
  k (zdigits 2 d) [] = Some r ->
  Strptime.alt Strptime.d_group (zdigits 2 d) k = Some r.
Proof.
  intros Hd Hk.
  assert (H : In d [1; 2; 3; 4; 5; 6; 7; 8; 9; 10; 11; 12; 13; 14; 15; 16;
                    17; 18; 19; 20; 21; 22; 23; 24; 25; 26; 27; 28; 29; 30;
                    31]) by (simpl; lia).
  simpl in H.
  repeat (destruct H as [<- | H];
          [vm_compute in Hk; vm_compute; rewrite Hk; reflexivity |]).
  contradiction.
Qed.

Lemma format_regex_match_strftime (y m d : Z) :
  1 <= m <= 12 -> 1 <= d <= 31 ->
  Strptime.format_regex_match
    (zdigits 4 y ++ 45 :: zdigits 2 m ++ 45 :: zdigits 2 d)
  = Some (zdigits 4 y, zdigits 2 m, zdigits 2 d, []).
Proof.
  intros Hm Hd. unfold Strptime.format_regex_match.
  rewrite match_seq_Y_group. rewrite Z.eqb_refl.
  apply alt_m_group; [exact Hm |].
  cbv beta iota. rewrite Z.eqb_refl.
  apply alt_d_group; [exact Hd |].
  replace 4%nat with (length (zdigits 4 y)) at 1 by apply zdigits_length.
  rewrite take_app_length. reflexivity.
Qed.

Lemma days_in_month_bound (y m : Z) : Strptime.days_in_month y m <= 31.
Proof.
  unfold Strptime.days_in_month.
  destruct ((m =? 2) && Strptime.is_leap y); [lia |].
  destruct (Z.to_nat m) as [|[|[|[|[|[|[|[|[|[|[|[|[|[|n]]]]]]]]]]]]]]; simpl;
    lia.
Qed.

(** A date of the calendar. *)
Definition calendar_date (d : date) : Prop :=
  1 <= d_year d <= 9999 /\ 1 <= d_month d <= 12 /\
  1 <= d_day d <= Strptime.days_in_month (d_year d) (d_month d).

Lemma make_date_calendar (d : date) :
  calendar_date d ->
  Strptime.make_date (d_year d) (d_month d) (d_day d) = Some d.
Proof.
  intros (Hy & Hm & Hd). unfold Strptime.make_date.
  repeat match goal with
         | |- context [?a <=? ?b] => destruct (Z.leb_spec a b); [| lia]
         end.
  destruct d. reflexivity.
Qed.

(** X5: the text [strftime('%Y-%m-%d')] writes for a date of the calendar
    with a four-digit year is read back by [strptime] as the same date, so
    [validate_date] accepts it unless it lies before today and past dates
    are not allowed. *)
Theorem validate_date_strftime_date (today d : date) (allow_past : bool) :
  calendar_date d -> 1000 <= d_year d ->
  Strptime.strptime (strftime_date d) = Some d /\
  DateValidators.validate_date today (strftime_date d) allow_past
  = if negb allow_past && DateValidators.date_lt d today
    then (false, py "日期不能早于今天")
    else (true, []).
Proof.
  intros Hcal Hy.
  assert (Hp : Strptime.strptime (strftime_date d) = Some d).
  { pose proof Hcal as (Hy' & Hm & Hd).
    pose proof (days_in_month_bound (d_year d) (d_month d)) as Hb.
    unfold Strptime.strptime, strftime_date. cbn [app].
    rewrite format_regex_match_strftime by lia.
    rewrite !int_of_group_zdigits by (simpl; lia).
    apply make_date_calendar. exact Hcal. }
  split; [exact Hp |].
  unfold DateValidators.validate_date. rewrite Hp.
  assert (He : is_empty (strftime_date d) = false).
  { pose proof (zdigits_length 4 (d_year d)) as Hl. unfold strftime_date.
    destruct (zdigits 4 (d_year d)); [discriminate Hl | reflexivity]. }
  rewrite He. reflexivity.
Qed.

Lemma validate_date_strftime_date_witness :
  Strptime.strptime
    (strftime_date {| d_year := 2028; d_month := 2; d_day := 29 |})
  = Some {| d_year := 2028; d_month := 2; d_day := 29 |} /\
  DateValidators.validate_date {| d_year := 2026; d_month := 11; d_day := 4 |}
    (strftime_date {| d_year := 2028; d_month := 2; d_day := 29 |}) false
  = (true, []).
Proof.
  apply (validate_date_strftime_date
           {| d_year := 2026; d_month := 11; d_day := 4 |}
           {| d_year := 2028; d_month := 2; d_day := 29 |} false).
  - unfold calendar_date. vm_compute. repeat split; discriminate.
  - simpl. lia.
Defined.

(** *** Bookings *)

Lemma str_in_In (x : str) (l : list str) :
  DateValidators.str_in x l = true <-> In x l.
Proof.
  unfold DateValidators.str_in. rewrite existsb_exists. split.
  - intros (y & Hin & Heq). apply str_eqb_eq in Heq. subst. assumption.
  - intros Hin. exists x. split; [assumption | apply str_eqb_refl].
Qed.

(** An optional seat type the validators let through: none, the empty
    string, or one of the list. *)
Definition seat_type_ok (seat_type : option str) (l : list str) : Prop :=
  match seat_type with
  | Some s => s = [] \/ In s l
  | None => True
  end.

Lemma unsupported_false (seat_type : option str) (l : list str) :
  BookingValidator.unsupported seat_type l = false <-> seat_type_ok seat_type l.
Proof.
  destruct seat_type as [s|]; simpl; [| tauto].
  destruct s as [|c s]; simpl; [tauto |].
  rewrite negb_false_iff, str_in_In. split; [auto |].
  intros [H | H]; [discriminate H | exact H].
Qed.

Lemma validate_contact_valid (contact_name contact_phone : str) :
  fst (BookingValidator.validate_contact contact_name contact_phone) = true <->
  fst (Validators.validate_name contact_name) = true /\
  fst (Validators.validate_phone contact_phone) = true.
Proof.
  unfold BookingValidator.validate_contact.
  destruct (Validators.validate_name contact_name) as [[|] m1];
    destruct (Validators.validate_phone contact_phone) as [[|] m2];
    cbn [negb fst]; intuition discriminate.
Qed.

Lemma is_empty_false (s : str) : is_empty s = false <-> s <> [].
Proof. destruct s; simpl; split; congruence. Qed.

(** The conditions on a trip by train or by plane. *)
Definition trip_ok (today : date) (departure_city arrival_city date_ : str)
    (seat_type : option str) (contact_name contact_phone : str)
    (types : list str) : Prop :=
  departure_city <> [] /\ arrival_city <> [] /\
  departure_city <> arrival_city /\
  fst (DateValidators.validate_date today date_ false) = true /\
  seat_type_ok seat_type types /\
  fst (Validators.validate_name contact_name) = true /\
  fst (Validators.validate_phone contact_phone) = true.

(** X6: a train booking, and a flight booking, is valid exactly when both
    cities are given and differ, the date is valid and not in the past, the
    seat (cabin) type is absent, empty or one of the three supported ones,
    and the contact's name and phone are valid: the order of the checks only
    decides which message a rejected booking gets. *)
Theorem validate_trip_booking_valid_iff (today : date)
    (departure_city arrival_city date_ : str) (seat_type : option str)
    (contact_name contact_phone : str) :
  (fst (BookingValidator.validate_train_booking today departure_city
          arrival_city date_ seat_type contact_name contact_phone) = true
   <-> trip_ok today departure_city arrival_city date_ seat_type contact_name
         contact_phone [py "二等座"; py "一等座"; py "商务座"]) /\
  (fst (BookingValidator.validate_flight_booking today departure_city
          arrival_city date_ seat_type contact_name contact_phone) = true
   <-> trip_ok today departure_city arrival_city date_ seat_type contact_name
         contact_phone [py "经济舱"; py "商务舱"; py "头等舱"]).
Proof.
  unfold trip_ok.
  split.
  - unfold BookingValidator.validate_train_booking.
    change (BookingValidator.seat_types (py "train"))
      with [py "二等座"; py "一等座"; py "商务座"].
    rewrite <- unsupported_false, <- validate_contact_valid, <- !is_empty_false.
    destruct (is_empty departure_city); cbn [orb fst];
      [intuition discriminate |].
    destruct (is_empty arrival_city); cbn [orb fst];
      [intuition discriminate |].
    destruct (str_eqb departure_city arrival_city) eqn:He.
    { apply str_eqb_eq in He. cbn [fst]. intuition discriminate. }
    assert (Hne : departure_city <> arrival_city).
    { intros H. apply str_eqb_eq in H. rewrite H in He. discriminate He. }
    destruct (DateValidators.validate_date today date_ false) as [[|] m];
      cbn [negb fst]; [| intuition discriminate].
    destruct (BookingValidator.unsupported seat_type _); cbn [fst];
      [intuition discriminate | intuition auto].
  - unfold BookingValidator.validate_flight_booking.
    change (BookingValidator.seat_types (py "flight"))
      with [py "经济舱"; py "商务舱"; py "头等舱"].
    rewrite <- unsupported_false, <- validate_contact_valid, <- !is_empty_false.
    destruct (is_empty departure_city); cbn [orb fst];
      [intuition discriminate |].
    destruct (is_empty arrival_city); cbn [orb fst];
      [intuition discriminate |].
    destruct (str_eqb departure_city arrival_city) eqn:He.
    { apply str_eqb_eq in He. cbn [fst]. intuition discriminate. }
    assert (Hne : departure_city <> arrival_city).
    { intros H. apply str_eqb_eq in H. rewrite H in He. discriminate He. }
    destruct (DateValidators.validate_date today date_ false) as [[|] m];
      cbn [negb fst]; [| intuition discriminate].
    destruct (BookingValidator.unsupported seat_type _); cbn [fst];
      [intuition discriminate | intuition auto].
Qed.

(** X7: a concert booking is valid exactly when the city and the artist are
    given, the ticket type is absent, empty or one of the four supported
    ones, and the contact's name and phone are valid; no date is checked. *)
Theorem validate_concert_booking_valid_iff (city artist : str)
    (ticket_type : option str) (contact_name contact_phone : str) :
  fst (BookingValidator.validate_concert_booking city artist ticket_type
         contact_name contact_phone) = true
  <-> city <> [] /\ artist <> [] /\
      seat_type_ok ticket_type [py "看台票"; py "内场票"; py "VIP票"; py "SVIP票"] /\
      fst (Validators.validate_name contact_name) = true /\
      fst (Validators.validate_phone contact_phone) = true.
Proof.
  unfold BookingValidator.validate_concert_booking.
  change (BookingValidator.seat_types (py "concert"))
    with [py "看台票"; py "内场票"; py "VIP票"; py "SVIP票"].
  rewrite <- unsupported_false, <- validate_contact_valid, <- !is_empty_false.
  destruct (is_empty city); cbn [fst]; [intuition discriminate |].
  destruct (is_empty artist); cbn [fst]; [intuition discriminate |].
  destruct (BookingValidator.unsupported ticket_type _); cbn [fst];
    [intuition discriminate | intuition auto].
Qed.

(** ** More on the database service *)

(** X8: [_ensure_connection] tries to connect at most twice.  It raises
    exactly when the connection is reported lost and both attempts fail, and
    then with the error of the second attempt; in every other case it
    returns.  It never touches the tables or the statements to come. *)
Theorem ensure_connection_raises_iff (w : world) (e : exn) :
  (fst (_ensure_connection w) = Raise e <->
   exists m0 m1 m2 rest,
     net w = Bad m0 :: Bad m1 :: Bad m2 :: rest /\ e = MySQLError m2) /\
  db (snd (_ensure_connection w)) = db w /\
  faults (snd (_ensure_connection w)) = faults w.
Proof.
  split; [| split; apply ensure_connection_frame].
  unfold _ensure_connection, except_mysql, bind, is_connected, _connect, ret, next.
  destruct (net w) as [|[|m0] [|[|m1] [|[|m2] rest]]]; cbn [negb fst snd];
    (split;
     [ intros H; try discriminate H
     | intros (a & b & c & r & Hn & He); try discriminate Hn ]).
  - injection H as <-. eauto 8.
  - injection Hn as <- <- <- <-. rewrite He. reflexivity.
Qed.

(** ** src/mcp_servers/order_mcp.py: the four tools *)

Module OrderTools.

(** [json.dumps(v, ensure_ascii=False)] without an encoder class: the
    document the text denotes, [None] for the [TypeError] of a value that is
    not serializable. *)
Fixpoint json_dumps_plain (v : value) : option value :=
  match v with
  | VNone | VBool _ | VInt _ | VFloat _ | VStr _ => Some v
  | VDatetime _ | VDate _ | VTimedelta _ | VDecimal _ | VBytes _ => None
  | VList l => option_map VList (all_some json_dumps_plain l)
  | VDict l =>
      option_map VDict
        (all_some (fun kv => option_map (pair (fst kv)) (json_dumps_plain (snd kv))) l)
  end.

Definition dumps (m : M value) : M value :=
  let! result := m in
  match json_dumps_plain result with
  | Some doc => ret doc
  | None => raise (TypeError (py "Object is not JSON serializable"))
  end.

(** A call of one of the tools the server registers, with its arguments;
    for [create_order], also the reading of the clock and the uuid that the
    call will draw for the order number. *)
Inductive tool_call :=
| CallCreateOrder (now : datetime) (u : Z) (ticket_type : str)
    (ticket_id quantity : Z) (contact_name contact_phone contact_id_card : str)
| CallQueryOrder (order_no : str)
| CallCancelOrder (order_no : str)
| CallListOrders (contact_phone status : option str) (limit : Z).

(** The tool functions: the text they return, as the document it denotes. *)
Definition run_tool (c : tool_call) : M value :=
  match c with
  | CallCreateOrder now u ticket_type ticket_id quantity contact_name
      contact_phone contact_id_card =>
      dumps (OrderService.create_order now u ticket_type ticket_id quantity
               contact_name contact_phone contact_id_card)
  | CallQueryOrder order_no => OrderService.query_order order_no
  | CallCancelOrder order_no => dumps (OrderService.cancel_order order_no)
  | CallListOrders contact_phone status limit =>
      OrderService.list_orders contact_phone status limit
  end.

(** The world after a sequence of calls, one after the other. *)
Fixpoint run_tools (cs : list tool_call) (w : world) : world :=
  match cs with
  | [] => w
  | c :: cs' => run_tools cs' (snd (run_tool c w))
  end.

End OrderTools.

(** ** The seats and the orders *)

Definition table_eqb (a b : ticket_table) : bool :=
  match a, b with
  | train_tickets, train_tickets
  | flight_tickets, flight_tickets
  | concert_tickets, concert_tickets => true
  | _, _ => false
  end.

(** An order that holds seats of the row [tid] of the table [t]: it is
    pending and it names that row. *)
Definition holds (t : ticket_table) (tid : Z) (o : order_row) : bool :=
  str_eqb (status o) (py "pending")
  && match OrderService.table_map (ticket_type o) with
     | Some t' => table_eqb t' t
     | None => false
     end
  && (ticket_id o =? tid).

(** The seats of a row that pending orders hold. *)
Fixpoint pending_seats (t : ticket_table) (tid : Z) (os : list order_row) : Z :=
  match os with
  | [] => 0
  | o :: os' =>
      (if holds t tid o then quantity o else 0) + pending_seats t tid os'
  end.

(** The tables are consistent: no pending order is for a negative number of
    seats, and for every ticket row the seats left are not negative and,
    with the seats that pending orders hold, no more than the total. *)
Definition consistent (d : database) : Prop :=
  Forall (fun o => status o = py "pending" -> 0 <= quantity o) (orders d) /\
  forall t tid row,
    tickets t d !! tid = Some row ->
    0 <= remaining_seats row /\
    remaining_seats row + pending_seats t tid (orders d) <= total_seats row.

(** The calls the invariant is about: [create_order] is asked for one seat
    at least (its strings are parameters of the INSERT, or looked up in
    [table_map]), and the strings that [query_order], [cancel_order] and
    [list_orders] write into their statements are quote-free. *)
Definition well_formed (c : OrderTools.tool_call) : Prop :=
  match c with
  | OrderTools.CallCreateOrder _ _ _ _ quantity _ _ _ => 1 <= quantity
  | OrderTools.CallQueryOrder order_no => quote_free order_no = true
  | OrderTools.CallCancelOrder order_no => quote_free order_no = true
  | OrderTools.CallListOrders contact_phone status _ =>
      quote_free_opt contact_phone = true /\ quote_free_opt status = true
  end.

Lemma set_db_same (w : world) : set_db (db w) w = w.
Proof. destruct w. reflexivity. Qed.

(** The tables after [create_order] in a world where nothing goes wrong. *)
Definition created (now : datetime) (u : Z) (ticket_type : str) (tid q : Z)
    (name phone idc : str) (d : database) : database :=
  match OrderService.table_map ticket_type with
  | None => d
  | Some t =>
      match tickets t d !! tid with
      | None => d
      | Some row =>
          if (q <=? remaining_seats row) && negb (q =? 0) then
            set_orders
              (orders d ++ [new_order now u ticket_type tid q name phone idc row])
              (set_tickets t (<[tid := deduct q row]> (tickets t d)) d)
          else d
      end
  end.

Lemma create_order_calm (now : datetime) (u : Z) (ticket_type : str)
    (tid q : Z) (name phone idc : str) (w : world) :
  calm w ->
  exists result,
    OrderService.create_order now u ticket_type tid q name phone idc w
    = (Ret (VDict result),
       set_db (created now u ticket_type tid q name phone idc (db w)) w).
Proof.
  intros Hc. pose proof Hc as [Hn Hf].
  unfold created.
  destruct (OrderService.table_map ticket_type) as [t|] eqn:Ht.
  - destruct (tickets t (db w) !! tid) as [row|] eqn:Hrow.
    + destruct (q <=? remaining_seats row) eqn:Hq.
      * apply Z.leb_le in Hq.
        destruct (q =? 0) eqn:Hq0; cbn [andb negb].
        -- apply Z.eqb_eq in Hq0.
           remember (OrderService.create_order now u ticket_type tid q name
                       phone idc w) as R eqn:HR.
           unfold OrderService.create_order in HR. unfold bind at 1 in HR.
           rewrite (get_ticket_info_calm _ t tid row) in HR by assumption.
           cbv beta iota in HR.
           rewrite dict_get_remaining_seats, default_Some in HR.
           cbv beta iota in HR.
           replace (remaining_seats row <? q) with false in HR
             by (symmetry; apply Z.ltb_ge; lia).
           rewrite dict_get_price, default_Some in HR. cbv beta iota in HR.
           unfold bind at 1 in HR.
           rewrite (update_remaining_seats_calm _ t) in HR by assumption.
           rewrite (run_update_seats t tid q _ row) in HR by exact Hrow.
           replace (q =? 0) with true in HR by (symmetry; apply Z.eqb_eq; lia).
           rewrite andb_false_r in HR. cbn [negb fst snd] in HR.
           change (0 >? 0) with false in HR. cbn [negb] in HR.
           cbv beta iota in HR. rewrite set_db_same in HR.
           unfold ret in HR. rewrite set_db_same.
           eexists. exact HR.
        -- apply Z.eqb_neq in Hq0.
           rewrite (create_order_success now u ticket_type t tid q name phone
                      idc row w) by assumption.
           eexists. reflexivity.
      * apply Z.leb_gt in Hq. cbn [andb].
        remember (OrderService.create_order now u ticket_type tid q name
                    phone idc w) as R eqn:HR.
        unfold OrderService.create_order in HR. unfold bind at 1 in HR.
        rewrite (get_ticket_info_calm _ t tid row) in HR by assumption.
        cbv beta iota in HR.
        rewrite dict_get_remaining_seats, default_Some in HR.
        cbv beta iota in HR.
        replace (remaining_seats row <? q) with true in HR
          by (symmetry; apply Z.ltb_lt; lia).
        unfold ret in HR. rewrite set_db_same.
        eexists. exact HR.
    + remember (OrderService.create_order now u ticket_type tid q name
                  phone idc w) as R eqn:HR.
      unfold OrderService.create_order in HR. unfold bind at 1 in HR.
      rewrite (get_ticket_info_missing _ t) in HR by auto.
      rewrite pop_fault_calm in HR by exact Hf.
      cbv beta iota in HR. unfold ret in HR. rewrite set_db_same.
      eexists. exact HR.
  - remember (OrderService.create_order now u ticket_type tid q name
                phone idc w) as R eqn:HR.
    unfold OrderService.create_order in HR. unfold bind at 1 in HR.
    rewrite get_ticket_info_unknown_type in HR by assumption.
    cbv beta iota in HR. unfold ret in HR. rewrite set_db_same.
    eexists. exact HR.
Qed.

Lemma cancel_order_missing (no : str) (w : world) :
  calm w ->
  orders_with no (db w) = [] ->
  OrderService.cancel_order no w
  = (Ret (OrderService.error_result (py "订单不存在")), w).
Proof.
  intros Hc Ho.
  unfold OrderService.cancel_order. unfold bind at 1.
  rewrite select_order_calm, Ho by exact Hc.
  unfold except_any, no_data_json. cbv beta iota.
  rewrite is_str_no_data. cbn [negb orb]. cbv beta iota. reflexivity.
Qed.

Lemma cancel_order_pending_no_table (no : str) (w : world) (o : order_row)
    (rest : list order_row) :
  calm w ->
  orders_with no (db w) = o :: rest ->
  status o = py "pending" ->
  OrderService.table_map (ticket_type o) = None ->
  OrderService.cancel_order no w
  = (Ret (VDict [ (py "status", VStr (py "success"));
                  (py "message", VStr (py "订单已取消")) ]),
     set_db (fst (run_update (CancelOrder no) (db w))) w).
Proof.
  intros Hc Ho Hs Ht.
  unfold OrderService.cancel_order. unfold bind at 1.
  rewrite select_order_calm, Ho by exact Hc.
  unfold except_any. cbv beta iota.
  rewrite is_str_status_success, dict_get_data, truthy_cons_list.
  cbn [negb orb]. cbv beta iota.
  rewrite order_dict_status, is_str_Some_VStr, Hs, str_eqb_refl.
  cbn [negb]. cbv beta iota.
  unfold bind at 1. rewrite execute_update_calm by exact Hc.
  cbv beta iota.
  rewrite order_dict_ticket_type, order_dict_ticket_id, order_dict_quantity.
  cbv beta iota.
  unfold OrderService.update_remaining_seats. rewrite Ht.
  unfold bind, ret. reflexivity.
Qed.

(** The tables after [cancel_order] in a world where nothing goes wrong. *)
Definition cancelled (no : str) (d : database) : database :=
  match orders_with no d with
  | [] => d
  | o :: _ =>
      if str_eqb (status o) (py "pending") then
        let d1 := set_orders (map (cancel_row no) (orders d)) d in
        match OrderService.table_map (ticket_type o) with
        | Some t =>
            fst (run_update (UpdateSeats t (ticket_id o) (- quantity o)) d1)
        | None => d1
        end
      else d
  end.

Lemma cancel_order_calm (no : str) (w : world) :
  calm w ->
  exists result,
    OrderService.cancel_order no w
    = (Ret (VDict result), set_db (cancelled no (db w)) w).
Proof.
  intros Hc. unfold cancelled.
  destruct (orders_with no (db w)) as [|o rest] eqn:Ho.
  - rewrite cancel_order_missing by assumption. rewrite set_db_same.
    eexists. reflexivity.
  - destruct (str_eqb (status o) (py "pending")) eqn:Hs.
    + apply str_eqb_eq in Hs. cbv zeta.
      destruct (OrderService.table_map (ticket_type o)) as [t|] eqn:Ht.
      * rewrite (cancel_order_pending no w o rest t) by assumption.
        rewrite run_cancel_order. eexists. reflexivity.
      * rewrite (cancel_order_pending_no_table no w o rest) by assumption.
        rewrite run_cancel_order. eexists. reflexivity.
    + rewrite (cancel_order_not_pending no w o rest); try assumption.
      * rewrite set_db_same. eexists. reflexivity.
      * intros H. rewrite H, str_eqb_refl in Hs. discriminate Hs.
Qed.

Lemma json_dumps_plain_frame (m : M value) (w : world) :
  snd (OrderTools.dumps m w) = snd (m w).
Proof.
  unfold OrderTools.dumps, bind. destruct (m w) as [[r|e] w']; [| reflexivity].
  destruct (OrderTools.json_dumps_plain r); reflexivity.
Qed.

Lemma select_calm_frame (sql : query) (w : world) :
  calm w -> snd (execute_query sql w) = w.
Proof.
  intros [Hn Hf]. destruct w as [d n f r]. simpl in Hn, Hf. subst n f.
  unfold execute_query, bind at 1.
  rewrite ensure_connection_quiet by reflexivity.
  unfold except_mysql, bind, statement, ret, raise.
  cbn [next faults fst snd db net raw].
  match goal with
  | |- context [map encode_row ?rows] => destruct (map encode_row rows) as [|x xs]
  end; [reflexivity |].
  destruct (json_dumps _); reflexivity.
Qed.

(** The tables after a call of a tool in a world where nothing goes wrong. *)
Definition tool_effect (c : OrderTools.tool_call) (d : database) : database :=
  match c with
  | OrderTools.CallCreateOrder now u ticket_type tid q name phone idc =>
      created now u ticket_type tid q name phone idc d
  | OrderTools.CallCancelOrder no => cancelled no d
  | _ => d
  end.

Lemma run_tool_calm (c : OrderTools.tool_call) (w : world) :
  calm w ->
  snd (OrderTools.run_tool c w) = set_db (tool_effect c (db w)) w.
Proof.
  intros Hc. destruct c as [now u tt tid q name phone idc | no | no | p s l];
    cbn [OrderTools.run_tool tool_effect].
  - rewrite json_dumps_plain_frame.
    destruct (create_order_calm now u tt tid q name phone idc w Hc) as [r ->].
    reflexivity.
  - unfold OrderService.query_order. rewrite select_calm_frame by exact Hc.
    symmetry. apply set_db_same.
  - rewrite json_dumps_plain_frame.
    destruct (cancel_order_calm no w Hc) as [r ->]. reflexivity.
  - unfold OrderService.list_orders. rewrite select_calm_frame by exact Hc.
    symmetry. apply set_db_same.
Qed.

Lemma table_eqb_eq (a b : ticket_table) : table_eqb a b = true <-> a = b.
Proof. destruct a, b; simpl; split; congruence. Qed.

Lemma table_eq_or_not (a b : ticket_table) : a = b \/ a <> b.
Proof. destruct a, b; auto; right; discriminate. Qed.

Lemma tickets_set_tickets_other (t t' : ticket_table) (m : gmap Z ticket_row)
    (d : database) :
  t' <> t -> tickets t' (set_tickets t m d) = tickets t' d.
Proof. destruct t, t'; intros H; try reflexivity; contradiction. Qed.

Lemma pending_seats_app (t : ticket_table) (tid : Z) (a b : list order_row) :
  pending_seats t tid (a ++ b) = pending_seats t tid a + pending_seats t tid b.
Proof. induction a as [|o a IH]; simpl; [reflexivity | rewrite IH; lia]. Qed.

Lemma holds_pending (t : ticket_table) (tid : Z) (o : order_row) :
  holds t tid o = true ->
  status o = py "pending" /\
  OrderService.table_map (ticket_type o) = Some t /\ ticket_id o = tid.
Proof.
  unfold holds. rewrite !andb_true_iff, str_eqb_eq, Z.eqb_eq.
  intros [[Hs Ht] Hi]. split; [exact Hs |]. split; [| exact Hi].
  destruct (OrderService.table_map (ticket_type o)) as [t'|]; [| discriminate Ht].
  apply table_eqb_eq in Ht. rewrite Ht. reflexivity.
Qed.

Lemma holds_cancel_row (t : ticket_table) (tid : Z) (no : str) (o : order_row) :
  holds t tid (cancel_row no o)
  = if str_eqb (order_no o) no then false else holds t tid o.
Proof.
  unfold cancel_row. destruct (str_eqb (order_no o) no); reflexivity.
Qed.

Lemma quantity_cancel_row (no : str) (o : order_row) :
  quantity (cancel_row no o) = quantity o.
Proof. unfold cancel_row. destruct (str_eqb (order_no o) no); reflexivity. Qed.

Definition sane_orders (os : list order_row) : Prop :=
  Forall (fun o => status o = py "pending" -> 0 <= quantity o) os.

Lemma sane_cancel (no : str) (os : list order_row) :
  sane_orders os -> sane_orders (map (cancel_row no) os).
Proof.
  unfold sane_orders. intros H. apply Forall_map.
  eapply Forall_impl; [exact H |].
  intros o Ho. unfold cancel_row.
  destruct (str_eqb (order_no o) no); [| exact Ho].
  cbn [status quantity]. intros Hs. exfalso.
  exact (cancelled_is_not_pending Hs).
Qed.

Lemma pending_seats_cancel_le (t : ticket_table) (tid : Z) (no : str)
    (os : list order_row) :
  sane_orders os ->
  pending_seats t tid (map (cancel_row no) os) <= pending_seats t tid os.
Proof.
  unfold sane_orders. intros H.
  induction H as [|o os Ho Hos IH]; [reflexivity |].
  cbn [map pending_seats]. rewrite holds_cancel_row, quantity_cancel_row.
  destruct (str_eqb (order_no o) no); [| lia].
  destruct (holds t tid o) eqn:Hh; [| lia].
  apply holds_pending in Hh as [Hs _]. specialize (Ho Hs). lia.
Qed.

Lemma pending_seats_cancel_first (t : ticket_table) (tid : Z) (no : str)
    (os : list order_row) (o : order_row) :
  sane_orders os ->
  In o os -> str_eqb (order_no o) no = true -> holds t tid o = true ->
  pending_seats t tid (map (cancel_row no) os) + quantity o
  <= pending_seats t tid os.
Proof.
  unfold sane_orders. intros H Hin Hno Hh.
  induction H as [|o' os Ho Hos IH]; [contradiction |].
  cbn [map pending_seats]. rewrite holds_cancel_row, quantity_cancel_row.
  destruct Hin as [-> | Hin].
  - rewrite Hno, Hh.
    pose proof (pending_seats_cancel_le t tid no os Hos). lia.
  - specialize (IH Hin).
    destruct (str_eqb (order_no o') no); [| lia].
    destruct (holds t tid o') eqn:Hh'; [| lia].
    apply holds_pending in Hh' as [Hs _]. specialize (Ho Hs). lia.
Qed.

Lemma consistent_created (now : datetime) (u : Z) (ticket_type : str)
    (tid q : Z) (name phone idc : str) (d : database) :
  1 <= q -> consistent d ->
  consistent (created now u ticket_type tid q name phone idc d).
Proof.
  intros Hq [Hsane Hrows]. unfold created.
  destruct (OrderService.table_map ticket_type) as [t|] eqn:Ht;
    [| split; assumption].
  destruct (tickets t d !! tid) as [row|] eqn:Hrow; [| split; assumption].
  destruct (q <=? remaining_seats row) eqn:Hle; [| split; assumption].
  apply Z.leb_le in Hle.
  replace (q =? 0) with false by (symmetry; apply Z.eqb_neq; lia).
  cbn [andb negb].
  set (new := new_order now u ticket_type tid q name phone idc row).
  split.
  - rewrite orders_set_orders. apply Forall_app. split; [exact Hsane |].
    constructor; [| constructor]. intros _. unfold new, new_order. cbn [quantity]. lia.
  - intros t' tid' row'. rewrite orders_set_orders, tickets_set_orders.
    rewrite pending_seats_app. cbn [pending_seats].
    destruct (table_eq_or_not t' t) as [-> | Hne].
    + rewrite tickets_set_tickets.
      destruct (decide (tid' = tid)) as [-> | Hne].
      * rewrite lookup_insert_eq. intros [= <-].
        destruct (Hrows t tid row Hrow) as [H0 H1].
        assert (Hh : holds t tid new = true).
        { unfold holds, new, new_order. cbn [status Db.ticket_type ticket_id].
          rewrite str_eqb_refl, Ht, Z.eqb_refl.
          destruct t; reflexivity. }
        rewrite Hh. unfold new, new_order, deduct. cbn [quantity remaining_seats total_seats].
        lia.
      * rewrite lookup_insert_ne by congruence. intros Hrow'.
        destruct (Hrows t tid' row' Hrow') as [H0 H1].
        assert (Hh : holds t tid' new = false).
        { unfold holds, new, new_order. cbn [status Db.ticket_type ticket_id].
          replace (tid =? tid') with false by (symmetry; apply Z.eqb_neq; lia).
          apply andb_false_r. }
        rewrite Hh. lia.
    + rewrite tickets_set_tickets_other by exact Hne. intros Hrow'.
      destruct (Hrows t' tid' row' Hrow') as [H0 H1].
      assert (Hh : holds t' tid' new = false).
      { unfold holds, new, new_order. cbn [status Db.ticket_type ticket_id].
        rewrite Ht.
        replace (table_eqb t t') with false
          by (symmetry; destruct (table_eqb t t') eqn:E; [| reflexivity];
              apply table_eqb_eq in E; congruence).
        rewrite andb_false_r. reflexivity. }
      rewrite Hh. lia.
Qed.

Lemma consistent_cancelled (no : str) (d : database) :
  consistent d -> consistent (cancelled no d).
Proof.
  intros [Hsane Hrows]. unfold cancelled.
  destruct (orders_with no d) as [|o rest] eqn:Ho; [split; assumption |].
  destruct (str_eqb (status o) (py "pending")) eqn:Hs; [| split; assumption].
  apply str_eqb_eq in Hs. cbv zeta.
  assert (Hin : In o (orders d) /\ str_eqb (order_no o) no = true).
  { apply (List.filter_In (fun o => str_eqb (order_no o) no)).
    unfold orders_with in Ho. rewrite Ho. left. reflexivity. }
  destruct Hin as [Hin Hno].
  assert (Hq : 0 <= quantity o).
  { unfold sane_orders in Hsane. rewrite List.Forall_forall in Hsane.
    exact (Hsane o Hin Hs). }
  set (d1 := set_orders (map (cancel_row no) (orders d)) d).
  assert (H1 : consistent d1).
  { split.
    - unfold d1. rewrite orders_set_orders. apply sane_cancel. exact Hsane.
    - intros t tid row. unfold d1. rewrite orders_set_orders, tickets_set_orders.
      intros Hrow. destruct (Hrows t tid row Hrow) as [H0 H1].
      pose proof (pending_seats_cancel_le t tid no (orders d) Hsane). lia. }
  destruct (OrderService.table_map (ticket_type o)) as [t|] eqn:Ht;
    [| exact H1].
  destruct (tickets t d1 !! ticket_id o) as [row|] eqn:Hrow.
  - rewrite (run_update_seats t (ticket_id o) (- quantity o) d1 row) by exact Hrow.
    destruct ((remaining_seats row >=? - quantity o) && negb (- quantity o =? 0))
      eqn:Hg; cbn [fst]; [| exact H1].
    apply andb_true_iff in Hg as [_ Hg]. apply negb_true_iff, Z.eqb_neq in Hg.
    split.
    + rewrite orders_set_tickets. apply H1.
    + intros t' tid' row'. rewrite orders_set_tickets.
      destruct (table_eq_or_not t' t) as [-> | Hne].
      * rewrite tickets_set_tickets.
        destruct (decide (tid' = ticket_id o)) as [-> | Hne].
        -- rewrite lookup_insert_eq. intros [= <-].
           assert (Hrow0 : tickets t d !! ticket_id o = Some row).
           { unfold d1 in Hrow. rewrite tickets_set_orders in Hrow. exact Hrow. }
           destruct (Hrows t (ticket_id o) row Hrow0) as [H0 H2].
           assert (Hh : holds t (ticket_id o) o = true).
           { unfold holds. rewrite Hs, Ht, Z.eqb_refl.
             destruct t; reflexivity. }
           pose proof (pending_seats_cancel_first t (ticket_id o) no (orders d)
                         o Hsane Hin Hno Hh) as Hp.
           unfold d1. rewrite orders_set_orders.
           unfold deduct. cbn [remaining_seats total_seats]. lia.
        -- rewrite lookup_insert_ne by congruence. apply H1.
      * rewrite tickets_set_tickets_other by exact Hne. apply H1.
  - unfold run_update. rewrite Hrow. exact H1.
Qed.

Lemma pending_seats_nonneg (t : ticket_table) (tid : Z) (os : list order_row) :
  sane_orders os -> 0 <= pending_seats t tid os.
Proof.
  unfold sane_orders. intros H.
  induction H as [|o os Ho Hos IH]; [reflexivity |].
  cbn [pending_seats].
  destruct (holds t tid o) eqn:Hh; [| lia].
  apply holds_pending in Hh as [Hs _]. specialize (Ho Hs). lia.
Qed.

Lemma consistent_tool_effect (c : OrderTools.tool_call) (d : database) :
  well_formed c -> consistent d -> consistent (tool_effect c d).
Proof.
  destruct c as [now u tt tid q name phone idc | no | no | p s l];
    cbn [well_formed tool_effect]; intros Hq Hd.
  - apply consistent_created; assumption.
  - exact Hd.
  - apply consistent_cancelled; assumption.
  - exact Hd.
Qed.

(** X10: the seat counters stay within their bounds.  In a world where
    nothing goes wrong, from tables that are consistent (no pending order for
    a negative quantity; for every ticket row, [0 <= remaining_seats] and
    [remaining_seats] plus the seats held by pending orders [<= total_seats]),
    any sequence of calls of the four tools in which [create_order] is asked
    for one seat at least, and in which the order numbers, the phone and the
    status written into a statement have no quote and no backslash, leaves
    tables that are consistent again: in particular
    [0 <= remaining_seats <= total_seats] for every ticket row. *)
Theorem seats_stay_within_bounds (cs : list OrderTools.tool_call) (w : world) :
  calm w -> consistent (db w) -> Forall well_formed cs ->
  calm (OrderTools.run_tools cs w) /\
  consistent (db (OrderTools.run_tools cs w)) /\
  forall t tid row,
    tickets t (db (OrderTools.run_tools cs w)) !! tid = Some row ->
    0 <= remaining_seats row <= total_seats row.
Proof.
  intros Hc Hd Hcs.
  assert (H : calm (OrderTools.run_tools cs w) /\
              consistent (db (OrderTools.run_tools cs w))).
  { revert w Hc Hd.
    induction Hcs as [|c cs Hcq Hcs IH]; intros w Hc Hd; [split; assumption |].
    cbn [OrderTools.run_tools]. rewrite run_tool_calm by exact Hc.
    apply IH.
    - apply calm_set_db. exact Hc.
    - rewrite db_set_db. apply consistent_tool_effect; assumption. }
  destruct H as [Hc' Hd']. split; [exact Hc' |]. split; [exact Hd' |].
  intros t tid row Hrow. destruct Hd' as [Hsane Hrows].
  destruct (Hrows t tid row Hrow) as [H0 H1].
  pose proof (pending_seats_nonneg t tid _ Hsane). lia.
Qed.

Definition example_now : datetime :=
  {| year := 2026; month := 1; day := 19; hour := 8; minute := 5;
     second := 59; microsecond := 0 |}.

Definition example_calls : list OrderTools.tool_call :=
  [ OrderTools.CallCreateOrder example_now 0xabcdef0123456789abcdef0123456789
      (py "train") 1 3 (py "张三") (py "13800138000") [];
    OrderTools.CallCreateOrder example_now 0x123456789abcdef0123456789abcdef0
      (py "train") 1 8 (py "李四") (py "13900139000") [];
    OrderTools.CallListOrders None (Some (py "pending")) 10;
    OrderTools.CallCancelOrder (py "ORD20260119080559ABCDEF");
    OrderTools.CallQueryOrder (py "ORD20260119080559ABCDEF") ].

Lemma seats_stay_within_bounds_witness :
  calm (OrderTools.run_tools example_calls
          {| db := one_train 10 10; net := []; faults := []; raw := quiet |}) /\
  consistent
    (db (OrderTools.run_tools example_calls
           {| db := one_train 10 10; net := []; faults := []; raw := quiet |})).
Proof.
  destruct (seats_stay_within_bounds example_calls
              {| db := one_train 10 10; net := []; faults := []; raw := quiet |})
    as (H1 & H2 & _).
  - split; reflexivity.
  - split; [constructor |].
    intros t tid row. destruct t; cbn [tickets db one_train trains flights concerts].
    + intros H. apply lookup_singleton_Some in H as [_ <-].
      simpl. lia.
    + rewrite lookup_empty. discriminate.
    + rewrite lookup_empty. discriminate.
  - repeat constructor; simpl; lia.
  - split; assumption.
Defined.

(** ** What [cancel_order] answers *)

(** A result dictionary of the order service: its status is ['success'] or
    ['error']. *)
Definition is_payload (v : value) : Prop :=
  exists items,
    v = VDict items /\
    (is_str (dict_get (py "status") items) (py "success") = true \/
     is_str (dict_get (py "status") items) (py "error") = true).

(** A computation that returns nothing but result dictionaries. *)
Definition answers (m : M value) : Prop :=
  forall w, match fst (m w) with Ret v => is_payload v | Raise _ => True end.

Lemma answers_error (message : str) :
  answers (ret (OrderService.error_result message)).
Proof. intros w. eexists. split; [reflexivity | right; reflexivity]. Qed.

Lemma answers_success (k : str) (v : value) :
  answers (ret (VDict [(py "status", VStr (py "success")); (k, v)])).
Proof. intros w. eexists. split; [reflexivity | left; reflexivity]. Qed.

Lemma answers_raise (e : exn) : answers (raise e).
Proof. intros w. exact I. Qed.

Lemma answers_bind {A : Type} (m : M A) (k : A -> M value) :
  (forall a, answers (k a)) -> answers (bind m k).
Proof.
  intros H w. unfold bind. destruct (m w) as [[a|e] w']; [apply H | exact I].
Qed.

Ltac answers_step :=
  match goal with
  | |- answers (ret (OrderService.error_result _)) => apply answers_error
  | |- answers (ret (VDict _)) => apply answers_success
  | |- answers (raise _) => apply answers_raise
  | |- answers (bind _ _) => apply answers_bind; intros ?
  | |- answers (if ?b then _ else _) => destruct b
  | |- answers (match ?x with _ => _ end) => destruct x
  end.

(** X11: for an order number without quote or backslash, [cancel_order]
    raises only when the connection cannot be had for its first query, and
    then with the error of [_ensure_connection].  Once that query went
    through, everything that goes wrong (a lost connection included) is
    caught: the call returns a dictionary whose status is ['success'] or
    ['error']. *)
Theorem cancel_order_always_answers (order_no : str) (w : world) :
  quote_free order_no = true ->
  match fst (_ensure_connection w) with
  | Ret _ =>
      exists result,
        fst (OrderService.cancel_order order_no w) = Ret result /\
        is_payload result
  | Raise e => fst (OrderService.cancel_order order_no w) = Raise e
  end.
Proof.
  intros _.
  unfold OrderService.cancel_order. unfold bind at 1.
  destruct (_ensure_connection w) as [[[]|e] w1] eqn:Hc; cbn [fst].
  - destruct (execute_query_returns (SelectOrder order_no) w w1 Hc
                (scalar_order_rows _)) as (w2 & -> & _).
    match goal with
    | |- context [except_any ?m ?h] =>
        assert (Ha : answers m); [| specialize (Ha w2)]
    end.
    { repeat answers_step. }
    unfold except_any.
    match goal with
    | H : match fst ?r with _ => _ end |- _ => destruct r as [[v|e] w3]
    end; cbn [fst] in *.
    + exists v. split; [reflexivity | exact Ha].
    + eexists. split; [reflexivity |].
      eexists. split; [reflexivity | right; reflexivity].
  - assert (Hq : execute_query (SelectOrder order_no) w = (Raise e, w1)).
    { unfold execute_query, bind. rewrite Hc. reflexivity. }
    unfold bind at 1. rewrite Hq. reflexivity.
Qed.

Lemma cancel_order_always_answers_witness :
  exists result,
    fst (OrderService.cancel_order (py "ORD20260119080559ABCDEF")
           {| db := one_train 10 10;
              net := [Bad (py "MySQL Connection not available"); Good];
              faults := [Bad (py "Lock wait timeout exceeded")];
              raw := quiet |})
    = Ret result /\
    is_payload result.
Proof.
  apply (cancel_order_always_answers (py "ORD20260119080559ABCDEF")
           {| db := one_train 10 10;
              net := [Bad (py "MySQL Connection not available"); Good];
              faults := [Bad (py "Lock wait timeout exceeded")];
              raw := quiet |}).
  vm_compute. reflexivity.
Defined.

(** ** src/agents/base_agent.py and the clients of the order agent *)

Module MCPClientMixin.

(** What [session.call_tool] gives back: the content items of the result,
    each with its text or, for an item that has no [text], the name of its
    type; and [str(result)]. *)
Record CallToolResult := {
  result_content : list (str + str);
  result_str : str
}.

(** [call_mcp_tool], over what opening the session and calling the tool
    does: it returns a result or raises. *)
Definition call_mcp_tool (session : str -> list (str * value) -> outcome CallToolResult)
    (tool_name : str) (params : list (str * value)) : list (str * value) :=
  match session tool_name params with
  | Ret result =>
      match result_content result with
      | inl text :: _ =>
          [(py "status", VStr (py "success")); (py "data", VStr text)]
      | inr type_ :: _ =>
          [ (py "status", VStr (py "error"));
            (py "message",
             VStr (py "'" ++ type_ ++ py "' object has no attribute 'text'")) ]
      | [] =>
          [(py "status", VStr (py "success")); (py "data", VStr (result_str result))]
      end
  | Raise e => [(py "status", VStr (py "error")); (py "message", VStr (exn_str e))]
  end.

End MCPClientMixin.

Module TicketAgentClient.

(** What [client.post] does: a response, with its status code and what
    [response.json()] returns or raises, or an exception. *)
Inductive http_reply :=
| Response (status_code : Z) (json : outcome value)
| Failed (e : exn).

Section Client.

Variable repr_value : value -> str.

(** [obj[key]] for a string key. *)
Definition getitem (obj : value) (key : str) : outcome value :=
  match obj with
  | VDict items =>
      match dict_get key items with
      | Some v => Ret v
      | None => Raise (OtherError (py "'" ++ key ++ py "'"))
      end
  | VList _ =>
      Raise (TypeError (py "list indices must be integers or slices, not str"))
  | VStr _ =>
      Raise (TypeError (py "string indices must be integers, not 'str'"))
  | _ =>
      Raise (TypeError (py "'" ++ OrderAgent.type_name obj
                        ++ py "' object is not subscriptable"))
  end.

Definition error (message : str) : list (str * value) :=
  [(py "status", VStr (py "error")); (py "message", VStr message)].

(** [query_tickets], over the reply to the POST of the query. *)
Definition query_tickets (post : str -> http_reply) (query_text : str)
  : list (str * value) :=
  match post query_text with
  | Failed e => error (exn_str e)
  | Response status_code json =>
      if status_code =? 200 then
        match json with
        | Raise e => error (exn_str e)
        | Ret result =>
            match OrderAgent.py_in (py "result") result with
            | Raise e => error (exn_str e)
            | Ret false => error (py "无法解析票务Agent响应")
            | Ret true =>
                match getitem result (py "result") with
                | Raise e => error (exn_str e)
                | Ret (VDict task_result) =>
                    let message :=
                      default (VDict []) (dict_get (py "message") task_result) in
                    let content :=
                      match message with
                      | VDict m => default (VStr []) (dict_get (py "content") m)
                      | _ => VStr (OrderAgent.fmt repr_value message)
                      end in
                    let state_ :=
                      default (VStr []) (dict_get (py "state") task_result) in
                    [ (py "status",
                       if is_str (Some state_) (py "completed")
                       then VStr (py "success") else state_);
                      (py "content", content) ]
                | Ret _ => error (py "无法解析票务Agent响应")
                end
            end
        end
      else error (py "HTTP错误: " ++ str_of_int status_code)
  end.

End Client.

End TicketAgentClient.

(** ** More on the order agent *)

Section AgentBranches.

Variable parse_intent : str -> value.
Variable query_tickets : str -> list (str * value).
Variable call_mcp_tool : str -> list (str * value) -> list (str * value).
Variable json_loads : str -> option value.
Variable repr_value : value -> str.

Let handle_task :=
  OrderAgent.handle_task parse_intent query_tickets call_mcp_tool json_loads
    repr_value.

(** X12: without a contact name or without a contact phone (absent, [None]
    or empty), [handle_task] asks for them and does nothing else: the Ticket
    Agent's answer plays no part and no tool is called, even when the intent
    names a ticket id. *)
Theorem handle_task_needs_contact (user_input : str)
    (intent contact : list (str * value)) :
  user_input <> [] ->
  parse_intent user_input = VDict intent ->
  is_str (dict_get (py "status") intent) (py "input_required") = false ->
  OrderAgent.items_of (default (VDict []) (dict_get (py "contact") intent))
  = Ret contact ->
  truthy_opt (dict_get (py "name") contact) = false \/
  truthy_opt (dict_get (py "phone") contact) = false ->
  handle_task user_input =
    (OrderAgent.create_input_required_response
       (VStr (py "请提供联系人姓名和手机号码，例如：张三，13800138000")),
     []).
Proof.
  intros Hin Hparse Hstatus Hcontact Hmissing.
  subst handle_task.
  unfold OrderAgent.handle_task, OrderAgent.handle_task_body.
  destruct user_input as [|c0 s0]; [congruence |].
  cbv beta iota delta [is_empty].
  rewrite Hparse. cbv beta iota delta [OrderAgent.items_of].
  rewrite Hstatus. cbv beta iota.
  change (match default (VDict []) (dict_get (py "contact") intent) with
          | VDict items => Ret items
          | _ => Raise (OtherError
                          (py "'" ++ OrderAgent.type_name
                                       (default (VDict []) (dict_get (py "contact") intent))
                           ++ py "' object has no attribute 'get'"))
          end)
    with (OrderAgent.items_of (default (VDict []) (dict_get (py "contact") intent))).
  rewrite Hcontact. cbv beta iota.
  destruct Hmissing as [-> | ->]; [| rewrite orb_true_r]; reflexivity.
Qed.

(** X13: with a contact and a ticket id in the intent, [handle_task] books
    that id at once: it calls [create_order] exactly once, with the id, the
    quantity and the contact of the intent, and never asks the Ticket Agent;
    its answer is the formatted result of that call. *)
Theorem handle_task_books_given_id (user_input : str)
    (intent contact : list (str * value)) (ticket_id : value) :
  user_input <> [] ->
  parse_intent user_input = VDict intent ->
  is_str (dict_get (py "status") intent) (py "input_required") = false ->
  OrderAgent.items_of (default (VDict []) (dict_get (py "contact") intent))
  = Ret contact ->
  truthy_opt (dict_get (py "name") contact) = true ->
  truthy_opt (dict_get (py "phone") contact) = true ->
  dict_get (py "ticket_id") intent = Some ticket_id ->
  truthy ticket_id = true ->
  let args := OrderAgent.order_data intent contact ticket_id in
  let order_result := call_mcp_tool (py "create_order") args in
  handle_task user_input =
    (match OrderAgent.format_booking_result json_loads repr_value order_result with
     | Ret formatted =>
         if is_str (dict_get (py "status") order_result) (py "success")
         then OrderAgent.create_success_response (VStr formatted)
         else OrderAgent.create_error_response (VStr formatted)
     | Raise e =>
         OrderAgent.create_error_response
           (VStr (py "处理订票请求时发生错误: " ++ exn_str e))
     end,
     [(py "create_order", args)]) /\
  dict_get (py "ticket_id") args = Some ticket_id.
Proof.
  intros Hin Hparse Hstatus Hcontact Hname Hphone Hid Htruthy.
  cbv zeta. split; [| reflexivity].
  subst handle_task.
  unfold OrderAgent.handle_task, OrderAgent.handle_task_body.
  destruct user_input as [|c0 s0]; [congruence |].
  cbv beta iota delta [is_empty].
  rewrite Hparse. cbv beta iota delta [OrderAgent.items_of].
  rewrite Hstatus. cbv beta iota.
  change (match default (VDict []) (dict_get (py "contact") intent) with
          | VDict items => Ret items
          | _ => Raise (OtherError
                          (py "'" ++ OrderAgent.type_name
                                       (default (VDict []) (dict_get (py "contact") intent))
                           ++ py "' object has no attribute 'get'"))
          end)
    with (OrderAgent.items_of (default (VDict []) (dict_get (py "contact") intent))).
  rewrite Hcontact. cbv beta iota.
  rewrite Hname, Hphone. cbn [negb orb]. cbv beta iota.
  rewrite Hid. unfold OrderAgent.when_truthy. rewrite Htruthy.
  cbv beta iota. unfold OrderAgent.place_order.
  destruct (OrderAgent.format_booking_result _ _ _) as [f|e]; [| reflexivity].
  destruct (is_str (dict_get (py "status") (call_mcp_tool _ _)) _); reflexivity.
Qed.

(** X14: when the query to the Ticket Agent comes back with status
    ['error'], [handle_task] fails with ['查询余票失败: '] and the message,
    and calls no tool. *)
Theorem handle_task_ticket_agent_error (user_input : str)
    (intent contact ticket_result : list (str * value)) (query_text : str) :
  user_input <> [] ->
  parse_intent user_input = VDict intent ->
  is_str (dict_get (py "status") intent) (py "input_required") = false ->
  OrderAgent.items_of (default (VDict []) (dict_get (py "contact") intent))
  = Ret contact ->
  truthy_opt (dict_get (py "name") contact) = true ->
  truthy_opt (dict_get (py "phone") contact) = true ->
  truthy_opt (dict_get (py "ticket_id") intent) = false ->
  OrderAgent.build_query_text repr_value intent = Ret query_text ->
  query_tickets query_text = ticket_result ->
  is_str (dict_get (py "status") ticket_result) (py "error") = true ->
  handle_task user_input =
    (OrderAgent.create_error_response
       (VStr (py "查询余票失败: "
              ++ OrderAgent.fmt repr_value
                   (default VNone (dict_get (py "message") ticket_result)))),
     []).
Proof.
  intros Hin Hparse Hstatus Hcontact Hname Hphone Hid Hq Hres Herr.
  subst handle_task.
  unfold OrderAgent.handle_task, OrderAgent.handle_task_body.
  destruct user_input as [|c0 s0]; [congruence |].
  cbv beta iota delta [is_empty].
  rewrite Hparse. cbv beta iota delta [OrderAgent.items_of].
  rewrite Hstatus. cbv beta iota.
  change (match default (VDict []) (dict_get (py "contact") intent) with
          | VDict items => Ret items
          | _ => Raise (OtherError
                          (py "'" ++ OrderAgent.type_name
                                       (default (VDict []) (dict_get (py "contact") intent))
                           ++ py "' object has no attribute 'get'"))
          end)
    with (OrderAgent.items_of (default (VDict []) (dict_get (py "contact") intent))).
  rewrite Hcontact. cbv beta iota.
  rewrite Hname, Hphone. cbn [negb orb]. cbv beta iota.
  rewrite (when_truthy_falsy _ Hid), Hq. cbv beta iota zeta.
  rewrite Hres, Herr. reflexivity.
Qed.

End AgentBranches.

(** Intents for the examples: one without a phone, one that names its
    ticket. *)
Definition example_intent_no_phone : list (str * value) :=
  [ (py "status", VStr (py "ready"));
    (py "ticket_type", VStr (py "train"));
    (py "ticket_id", VInt 12);
    (py "quantity", VInt 1);
    (py "contact", VDict [(py "name", VStr (py "张三")); (py "phone", VStr [])]) ].

Definition example_intent_with_id : list (str * value) :=
  [ (py "status", VStr (py "ready"));
    (py "ticket_type", VStr (py "train"));
    (py "query_params", VDict []);
    (py "ticket_id", VInt 12);
    (py "quantity", VInt 2);
    (py "contact", VDict example_contact) ].

Lemma handle_task_needs_contact_witness :
  OrderAgent.handle_task
    (fun _ => VDict example_intent_no_phone) (fun _ => example_reply)
    (fun _ _ => []) (fun _ => None) (fun _ => [])
    (py "订票务ID 12，张三")
  = (OrderAgent.create_input_required_response
       (VStr (py "请提供联系人姓名和手机号码，例如：张三，13800138000")),
     []).
Proof.
  apply (handle_task_needs_contact
           (fun _ => VDict example_intent_no_phone) (fun _ => example_reply)
           (fun _ _ => []) (fun _ => None) (fun _ => [])
           (py "订票务ID 12，张三") example_intent_no_phone
           [(py "name", VStr (py "张三")); (py "phone", VStr [])]).
  - vm_compute. discriminate.
  - reflexivity.
  - vm_compute. reflexivity.
  - vm_compute. reflexivity.
  - right. vm_compute. reflexivity.
Defined.

Lemma handle_task_books_given_id_witness :
  snd (OrderAgent.handle_task
         (fun _ => VDict example_intent_with_id) (fun _ => example_reply)
         (fun _ _ => [(py "status", VStr (py "success")); (py "data", VStr (py "{}"))])
         (fun _ => None) (fun _ => [])
         (py "订票务ID 12，2张，张三，13800138000"))
  = [(py "create_order",
      [ (py "ticket_type", VStr (py "train"));
        (py "ticket_id", VInt 12);
        (py "quantity", VInt 2);
        (py "contact_name", VStr (py "张三"));
        (py "contact_phone", VStr (py "13800138000"));
        (py "contact_id_card", VStr []) ])].
Proof.
  pose proof (handle_task_books_given_id
                (fun _ => VDict example_intent_with_id) (fun _ => example_reply)
                (fun _ _ => [(py "status", VStr (py "success"));
                             (py "data", VStr (py "{}"))])
                (fun _ => None) (fun _ => [])
                (py "订票务ID 12，2张，张三，13800138000")
                example_intent_with_id example_contact (VInt 12)) as H.
  assert (Hin : py "订票务ID 12，2张，张三，13800138000" <> [])
    by (vm_compute; discriminate).
  specialize (H Hin eq_refl).
  specialize (H ltac:(vm_compute; reflexivity) ltac:(vm_compute; reflexivity)
                ltac:(vm_compute; reflexivity) ltac:(vm_compute; reflexivity)
                ltac:(vm_compute; reflexivity) ltac:(vm_compute; reflexivity)).
  destruct H as [H _]. rewrite H. vm_compute. reflexivity.
Defined.

Lemma handle_task_ticket_agent_error_witness :
  OrderAgent.handle_task
    (fun _ => VDict example_intent)
    (fun _ => [(py "status", VStr (py "error"));
               (py "message", VStr (py "HTTP错误: 503"))])
    (fun _ _ => []) (fun _ => None) (fun _ => [])
    (py "订一张明天北京到上海的高铁票，二等座，张三，13800138000")
  = (OrderAgent.create_error_response
       (VStr (py "查询余票失败: HTTP错误: 503")),
     []).
Proof.
  pose proof (handle_task_ticket_agent_error
                (fun _ => VDict example_intent)
                (fun _ => [(py "status", VStr (py "error"));
                           (py "message", VStr (py "HTTP错误: 503"))])
                (fun _ _ => []) (fun _ => None) (fun _ => [])
                (py "订一张明天北京到上海的高铁票，二等座，张三，13800138000")
                example_intent example_contact
                [(py "status", VStr (py "error"));
                 (py "message", VStr (py "HTTP错误: 503"))]
                (py "查询火车票 2026-01-19 北京 到上海 二等座")) as H.
  assert (Hin : py "订一张明天北京到上海的高铁票，二等座，张三，13800138000" <> [])
    by (vm_compute; discriminate).
  specialize (H Hin eq_refl).
  specialize (H ltac:(vm_compute; reflexivity) ltac:(vm_compute; reflexivity)
                ltac:(vm_compute; reflexivity) ltac:(vm_compute; reflexivity)
                ltac:(vm_compute; reflexivity) ltac:(vm_compute; reflexivity)
                eq_refl ltac:(vm_compute; reflexivity)).
  rewrite H. vm_compute. reflexivity.
Defined.

Lemma format_refusal (json_loads : str -> option value)
    (repr_value : value -> str) (text message : str) :
  json_loads text = Some (OrderService.error_result message) ->
  OrderAgent.format_booking_result json_loads repr_value
    [(py "status", VStr (py "success")); (py "data", VStr text)]
  = Ret (py "✅ 订票成功！" ++ OrderAgent.nl ++ OrderAgent.nl
         ++ py "📋 订单号: N/A" ++ OrderAgent.nl
         ++ py "🎫 数量: 1张" ++ OrderAgent.nl
         ++ py "💰 总价: ¥N/A" ++ OrderAgent.nl
         ++ py "👤 联系人: N/A" ++ OrderAgent.nl
         ++ py "📱 电话: N/A" ++ OrderAgent.nl
         ++ OrderAgent.nl ++ py "⏰ 请在30分钟内完成支付").
Proof.
  intros Hloads.
  unfold OrderAgent.format_booking_result.
  rewrite is_str_status_success, dict_get_data, default_Some.
  cbv beta iota. rewrite Hloads.
  vm_compute. reflexivity.
Qed.

Section AgentAndBackend.

Variable parse_intent : str -> value.
Variable query_tickets : str -> list (str * value).
Variable session : str -> list (str * value) -> outcome MCPClientMixin.CallToolResult.
Variable json_loads : str -> option value.
Variable repr_value : value -> str.

Let handle_task :=
  OrderAgent.handle_task parse_intent query_tickets
    (MCPClientMixin.call_mcp_tool session) json_loads repr_value.

(** X15: a refusal of the order backend reaches the user as a success.
    [call_mcp_tool] gives status ['success'] to every reply of a tool that
    carries a text; so when [create_order] answers with an error dictionary
    (no such ticket, not enough seats, ...), [handle_task] completes the task
    with ['✅ 订票成功！'] and an order number ['N/A'], and the message of the
    backend is not shown. *)
Theorem handle_task_hides_backend_error (user_input : str)
    (intent contact : list (str * value)) (ticket_id : value)
    (text message result_str : str) (more : list (str + str)) :
  user_input <> [] ->
  parse_intent user_input = VDict intent ->
  is_str (dict_get (py "status") intent) (py "input_required") = false ->
  OrderAgent.items_of (default (VDict []) (dict_get (py "contact") intent))
  = Ret contact ->
  truthy_opt (dict_get (py "name") contact) = true ->
  truthy_opt (dict_get (py "phone") contact) = true ->
  dict_get (py "ticket_id") intent = Some ticket_id ->
  truthy ticket_id = true ->
  session (py "create_order") (OrderAgent.order_data intent contact ticket_id)
  = Ret {| MCPClientMixin.result_content := inl text :: more;
           MCPClientMixin.result_str := result_str |} ->
  json_loads text = Some (OrderService.error_result message) ->
  handle_task user_input =
    (OrderAgent.create_success_response
       (VStr (py "✅ 订票成功！" ++ OrderAgent.nl ++ OrderAgent.nl
              ++ py "📋 订单号: N/A" ++ OrderAgent.nl
              ++ py "🎫 数量: 1张" ++ OrderAgent.nl
              ++ py "💰 总价: ¥N/A" ++ OrderAgent.nl
              ++ py "👤 联系人: N/A" ++ OrderAgent.nl
              ++ py "📱 电话: N/A" ++ OrderAgent.nl
              ++ OrderAgent.nl ++ py "⏰ 请在30分钟内完成支付")),
     [(py "create_order", OrderAgent.order_data intent contact ticket_id)]).
Proof.
  intros Hin Hparse Hstatus Hcontact Hname Hphone Hid Htruthy Hsession Hloads.
  destruct (handle_task_books_given_id parse_intent query_tickets
              (MCPClientMixin.call_mcp_tool session) json_loads repr_value
              user_input intent contact ticket_id
              Hin Hparse Hstatus Hcontact Hname Hphone Hid Htruthy) as [H _].
  assert (Hcall : MCPClientMixin.call_mcp_tool session (py "create_order")
                     (OrderAgent.order_data intent contact ticket_id)
                   = [(py "status", VStr (py "success")); (py "data", VStr text)]).
  { unfold MCPClientMixin.call_mcp_tool. rewrite Hsession. reflexivity. }
  subst handle_task. rewrite H. clear H.
  rewrite Hcall, (format_refusal _ _ text message Hloads).
  rewrite is_str_status_success. reflexivity.
Qed.

End AgentAndBackend.

Lemma handle_task_hides_backend_error_witness :
  OrderAgent.state
    (fst (OrderAgent.handle_task
            (fun _ => VDict example_intent_with_id) (fun _ => example_reply)
            (MCPClientMixin.call_mcp_tool
               (fun _ _ =>
                  Ret {| MCPClientMixin.result_content := [inl (py "{...}")];
                         MCPClientMixin.result_str := [] |}))
            (fun _ => Some (OrderService.error_result
                              (py "余票不足，当前仅剩 1 张")))
            (fun _ => [])
            (py "订票务ID 12，2张，张三，13800138000")))
  = OrderAgent.COMPLETED.
Proof.
  pose proof (handle_task_hides_backend_error
                (fun _ => VDict example_intent_with_id) (fun _ => example_reply)
                (fun _ _ =>
                   Ret {| MCPClientMixin.result_content := [inl (py "{...}")];
                          MCPClientMixin.result_str := [] |})
                (fun _ => Some (OrderService.error_result
                                  (py "余票不足，当前仅剩 1 张")))
                (fun _ => [])
                (py "订票务ID 12，2张，张三，13800138000")
                example_intent_with_id example_contact (VInt 12)
                (py "{...}") (py "余票不足，当前仅剩 1 张") [] []) as H.
  assert (Hin : py "订票务ID 12，2张，张三，13800138000" <> [])
    by (vm_compute; discriminate).
  specialize (H Hin eq_refl).
  specialize (H ltac:(vm_compute; reflexivity) ltac:(vm_compute; reflexivity)
                ltac:(vm_compute; reflexivity) ltac:(vm_compute; reflexivity)
                ltac:(vm_compute; reflexivity) ltac:(vm_compute; reflexivity)
                eq_refl eq_refl).
  rewrite H. reflexivity.
Defined.

Section AgentCalls.

Variable parse_intent : str -> value.
Variable query_tickets : str -> list (str * value).
Variable call_mcp_tool : str -> list (str * value) -> list (str * value).
Variable json_loads : str -> option value.
Variable repr_value : value -> str.

Lemma place_order_calls (intent contact : list (str * value)) (ticket_id : value) :
  snd (OrderAgent.place_order call_mcp_tool json_loads repr_value intent
         contact ticket_id)
  = [(py "create_order", OrderAgent.order_data intent contact ticket_id)].
Proof. reflexivity. Qed.

(** X16: whatever the user writes and whatever the language model, the
    Ticket Agent and the backend answer, [handle_task] calls at most one
    tool, and that tool is [create_order]: it never cancels or lists
    orders, and never books twice. *)
Theorem handle_task_calls_at_most_once (user_input : str) :
  snd (OrderAgent.handle_task parse_intent query_tickets call_mcp_tool
         json_loads repr_value user_input) = [] \/
  exists args,
    snd (OrderAgent.handle_task parse_intent query_tickets call_mcp_tool
           json_loads repr_value user_input) = [(py "create_order", args)].
Proof.
  assert (H : forall r : outcome OrderAgent.TaskStatus * list OrderAgent.call,
             (snd r = [] \/ exists args, snd r = [(py "create_order", args)]) ->
             snd (match r with
                  | (Ret response, calls) => (response, calls)
                  | (Raise e, calls) =>
                      (OrderAgent.create_error_response
                         (VStr (py "处理订票请求时发生错误: " ++ exn_str e)), calls)
                  end)
             = [] \/
             exists args,
               snd (match r with
                    | (Ret response, calls) => (response, calls)
                    | (Raise e, calls) =>
                        (OrderAgent.create_error_response
                           (VStr (py "处理订票请求时发生错误: " ++ exn_str e)), calls)
                    end)
               = [(py "create_order", args)]).
  { intros [[r|e] calls] Hr; exact Hr. }
  unfold OrderAgent.handle_task. apply H. clear H.
  unfold OrderAgent.handle_task_body.
  repeat match goal with
         | |- snd (OrderAgent.place_order _ _ _ _ _ _) = [] \/ _ =>
             right; eexists; apply place_order_calls
         | |- snd (_, []) = [] \/ _ => left; reflexivity
         | |- snd (if ?b then _ else _) = [] \/ _ => destruct b
         | |- snd (match ?x with _ => _ end) = [] \/ _ => destruct x
         end.
Qed.

End AgentCalls.

Lemma dict_get_status_first (v : value) (rest : list (str * value)) :
  dict_get (py "status") ((py "status", v) :: rest) = Some v.
Proof. reflexivity. Qed.

Lemma dict_get_content_second (a v : value) :
  dict_get (py "content") [(py "status", a); (py "content", v)] = Some v.
Proof. reflexivity. Qed.

Lemma query_tickets_reply (repr_value : value -> str)
    (post : str -> TicketAgentClient.http_reply) (query_text : str)
    (result task message : list (str * value)) (state_ : str) (content_ : value) :
  post query_text = TicketAgentClient.Response 200 (Ret (VDict result)) ->
  dict_get (py "result") result = Some (VDict task) ->
  dict_get (py "message") task = Some (VDict message) ->
  dict_get (py "content") message = Some content_ ->
  dict_get (py "state") task = Some (VStr state_) ->
  TicketAgentClient.query_tickets repr_value post query_text
  = [ (py "status",
       if str_eqb state_ (py "completed") then VStr (py "success")
       else VStr state_);
      (py "content", content_) ].
Proof.
  intros Hpost Hresult Hmessage Hcontent Hstate.
  unfold TicketAgentClient.query_tickets. rewrite Hpost.
  change (200 =? 200) with true. cbv beta iota.
  assert (Hin : OrderAgent.py_in (py "result") (VDict result) = Ret true).
  { unfold OrderAgent.py_in. f_equal. apply existsb_exists.
    clear - Hresult. induction result as [|[k v] l IH]; [discriminate Hresult |].
    cbn [dict_get] in Hresult.
    destruct (str_eqb k (py "result")) eqn:Hk.
    - exists (k, v). split; [left; reflexivity | exact Hk].
    - destruct (IH Hresult) as (x & Hx & Hxk). exists x. split; [right; exact Hx | exact Hxk]. }
  rewrite Hin. cbv beta iota.
  unfold TicketAgentClient.getitem. rewrite Hresult. cbv beta iota zeta.
  rewrite Hmessage, Hstate, !default_Some. cbv beta iota.
  rewrite Hcontent, default_Some, is_str_Some_VStr. reflexivity.
Qed.

Section AgentAndTicketAgent.

Variable parse_intent : str -> value.
Variable post : str -> TicketAgentClient.http_reply.
Variable call_mcp_tool : str -> list (str * value) -> list (str * value).
Variable json_loads : str -> option value.
Variable repr_value : value -> str.

(** X17: the Order Agent stops on a query to the Ticket Agent only when the
    status it reads is ['error'].  A reply of the Ticket Agent in any other
    state (a failed task, a request for input) is handled exactly as the
    reply of a completed query with the same text: the text is searched for
    ['未找到'], ['没有'] and ticket ids, and may lead to a booking. *)
Theorem handle_task_reads_any_reply_as_listing (user_input : str)
    (intent contact result task message : list (str * value))
    (query_text state_ T : str) :
  user_input <> [] ->
  parse_intent user_input = VDict intent ->
  is_str (dict_get (py "status") intent) (py "input_required") = false ->
  OrderAgent.items_of (default (VDict []) (dict_get (py "contact") intent))
  = Ret contact ->
  truthy_opt (dict_get (py "name") contact) = true ->
  truthy_opt (dict_get (py "phone") contact) = true ->
  truthy_opt (dict_get (py "ticket_id") intent) = false ->
  OrderAgent.build_query_text repr_value intent = Ret query_text ->
  post query_text = TicketAgentClient.Response 200 (Ret (VDict result)) ->
  dict_get (py "result") result = Some (VDict task) ->
  dict_get (py "message") task = Some (VDict message) ->
  dict_get (py "content") message = Some (VStr T) ->
  dict_get (py "state") task = Some (VStr state_) ->
  state_ <> py "error" ->
  OrderAgent.handle_task parse_intent
    (TicketAgentClient.query_tickets repr_value post)
    call_mcp_tool json_loads repr_value user_input
  = OrderAgent.handle_task parse_intent
      (fun _ => [(py "status", VStr (py "success")); (py "content", VStr T)])
      call_mcp_tool json_loads repr_value user_input.
Proof.
  intros Hin Hparse Hstatus Hcontact Hname Hphone Hid Hq Hpost Hresult
    Hmessage Hcontent Hstate Hne.
  pose proof (query_tickets_reply repr_value post query_text result task
                message state_ (VStr T) Hpost Hresult Hmessage Hcontent Hstate)
    as Hreply.
  assert (Herr : is_str (dict_get (py "status")
                           (TicketAgentClient.query_tickets repr_value post
                              query_text)) (py "error") = false).
  { rewrite Hreply, dict_get_status_first.
    destruct (str_eqb state_ (py "completed")); [reflexivity |].
    rewrite is_str_Some_VStr. apply str_eqb_neq. exact Hne. }
  assert (Hc : dict_get (py "content")
                 (TicketAgentClient.query_tickets repr_value post query_text)
               = Some (VStr T)).
  { rewrite Hreply. apply dict_get_content_second. }
  unfold OrderAgent.handle_task, OrderAgent.handle_task_body.
  destruct user_input as [|c0 s0]; [congruence |].
  cbv beta iota delta [is_empty].
  rewrite Hparse. cbv beta iota delta [OrderAgent.items_of].
  rewrite Hstatus. cbv beta iota.
  change (match default (VDict []) (dict_get (py "contact") intent) with
          | VDict items => Ret items
          | _ => Raise (OtherError
                          (py "'" ++ OrderAgent.type_name
                                       (default (VDict []) (dict_get (py "contact") intent))
                           ++ py "' object has no attribute 'get'"))
          end)
    with (OrderAgent.items_of (default (VDict []) (dict_get (py "contact") intent))).
  rewrite Hcontact. cbv beta iota.
  rewrite Hname, Hphone. cbn [negb orb]. cbv beta iota.
  rewrite (when_truthy_falsy _ Hid), Hq. cbv beta iota zeta.
  rewrite Herr, Hc, dict_get_status_first, dict_get_content_second.
  reflexivity.
Qed.

End AgentAndTicketAgent.

(** A reply of the Ticket Agent whose task failed. *)
Definition example_failed_reply : list (str * value) :=
  [ (py "jsonrpc", VStr (py "2.0"));
    (py "result",
     VDict [ (py "state", VStr (py "failed"));
             (py "message",
              VDict [ (py "role", VStr (py "assistant"));
                      (py "content", VStr (py "查询失败: 连接超时")) ]) ]) ].

Lemma handle_task_reads_any_reply_as_listing_witness :
  OrderAgent.handle_task (fun _ => VDict example_intent)
    (TicketAgentClient.query_tickets (fun _ => [])
       (fun _ => TicketAgentClient.Response 200 (Ret (VDict example_failed_reply))))
    (fun _ _ => []) (fun _ => None) (fun _ => [])
    (py "订一张明天北京到上海的高铁票，二等座，张三，13800138000")
  = OrderAgent.handle_task (fun _ => VDict example_intent)
      (fun _ => [ (py "status", VStr (py "success"));
                  (py "content", VStr (py "查询失败: 连接超时")) ])
      (fun _ _ => []) (fun _ => None) (fun _ => [])
      (py "订一张明天北京到上海的高铁票，二等座，张三，13800138000").
Proof.
  apply (handle_task_reads_any_reply_as_listing
           (fun _ => VDict example_intent)
           (fun _ => TicketAgentClient.Response 200 (Ret (VDict example_failed_reply)))
           (fun _ _ => []) (fun _ => None) (fun _ => [])
           (py "订一张明天北京到上海的高铁票，二等座，张三，13800138000")
           example_intent example_contact example_failed_reply
           [ (py "state", VStr (py "failed"));
             (py "message",
              VDict [ (py "role", VStr (py "assistant"));
                      (py "content", VStr (py "查询失败: 连接超时")) ]) ]
           [ (py "role", VStr (py "assistant"));
             (py "content", VStr (py "查询失败: 连接超时")) ]
           (py "查询火车票 2026-01-19 北京 到上海 二等座")
           (py "failed") (py "查询失败: 连接超时")).
  - vm_compute. discriminate.
  - reflexivity.
  - vm_compute. reflexivity.
  - vm_compute. reflexivity.
  - vm_compute. reflexivity.
  - vm_compute. reflexivity.
  - vm_compute. reflexivity.
  - vm_compute. reflexivity.
  - reflexivity.
  - vm_compute. reflexivity.
  - vm_compute. reflexivity.
  - vm_compute. reflexivity.
  - vm_compute. reflexivity.
  - vm_compute. discriminate.
Defined.

(** ** The ticket ids read from a reply *)

Lemma starts_with_app (p s : str) :
  starts_with p s = true -> s = p ++ drop (length p) s.
Proof.
  revert s. induction p as [|a p IH]; intros s; [reflexivity |].
  destruct s as [|b s]; [discriminate |].
  cbn [starts_with]. rewrite andb_true_iff, Z.eqb_eq. intros [-> H].
  cbn [length drop app]. f_equal. apply IH. exact H.
Qed.

Lemma span_spec (c : cclass) (s : str) :
  s = fst (span c s) ++ snd (span c s) /\
  Forall (fun x => c x = true) (fst (span c s)).
Proof.
  induction s as [|x s [IH1 IH2]]; [split; [reflexivity | constructor] |].
  cbn [span]. destruct (c x) eqn:Hc; [| split; [reflexivity | constructor]].
  destruct (span c s) as [a b]. cbn [fst snd] in *.
  split; [cbn [app]; f_equal; exact IH1 | constructor; assumption].
Qed.

(** An id written in a text: the characters [票务ID], a colon (full-width or
    ASCII), white space if any, and the digits of the id. *)
Definition written_id (digits s : str) : Prop :=
  exists before colon spaces after,
    s = before ++ py "票务ID" ++ [colon] ++ spaces ++ digits ++ after /\
    (colon = 0xFF1A \/ colon = 58) /\
    Forall (fun c => is_space c = true) spaces /\
    digits <> [] /\ Forall (fun c => is_decimal c = true) digits.

Lemma match_ticket_id_written (s group : str) (n : nat) :
  OrderAgent.match_ticket_id s = Some (group, n) -> written_id group s.
Proof.
  unfold OrderAgent.match_ticket_id.
  destruct (starts_with (py "票务ID") s) eqn:Hs; [| discriminate].
  apply starts_with_app in Hs.
  change (length (py "票务ID")) with 4%nat in Hs.
  destruct (drop 4 s) as [|c rest] eqn:Hd; [discriminate |].
  destruct ((c =? 0xFF1A) || (c =? 58)) eqn:Hc; [| discriminate].
  rewrite orb_true_iff, !Z.eqb_eq in Hc.
  destruct (span_spec is_space rest) as [Hw1 Hw2].
  destruct (span is_space rest) as [ws rest1]. cbn [fst snd] in *.
  destruct (span_spec is_decimal rest1) as [Hd1 Hd2].
  destruct (span is_decimal rest1) as [ds after]. cbn [fst snd] in *.
  destruct ds as [|d ds]; [discriminate |].
  intros [= <- _].
  exists [], c, ws, after.
  split; [| split; [exact Hc | split; [exact Hw2 | split; [discriminate | exact Hd2]]]].
  cbn [app] in *. rewrite Hs at 1. rewrite Hw1, Hd1. reflexivity.
Qed.

Lemma written_id_cons (digits s : str) (x : Z) :
  written_id digits s -> written_id digits (x :: s).
Proof.
  intros (before & colon & spaces & after & -> & H).
  exists (x :: before), colon, spaces, after. split; [reflexivity | exact H].
Qed.

Lemma findall_ticket_ids_written (skip : nat) (s group : str) :
  In group (OrderAgent.findall_ticket_ids skip s) -> written_id group s.
Proof.
  revert skip. induction s as [|x s IH]; intros skip; [contradiction |].
  cbn [OrderAgent.findall_ticket_ids].
  destruct skip as [|k].
  - destruct (OrderAgent.match_ticket_id (x :: s)) as [[g n]|] eqn:Hm.
    + intros [<- | Hin].
      * apply (match_ticket_id_written _ _ n). exact Hm.
      * apply written_id_cons. apply (IH _ Hin).
    + intros Hin. apply written_id_cons. apply (IH _ Hin).
  - intros Hin. apply written_id_cons. apply (IH _ Hin).
Qed.

Lemma int_of_digits_nonneg (s : str) : 0 <= OrderAgent.int_of_digits s.
Proof.
  unfold OrderAgent.int_of_digits.
  assert (H : forall acc, 0 <= acc ->
            0 <= fold_left (fun acc c => acc * 10 + default 0 (int_char c)) s acc).
  { induction s as [|c s IH]; intros acc Hacc; [exact Hacc |].
    cbn [fold_left]. apply IH.
    assert (0 <= default 0 (int_char c)); [| lia].
    unfold int_char, decimal_run.
    destruct (List.find _ decimal_zeros) as [z|] eqn:Hf; [| simpl; lia].
    apply List.find_some in Hf as [_ Hz].
    apply andb_true_iff in Hz as [Hz _]. apply Z.leb_le in Hz.
    rewrite default_Some. lia. }
  apply H. lia.
Qed.

(** X18: the Order Agent never invents a ticket id.  Every id that
    [extract_ticket_ids] returns is the value of a run of decimal digits
    that stands in the text right after ['票务ID'], a colon and optional
    white space; it is never negative. *)
Theorem extract_ticket_ids_written (content_ : str) (ticket_id : Z) :
  In ticket_id (OrderAgent.extract_ticket_ids content_) ->
  0 <= ticket_id /\
  exists digits,
    ticket_id = OrderAgent.int_of_digits digits /\ written_id digits content_.
Proof.
  unfold OrderAgent.extract_ticket_ids. rewrite in_map_iff.
  intros (digits & <- & Hin).
  split; [apply int_of_digits_nonneg |].
  exists digits. split; [reflexivity |].
  apply (findall_ticket_ids_written 0). exact Hin.
Qed.

Lemma extract_ticket_ids_written_witness :
  0 <= 345 /\
  exists digits,
    345 = OrderAgent.int_of_digits digits /\
    written_id digits (py "共 1 条 票务ID:345 余票: 20张").
Proof.
  apply (extract_ticket_ids_written (py "共 1 条 票务ID:345 余票: 20张") 345).
  vm_compute. left. reflexivity.
Defined.

(** ** Values the encoder cannot write *)

Lemma all_some_None {A B : Type} (f : A -> option B) (l : list A) :
  Exists (fun x => f x = None) l -> all_some f l = None.
Proof.
  induction 1 as [x l Hx | x l Hl IH]; cbn [all_some].
  - rewrite Hx. reflexivity.
  - fold (all_some f) in *. rewrite IH. destruct (f x); reflexivity.
Qed.

(** A row with a [bytes] value in one of its columns. *)
Definition has_bytes (row : list (str * value)) : Prop :=
  Exists (fun kv => exists b, snd kv = VBytes b) row.

Lemma json_dumps_bytes_row (row : list (str * value)) :
  has_bytes row -> json_dumps (encode_row row) = None.
Proof.
  intros H. unfold encode_row. cbn [json_dumps].
  rewrite all_some_None; [reflexivity |].
  apply Exists_map. (* on the encoded items *)
  eapply Exists_impl; [exact H |].
  intros [k v] [b Hb]. cbn [fst snd] in *. subst v. reflexivity.
Qed.

(** X2: [execute_query] only catches the errors of the driver.  When the
    statement is served and a row of the result holds a [bytes] value (a
    BLOB or BINARY column), which the JSON encoder cannot write, the call
    raises [TypeError] instead of returning a document. *)
Theorem execute_query_raises_on_bytes_row (sql : query) (w w1 : world) :
  _ensure_connection w = (Ret tt, w1) ->
  fst (next (faults w1)) = Good ->
  Exists has_bytes (run_query sql w1) ->
  fst (execute_query sql w)
  = Raise (TypeError (py "Object of type bytes is not JSON serializable")).
Proof.
  intros Hc Hgood Hrows.
  unfold execute_query, bind at 1. rewrite Hc.
  unfold except_mysql, bind, statement, ret, raise.
  destruct (next (faults w1)) as [ev rest] eqn:Hn. cbn [fst] in Hgood. subst ev.
  set (w' := {| db := db w1; net := net w1; faults := rest; raw := raw w1 |}).
  assert (Hq : run_query sql w' = run_query sql w1)
    by (apply run_query_ext; reflexivity).
  rewrite Hq.
  assert (Hnone : json_dumps (success_json (VList (map encode_row (run_query sql w1))))
                  = None).
  { rewrite json_dumps_success. cbn [json_dumps].
    rewrite all_some_None; [reflexivity |].
    apply Exists_map. eapply Exists_impl; [exact Hrows |].
    intros row Hrow. apply json_dumps_bytes_row. exact Hrow. }
  destruct (run_query sql w1) as [|row rows] eqn:Hr.
  - inversion Hrows.
  - cbn [map] in *. rewrite Hnone. reflexivity.
Qed.

Lemma execute_query_raises_on_bytes_row_witness :
  fst (execute_query (RawQuery (py "SELECT avatar FROM users"))
         {| db := one_train 10 10; net := [Bad (py "lost"); Good]; faults := [];
            raw := fun _ => [[(py "avatar", VBytes [137; 80; 78; 71])]] |})
  = Raise (TypeError (py "Object of type bytes is not JSON serializable")).
Proof.
  apply (execute_query_raises_on_bytes_row
           (RawQuery (py "SELECT avatar FROM users"))
           {| db := one_train 10 10; net := [Bad (py "lost"); Good]; faults := [];
              raw := fun _ => [[(py "avatar", VBytes [137; 80; 78; 71])]] |}
           {| db := one_train 10 10; net := []; faults := [];
              raw := fun _ => [[(py "avatar", VBytes [137; 80; 78; 71])]] |}).
  - reflexivity.
  - reflexivity.
  - left. left. exists [137; 80; 78; 71]. reflexivity.
Defined.

(** ** src/agents/ticket_agent.py: the listing the Order Agent reads *)

Module TicketQueryAgent.

Section Agent.

(** [json.loads] ([None] when it raises) and the text an f-string writes
    for a value that is not a string. *)
Variable json_loads : str -> option value.
Variable repr_value : value -> str.

(** [f"{t.get(key, '')}"]. *)
Definition field (t : list (str * value)) (key : str) : str :=
  OrderAgent.fmt repr_value (default (VStr []) (dict_get key t)).

Definition train_lines (i : Z) (t : list (str * value)) : list str :=
  [ py "【" ++ str_of_int i ++ py "】" ++ field t (py "train_number")
      ++ py " " ++ field t (py "seat_type");
    py "    " ++ field t (py "departure_city") ++ py " → "
      ++ field t (py "arrival_city");
    py "    出发: " ++ field t (py "departure_time");
    py "    到达: " ++ field t (py "arrival_time");
    py "    💰 ¥" ++ field t (py "price") ++ py " | 余票: "
      ++ field t (py "remaining_seats") ++ py "张";
    py "    🎫 票务ID: " ++ field t (py "id");
    [] ].

Definition flight_lines (i : Z) (t : list (str * value)) : list str :=
  [ py "【" ++ str_of_int i ++ py "】" ++ field t (py "flight_number")
      ++ py " " ++ field t (py "cabin_type");
    py "    " ++ field t (py "departure_city") ++ py " → "
      ++ field t (py "arrival_city");
    py "    出发: " ++ field t (py "departure_time");
    py "    到达: " ++ field t (py "arrival_time");
    py "    💰 ¥" ++ field t (py "price") ++ py " | 余票: "
      ++ field t (py "remaining_seats") ++ py "张";
    py "    🎫 票务ID: " ++ field t (py "id");
    [] ].

Definition concert_lines (i : Z) (t : list (str * value)) : list str :=
  [ py "【" ++ str_of_int i ++ py "】" ++ field t (py "artist")
      ++ py " - " ++ field t (py "ticket_type");
    py "    📍 " ++ field t (py "city") ++ py " · " ++ field t (py "venue");
    py "    🕐 " ++ field t (py "start_time");
    py "    💰 ¥" ++ field t (py "price") ++ py " | 余票: "
      ++ field t (py "remaining_seats") ++ py "张";
    py "    🎫 票务ID: " ++ field t (py "id");
    [] ].

(** [for i, t in enumerate(records, i): lines.append(...)]: the lines, or
    [None] when a record has no [get] ([AttributeError]). *)
Fixpoint record_lines (lines_of : Z -> list (str * value) -> list str) (i : Z)
    (records : list value) : option (list str) :=
  match records with
  | [] => Some []
  | VDict t :: rest =>
      option_map (app (lines_of i t)) (record_lines lines_of (i + 1) rest)
  | _ :: _ => None
  end.

Definition hint : str := py "💡 如需订票，请提供票务ID和联系人信息".

(** [format_results]: every exception ends in the text
    [f"查询结果: {data}"]. *)
Definition format_results (query_type data : value) : str :=
  let fallback := py "查询结果: " ++ OrderAgent.fmt repr_value data in
  match match data with VStr s => json_loads s | _ => Some data end with
  | None => fallback
  | Some records =>
      if negb (truthy records)
      then py "😔 未找到符合条件的票务信息，请尝试调整查询条件。"
      else
        let rest (records : value) : str :=
          if negb (truthy records) then py "😔 未找到符合条件的票务信息。"
          else
            let listing (head tail_ : str)
                (lines_of : Z -> list (str * value) -> list str) : str :=
              match records with
              | VList items =>
                  match record_lines lines_of 1 items with
                  | Some lines =>
                      join OrderAgent.nl
                        ((head ++ str_of_int (Z.of_nat (length items)) ++ tail_ ++ OrderAgent.nl)
                         :: lines ++ [hint])
                  | None => fallback
                  end
              | _ => fallback
              end in
            if is_str (Some query_type) (py "train") then
              listing (py "🚄 找到 ") (py " 条火车票信息：") train_lines
            else if is_str (Some query_type) (py "flight") then
              listing (py "✈️ 找到 ") (py " 条机票信息：") flight_lines
            else if is_str (Some query_type) (py "concert") then
              listing (py "🎤 找到 ") (py " 条演唱会信息：") concert_lines
            else fallback in
        match records with
        | VDict d =>
            if is_str (dict_get (py "status") d) (py "no_data") then
              match default (VStr (py "未找到数据")) (dict_get (py "message") d) with
              | VStr message => py "😔 " ++ message
              | _ => fallback
              end
            else rest (default (VList [records]) (dict_get (py "data") d))
        | _ => rest records
        end
  end.

End Agent.

End TicketQueryAgent.

(** *** Reading the listing back *)

(** A text in front of which nothing is found: scanning it finds no id and
    leaves the scan at its end. *)
Definition skippable (p : str) : Prop :=
  forall tail,
    OrderAgent.findall_ticket_ids 0 (p ++ tail)
    = OrderAgent.findall_ticket_ids 0 tail.

Lemma skippable_app (a b : str) :
  skippable a -> skippable b -> skippable (a ++ b).
Proof. intros Ha Hb tail. rewrite <- app_assoc, Ha, Hb. reflexivity. Qed.

Lemma marker_chars : py "票务ID" = [31080; 21153; 73; 68].
Proof. vm_compute. reflexivity. Qed.

Lemma marker_start : py "票务" = [31080; 21153].
Proof. vm_compute. reflexivity. Qed.

(** A text that does not contain ['票务']. *)
Definition clean (s : str) : Prop := contains (py "票务") s = false.

Lemma clean_skip (p tail : str) :
  clean p ->
  last p <> Some 31080 \/ starts_with [21153] tail = false ->
  OrderAgent.findall_ticket_ids 0 (p ++ tail)
  = OrderAgent.findall_ticket_ids 0 tail.
Proof.
  unfold clean. rewrite marker_start. intros Hp Ht.
  induction p as [|c p IH]; [reflexivity |].
  cbn [contains] in Hp. apply orb_false_iff in Hp as [Hs Hp].
  cbn [app OrderAgent.findall_ticket_ids].
  assert (Hm : OrderAgent.match_ticket_id (c :: p ++ tail) = None).
  { unfold OrderAgent.match_ticket_id. rewrite marker_chars.
    cbn [starts_with]. cbn [starts_with] in Hs.
    destruct (31080 =? c) eqn:Hc; [| reflexivity]. cbn [andb] in *.
    destruct p as [|c2 p].
    - cbn [app]. destruct Ht as [Ht | Ht].
      + apply Z.eqb_eq in Hc. subst c. exfalso. apply Ht. reflexivity.
      + destruct tail as [|t tail]; [reflexivity |].
        cbn [starts_with] in Ht. rewrite andb_true_r in Ht.
        cbn [starts_with]. rewrite Ht. reflexivity.
    - cbn [app starts_with]. rewrite andb_true_r in Hs. rewrite Hs. reflexivity. }
  rewrite Hm. apply IH; [exact Hp |].
  destruct Ht as [Ht | Ht]; [left | right; exact Ht].
  destruct p as [|c2 p]; [discriminate | exact Ht].
Qed.

Lemma no_marker_char_clean (p : str) :
  Forall (fun c => c <> 31080) p -> clean p.
Proof.
  unfold clean. rewrite marker_start.
  induction 1 as [|c p Hc Hp IH]; [reflexivity |].
  cbn [contains starts_with]. rewrite IH.
  replace (31080 =? c) with false by (symmetry; apply Z.eqb_neq; congruence).
  reflexivity.
Qed.

Lemma no_marker_char_skippable (p : str) :
  Forall (fun c => c <> 31080) p -> skippable p.
Proof.
  intros H tail. induction H as [|c p Hc Hp IH]; [reflexivity |].
  cbn [app OrderAgent.findall_ticket_ids].
  unfold OrderAgent.match_ticket_id. rewrite marker_chars. cbn [starts_with].
  replace (31080 =? c) with false by (symmetry; apply Z.eqb_neq; congruence).
  cbn [andb]. exact IH.
Qed.

Lemma nat_digits_S (fuel : nat) (n : Z) (acc : str) :
  nat_digits (S fuel) n acc
  = if n <? 10 then (48 + n mod 10) :: acc
    else nat_digits fuel (n / 10) ((48 + n mod 10) :: acc).
Proof. reflexivity. Qed.

(** [str(n)] for [n >= 0]: its digits. *)
Lemma nat_digits_spec (fuel : nat) (n : Z) (acc : str) :
  0 <= n < 2 ^ Z.of_nat (S fuel) ->
  exists ds,
    nat_digits (S fuel) n acc = ds ++ acc /\ ds <> [] /\
    Forall (fun c => 48 <= c <= 57) ds /\
    OrderAgent.int_of_digits ds = n.
Proof.
  revert n acc. induction fuel as [|fuel IH]; intros n acc Hn.
  - change (2 ^ Z.of_nat 1) with 2 in Hn.
    rewrite nat_digits_S. replace (n <? 10) with true by (symmetry; apply Z.ltb_lt; lia).
    exists [48 + n mod 10]. split; [reflexivity |]. split; [discriminate |].
    rewrite Z.mod_small by lia.
    split; [constructor; [lia | constructor] |].
    unfold OrderAgent.int_of_digits. cbn [fold_left].
    destruct (ascii_digit_is_decimal (48 + n) ltac:(lia)) as [_ ->].
    rewrite default_Some. lia.
  - rewrite nat_digits_S.
    pose proof (Z.mod_pos_bound n 10 ltac:(lia)) as Hm.
    destruct (n <? 10) eqn:Hlt.
    + apply Z.ltb_lt in Hlt.
      exists [48 + n mod 10]. split; [reflexivity |]. split; [discriminate |].
      rewrite Z.mod_small by lia.
      split; [constructor; [lia | constructor] |].
      unfold OrderAgent.int_of_digits. cbn [fold_left].
      destruct (ascii_digit_is_decimal (48 + n) ltac:(lia)) as [_ ->].
      rewrite default_Some. lia.
    + apply Z.ltb_ge in Hlt.
      assert (Hdiv : 0 <= n / 10 < 2 ^ Z.of_nat (S fuel)).
      { split; [apply Z.div_pos; lia |].
        rewrite (Nat2Z.inj_succ (S fuel)), Z.pow_succ_r in Hn by lia.
        apply Z.div_lt_upper_bound; lia. }
      destruct (IH (n / 10) ((48 + n mod 10) :: acc) Hdiv)
        as (ds & Hds & Hne & Hall & Hint).
      exists (ds ++ [48 + n mod 10]).
      split; [rewrite Hds, <- app_assoc; reflexivity |].
      split; [destruct ds; discriminate |].
      split; [apply Forall_app; split; [exact Hall | constructor; [lia | constructor]] |].
      rewrite int_of_digits_snoc, Hint.
      destruct (ascii_digit_is_decimal (48 + n mod 10) ltac:(lia)) as [_ ->].
      rewrite default_Some. pose proof (Z.div_mod n 10 ltac:(lia)). lia.
Qed.

Lemma str_of_int_spec (n : Z) :
  0 <= n ->
  str_of_int n <> [] /\ Forall (fun c => 48 <= c <= 57) (str_of_int n) /\
  OrderAgent.int_of_digits (str_of_int n) = n.
Proof.
  intros Hn. unfold str_of_int.
  replace (n <? 0) with false by (symmetry; apply Z.ltb_ge; lia).
  assert (Hb : 0 <= n < 2 ^ Z.of_nat (S (Z.to_nat (Z.log2 n)))).
  { split; [exact Hn |].
    rewrite Nat2Z.inj_succ, Z2Nat.id by apply Z.log2_nonneg.
    destruct (Z.eq_dec n 0) as [-> | Hz]; [reflexivity |].
    apply Z.log2_spec. lia. }
  destruct (nat_digits_spec _ n [] Hb) as (ds & Hds & Hne & Hall & Hint).
  rewrite Hds, app_nil_r. auto.
Qed.


(** A constant text of the listing: it does not contain ['票务'] and does
    not end with ['票']. *)
Definition fixed_ok (F : str) : bool :=
  negb (contains (py "票务") F)
  && match last F with Some c => negb (c =? 31080) | None => true end.

Lemma fixed_ok_skippable (F : str) : fixed_ok F = true -> skippable F.
Proof.
  unfold fixed_ok. rewrite andb_true_iff, negb_true_iff. intros [Hc Hl] tail.
  apply clean_skip; [exact Hc |]. left.
  destruct (last F) as [c|]; [| discriminate].
  apply negb_true_iff, Z.eqb_neq in Hl. congruence.
Qed.

(** A constant text that follows a field: it does not start with ['务']. *)
Definition separates (F : str) : bool :=
  match F with c :: _ => negb (21153 =? c) | [] => false end.

Lemma field_skip (f F rest : str) :
  clean f -> separates F = true ->
  OrderAgent.findall_ticket_ids 0 (f ++ F ++ rest)
  = OrderAgent.findall_ticket_ids 0 (F ++ rest).
Proof.
  intros Hf HF. apply clean_skip; [exact Hf |]. right.
  destruct F as [|c F]; [discriminate HF |].
  cbn [separates] in HF. apply negb_true_iff in HF.
  cbn [app starts_with]. rewrite HF. reflexivity.
Qed.

Lemma digits_skippable (n : Z) : 0 <= n -> skippable (str_of_int n).
Proof.
  intros Hn. apply no_marker_char_skippable.
  destruct (str_of_int_spec n Hn) as (_ & Hall & _).
  eapply Forall_impl; [exact Hall |]. intros c Hc. cbv beta in *. lia.
Qed.

Lemma span_app_all (c : cclass) (a b : str) :
  Forall (fun x => c x = true) a ->
  match b with x :: _ => c x = false | [] => True end ->
  span c (a ++ b) = (a, b).
Proof.
  intros Ha Hb. induction Ha as [|x a Hx Ha IH].
  - cbn [app]. destruct b as [|y b]; [reflexivity |].
    cbn [span]. rewrite Hb. reflexivity.
  - cbn [app span]. rewrite Hx, IH. reflexivity.
Qed.

Lemma findall_skip (l rest : str) :
  OrderAgent.findall_ticket_ids (length l) (l ++ rest)
  = OrderAgent.findall_ticket_ids 0 rest.
Proof.
  induction l as [|x l IH]; [reflexivity |].
  cbn [length app OrderAgent.findall_ticket_ids]. exact IH.
Qed.

Lemma findall_0_cons (x : Z) (rest : str) :
  OrderAgent.findall_ticket_ids 0 (x :: rest)
  = match OrderAgent.match_ticket_id (x :: rest) with
    | Some (group, n) => group :: OrderAgent.findall_ticket_ids (n - 1) rest
    | None => OrderAgent.findall_ticket_ids 0 rest
    end.
Proof. reflexivity. Qed.

Lemma id_marker : py "票务ID: " = [31080; 21153; 73; 68; 58; 32].
Proof. vm_compute. reflexivity. Qed.

(** The id line: the digits written after ['票务ID: '] are found, and the
    scan goes on after them. *)
Lemma findall_id (n : Z) (rest : str) :
  0 <= n ->
  OrderAgent.findall_ticket_ids 0
    (py "票务ID: " ++ str_of_int n ++ OrderAgent.nl ++ rest)
  = str_of_int n :: OrderAgent.findall_ticket_ids 0 (OrderAgent.nl ++ rest).
Proof.
  intros Hn. destruct (str_of_int_spec n Hn) as (Hne & Hall & _).
  rewrite id_marker.
  set (ds := str_of_int n) in *.
  set (tail := OrderAgent.nl ++ rest).
  cbn [app].
  assert (Hm : OrderAgent.match_ticket_id
                 (31080 :: 21153 :: 73 :: 68 :: 58 :: 32 :: ds ++ tail)
               = Some (ds, (5 + 1 + length ds)%nat)).
  { unfold OrderAgent.match_ticket_id. rewrite marker_chars.
    cbn [starts_with]. rewrite !Z.eqb_refl. cbn [andb drop].
    change (58 =? 65306) with false. cbn [orb].
    assert (Hdec : Forall (fun x => is_decimal x = true) ds).
    { eapply Forall_impl; [exact Hall |].
      intros c Hc. apply ascii_digit_is_decimal. exact Hc. }
    destruct ds as [|d ds'] eqn:Hds; [congruence |].
    assert (Hsp : span is_space (32 :: (d :: ds') ++ tail)
                  = ([32], (d :: ds') ++ tail)).
    { apply (span_app_all is_space [32]).
      - constructor; [reflexivity | constructor].
      - cbn [app]. destruct (is_space d) eqn:E; [| reflexivity].
        apply space_not_decimal in E. apply Forall_cons in Hdec as [Hd _].
        rewrite E in Hd. discriminate Hd. }
    rewrite Hsp.
    rewrite (span_app_all is_decimal (d :: ds') tail Hdec); [reflexivity |].
    unfold tail, OrderAgent.nl. cbn [app]. reflexivity. }
  rewrite findall_0_cons, Hm.
  replace (5 + 1 + length ds - 1)%nat
    with (length ([21153; 73; 68; 58; 32] ++ ds))
    by (rewrite length_app; cbn [length]; lia).
  change (21153 :: 73 :: 68 :: 58 :: 32 :: ds ++ tail)
    with (([21153; 73; 68; 58; 32] ++ ds) ++ tail).
  rewrite findall_skip. reflexivity.
Qed.

Section Listing.

Variable json_loads : str -> option value.
Variable repr_value : value -> str.

(** A row of a result set as the listing shows it: its [id] is an integer
    that is not negative, and no other column is written with ['票务'] in
    it. *)
Definition listed_row (t : list (str * value)) (id : Z) : Prop :=
  dict_get (py "id") t = Some (VInt id) /\ 0 <= id /\
  Forall (fun kv => fst kv <> py "id" ->
                    clean (OrderAgent.fmt repr_value (snd kv))) t.

Lemma dict_get_In (key : str) (t : list (str * value)) (v : value) :
  dict_get key t = Some v -> In (key, v) t.
Proof.
  induction t as [|[k x] t IH]; [discriminate |].
  cbn [dict_get]. destruct (str_eqb k key) eqn:Hk.
  - intros [= ->]. apply str_eqb_eq in Hk. subst k. left. reflexivity.
  - intros H. right. apply IH. exact H.
Qed.

Lemma listed_field (t : list (str * value)) (id : Z) (key : str) :
  listed_row t id -> key <> py "id" ->
  clean (TicketQueryAgent.field repr_value t key).
Proof.
  intros (_ & _ & Hall) Hkey. unfold TicketQueryAgent.field.
  destruct (dict_get key t) as [v|] eqn:Hv.
  - rewrite default_Some. apply dict_get_In in Hv.
    rewrite List.Forall_forall in Hall. apply (Hall (key, v) Hv). exact Hkey.
  - reflexivity.
Qed.

Lemma listed_id (t : list (str * value)) (id : Z) :
  listed_row t id -> TicketQueryAgent.field repr_value t (py "id") = str_of_int id.
Proof.
  intros (Hid & _). unfold TicketQueryAgent.field. rewrite Hid. reflexivity.
Qed.

Lemma id_line_split : py "    🎫 票务ID: " = py "    🎫 " ++ py "票务ID: ".
Proof. vm_compute. reflexivity. Qed.

Ltac scan_step Hrow :=
  lazymatch goal with
  | |- OrderAgent.findall_ticket_ids 0
         (TicketQueryAgent.field _ _ ?k ++ ?F ++ ?rest) = _ =>
      rewrite (field_skip _ F rest
                 (listed_field _ _ k Hrow
                    ltac:(let H := fresh in intros H; vm_compute in H; discriminate H))
                 ltac:(vm_compute; reflexivity))
  | |- OrderAgent.findall_ticket_ids 0 (str_of_int ?i ++ ?rest) = _ =>
      rewrite (digits_skippable i ltac:(lia) rest)
  | |- OrderAgent.findall_ticket_ids 0 (py "票务ID: " ++ _) = _ => fail
  | |- OrderAgent.findall_ticket_ids 0 (?F ++ ?rest) = _ =>
      rewrite (fixed_ok_skippable F ltac:(vm_compute; reflexivity) rest)
  end.

Ltac scan_record Hrow Hid :=
  cbn [map concat];
  rewrite (listed_id _ _ Hrow), id_line_split;
  rewrite <- ?app_assoc; rewrite ?app_nil_l, ?app_nil_r;
  repeat scan_step Hrow;
  rewrite findall_id by exact Hid;
  repeat scan_step Hrow;
  reflexivity.

(** The lines of one record, each followed by a line feed. *)
Definition record_text (lines : list str) : str :=
  concat (map (fun l => l ++ OrderAgent.nl) lines).

Lemma train_record_scan (t : list (str * value)) (id i : Z) (tail : str) :
  listed_row t id -> 0 <= i ->
  OrderAgent.findall_ticket_ids 0
    (record_text (TicketQueryAgent.train_lines repr_value i t) ++ tail)
  = str_of_int id :: OrderAgent.findall_ticket_ids 0 tail.
Proof.
  intros Hrow Hi. pose proof Hrow as (_ & Hid & _).
  unfold record_text, TicketQueryAgent.train_lines.
  scan_record Hrow Hid.
Qed.

Lemma flight_record_scan (t : list (str * value)) (id i : Z) (tail : str) :
  listed_row t id -> 0 <= i ->
  OrderAgent.findall_ticket_ids 0
    (record_text (TicketQueryAgent.flight_lines repr_value i t) ++ tail)
  = str_of_int id :: OrderAgent.findall_ticket_ids 0 tail.
Proof.
  intros Hrow Hi. pose proof Hrow as (_ & Hid & _).
  unfold record_text, TicketQueryAgent.flight_lines.
  scan_record Hrow Hid.
Qed.

Lemma concert_record_scan (t : list (str * value)) (id i : Z) (tail : str) :
  listed_row t id -> 0 <= i ->
  OrderAgent.findall_ticket_ids 0
    (record_text (TicketQueryAgent.concert_lines repr_value i t) ++ tail)
  = str_of_int id :: OrderAgent.findall_ticket_ids 0 tail.
Proof.
  intros Hrow Hi. pose proof Hrow as (_ & Hid & _).
  unfold record_text, TicketQueryAgent.concert_lines.
  scan_record Hrow Hid.
Qed.

Lemma record_text_app (a b : list str) :
  record_text (a ++ b) = record_text a ++ record_text b.
Proof. unfold record_text. rewrite map_app, concat_app. reflexivity. Qed.

Lemma records_scan (lines_of : Z -> list (str * value) -> list str)
    (rows : list (list (str * value))) (ids : list Z) :
  (forall t id i tail,
     listed_row t id -> 0 <= i ->
     OrderAgent.findall_ticket_ids 0 (record_text (lines_of i t) ++ tail)
     = str_of_int id :: OrderAgent.findall_ticket_ids 0 tail) ->
  Forall2 listed_row rows ids ->
  forall i tail, 0 <= i ->
    exists lines,
      TicketQueryAgent.record_lines lines_of i (map VDict rows) = Some lines /\
      OrderAgent.findall_ticket_ids 0 (record_text lines ++ tail)
      = map str_of_int ids ++ OrderAgent.findall_ticket_ids 0 tail.
Proof.
  intros Hrec Hrows.
  induction Hrows as [|t id rows ids Hrow Hrows IH]; intros i tail Hi.
  - exists []. split; reflexivity.
  - destruct (IH (i + 1) tail ltac:(lia)) as (lines & Hl & Hscan).
    exists (lines_of i t ++ lines). split.
    + cbn [map TicketQueryAgent.record_lines]. rewrite Hl. reflexivity.
    + rewrite record_text_app, <- app_assoc, (Hrec t id i _ Hrow Hi), Hscan.
      reflexivity.
Qed.

Lemma join_lines (head last_ : str) (lines : list str) :
  join OrderAgent.nl (head :: lines ++ [last_])
  = head ++ OrderAgent.nl ++ record_text lines ++ last_.
Proof.
  revert head. induction lines as [|l lines IH]; intros head.
  - reflexivity.
  - change (join OrderAgent.nl (head :: (l :: lines) ++ [last_]))
      with (head ++ OrderAgent.nl ++ join OrderAgent.nl (l :: lines ++ [last_])).
    rewrite IH. unfold record_text. cbn [map concat].
    rewrite <- !app_assoc. reflexivity.
Qed.

Lemma map_int_of_digits (ids : list Z) :
  Forall (fun id => 0 <= id) ids ->
  map OrderAgent.int_of_digits (map str_of_int ids) = ids.
Proof.
  induction 1 as [|id ids Hid Hids IH]; [reflexivity |].
  cbn [map]. rewrite IH. destruct (str_of_int_spec id Hid) as (_ & _ & ->).
  reflexivity.
Qed.

Lemma listing_scan (head tail_ : str)
    (lines_of : Z -> list (str * value) -> list str)
    (rows : list (list (str * value))) (ids : list Z) :
  fixed_ok head = true -> fixed_ok tail_ = true ->
  (forall t id i tail,
     listed_row t id -> 0 <= i ->
     OrderAgent.findall_ticket_ids 0 (record_text (lines_of i t) ++ tail)
     = str_of_int id :: OrderAgent.findall_ticket_ids 0 tail) ->
  Forall2 listed_row rows ids ->
  exists lines,
    TicketQueryAgent.record_lines lines_of 1 (map VDict rows) = Some lines /\
    OrderAgent.extract_ticket_ids
      (join OrderAgent.nl
         ((head ++ str_of_int (Z.of_nat (length (map VDict rows))) ++ tail_
           ++ OrderAgent.nl) :: lines ++ [TicketQueryAgent.hint]))
    = ids.
Proof.
  intros Hhead Htail Hrec Hrows.
  destruct (records_scan lines_of rows ids Hrec Hrows 1 TicketQueryAgent.hint
              ltac:(lia)) as (lines & Hl & Hscan).
  exists lines. split; [exact Hl |].
  unfold OrderAgent.extract_ticket_ids.
  rewrite join_lines. rewrite <- !app_assoc.
  rewrite (fixed_ok_skippable head Hhead).
  rewrite (digits_skippable (Z.of_nat (length (map VDict rows))) ltac:(lia)).
  rewrite (fixed_ok_skippable tail_ Htail).
  rewrite (fixed_ok_skippable OrderAgent.nl ltac:(vm_compute; reflexivity)).
  rewrite (fixed_ok_skippable OrderAgent.nl ltac:(vm_compute; reflexivity)).
  rewrite Hscan.
  replace (OrderAgent.findall_ticket_ids 0 TicketQueryAgent.hint) with (@nil str)
    by (vm_compute; reflexivity).
  rewrite app_nil_r. apply map_int_of_digits.
  clear - Hrows. induction Hrows as [|t id rows ids (_ & Hid & _) _ IH];
    constructor; assumption.
Qed.

(** X19: the Order Agent reads back the ids the Ticket Agent lists.  For a
    query of trains, flights or concerts that found rows, each with an
    integer [id] that is not negative and no other column written with
    ['票务'] in it, the ids that [extract_ticket_ids] finds in the text of
    [format_results] are the ids of the rows, each once and in the order of
    the rows. *)
Theorem extract_ticket_ids_of_listing (query_type : value) (text : str)
    (rows : list (list (str * value))) (ids : list Z) :
  is_str (Some query_type) (py "train") = true \/
  is_str (Some query_type) (py "flight") = true \/
  is_str (Some query_type) (py "concert") = true ->
  json_loads text = Some (success_json (VList (map VDict rows))) ->
  rows <> [] ->
  Forall2 listed_row rows ids ->
  OrderAgent.extract_ticket_ids
    (TicketQueryAgent.format_results json_loads repr_value query_type (VStr text))
  = ids.
Proof.
  intros Htype Hloads Hne Hrows.
  unfold TicketQueryAgent.format_results. rewrite Hloads.
  unfold success_json. cbv beta iota zeta.
  change (truthy (VDict [(py "status", VStr (py "success"));
                         (py "data", VList (map VDict rows))])) with true.
  cbn [negb]. cbv beta iota.
  change (is_str (dict_get (py "status")
                    [(py "status", VStr (py "success"));
                     (py "data", VList (map VDict rows))]) (py "no_data"))
    with false.
  cbv beta iota.
  rewrite dict_get_data, default_Some.
  assert (Ht : truthy (VList (map VDict rows)) = true)
    by (destruct rows; [congruence | reflexivity]).
  rewrite Ht. cbn [negb]. cbv beta iota.
  destruct (is_str (Some query_type) (py "train")) eqn:H1.
  - destruct (listing_scan (py "🚄 找到 ") (py " 条火车票信息：")
                (TicketQueryAgent.train_lines repr_value) rows ids
                ltac:(vm_compute; reflexivity) ltac:(vm_compute; reflexivity)
                train_record_scan Hrows) as (lines & -> & Hx).
    exact Hx.
  - destruct (is_str (Some query_type) (py "flight")) eqn:H2.
    + destruct (listing_scan (py "✈️ 找到 ") (py " 条机票信息：")
                  (TicketQueryAgent.flight_lines repr_value) rows ids
                  ltac:(vm_compute; reflexivity) ltac:(vm_compute; reflexivity)
                  flight_record_scan Hrows) as (lines & -> & Hx).
      exact Hx.
    + destruct (is_str (Some query_type) (py "concert")) eqn:H3.
      * destruct (listing_scan (py "🎤 找到 ") (py " 条演唱会信息：")
                    (TicketQueryAgent.concert_lines repr_value) rows ids
                    ltac:(vm_compute; reflexivity) ltac:(vm_compute; reflexivity)
                    concert_record_scan Hrows) as (lines & -> & Hx).
        exact Hx.
      * destruct Htype as [H | [H | H]]; discriminate H.
Qed.

End Listing.

(** Two rows of [train_tickets] as a query of the Ticket Agent gets them. *)
Definition example_rows : list (list (str * value)) :=
  [ [ (py "id", VInt 12); (py "departure_city", VStr (py "北京"));
      (py "arrival_city", VStr (py "上海"));
      (py "departure_time", VStr (py "2026-01-19 08:00:00"));
      (py "arrival_time", VStr (py "2026-01-19 12:30:00"));
      (py "train_number", VStr (py "G101")); (py "seat_type", VStr (py "商务座"));
      (py "price", VStr (py "1748.0")); (py "remaining_seats", VInt 20) ];
    [ (py "id", VInt 7); (py "departure_city", VStr (py "北京"));
      (py "arrival_city", VStr (py "上海"));
      (py "departure_time", VStr (py "2026-01-19 09:00:00"));
      (py "arrival_time", VStr (py "2026-01-19 13:40:00"));
      (py "train_number", VStr (py "G103")); (py "seat_type", VStr (py "二等座"));
      (py "price", VStr (py "553.5")); (py "remaining_seats", VInt 3) ] ].

Lemma extract_ticket_ids_of_listing_witness :
  OrderAgent.extract_ticket_ids
    (TicketQueryAgent.format_results
       (fun _ => Some (success_json (VList (map VDict example_rows))))
       (fun _ => []) (VStr (py "train")) (VStr (py "{...}")))
  = [12; 7].
Proof.
  apply (extract_ticket_ids_of_listing
           (fun _ => Some (success_json (VList (map VDict example_rows))))
           (fun _ => []) (VStr (py "train")) (py "{...}") example_rows [12; 7]).
  - left. vm_compute. reflexivity.
  - reflexivity.
  - discriminate.
  - repeat constructor; try (vm_compute; reflexivity); try lia;
      intros _; vm_compute; reflexivity.
Defined.

Lemma is_str_status_no_data (v : value) :
  is_str (dict_get (py "status")
            [(py "status", VStr (py "no_data")); (py "message", v)])
         (py "no_data") = true.
Proof. reflexivity. Qed.

Lemma dict_get_message (a v : value) :
  dict_get (py "message") [(py "status", a); (py "message", v)] = Some v.
Proof. reflexivity. Qed.

Lemma is_str_error_no_data (v : value) :
  is_str (dict_get (py "status")
            [(py "status", VStr (py "error")); (py "message", v)])
         (py "no_data") = false.
Proof. reflexivity. Qed.

Lemma dict_get_data_absent (a v : value) :
  dict_get (py "data") [(py "status", a); (py "message", v)] = None.
Proof. reflexivity. Qed.

Section Replies.

Variable json_loads : str -> option value.
Variable repr_value : value -> str.

(** X20: when a query finds nothing, the Order Agent apologises.  For the
    document [execute_query] returns when no row comes back, whatever the
    type of the query, [format_results] writes ['😔 未找到数据']; the text
    contains ['未找到'], which is what [handle_task] of the Order Agent looks
    for first. *)
Theorem format_results_no_data (query_type : value) (text : str) :
  json_loads text = Some no_data_json ->
  TicketQueryAgent.format_results json_loads repr_value query_type (VStr text)
  = py "😔 未找到数据" /\
  contains (py "未找到")
    (TicketQueryAgent.format_results json_loads repr_value query_type (VStr text))
  = true.
Proof.
  intros Hloads.
  assert (H : TicketQueryAgent.format_results json_loads repr_value query_type
                (VStr text) = py "😔 未找到数据").
  { unfold TicketQueryAgent.format_results. rewrite Hloads.
    unfold no_data_json. cbv beta iota zeta.
    change (truthy (VDict [(py "status", VStr (py "no_data"));
                           (py "message", VStr (py "未找到数据"))])) with true.
    cbn [negb]. cbv beta iota.
    rewrite is_str_status_no_data, dict_get_message, default_Some.
    cbv beta iota. vm_compute. reflexivity. }
  rewrite H. split; [reflexivity | vm_compute; reflexivity].
Qed.

(** X21: an error of the database is listed as one ticket.  For the error
    document of [execute_query], [format_results] takes the document itself
    as the only record: a query of trains is answered with ['找到 1 条'] and a
    record whose fields are all empty; the driver's message is not in the
    text, and no ticket id is found in it. *)
Theorem format_results_error_document (text message : str) :
  json_loads text = Some (error_json message) ->
  TicketQueryAgent.format_results json_loads repr_value (VStr (py "train"))
    (VStr text)
  = py "🚄 找到 1 条火车票信息：" ++ OrderAgent.nl ++ OrderAgent.nl
    ++ py "【1】 " ++ OrderAgent.nl
    ++ py "     → " ++ OrderAgent.nl
    ++ py "    出发: " ++ OrderAgent.nl
    ++ py "    到达: " ++ OrderAgent.nl
    ++ py "    💰 ¥ | 余票: 张" ++ OrderAgent.nl
    ++ py "    🎫 票务ID: " ++ OrderAgent.nl
    ++ OrderAgent.nl
    ++ py "💡 如需订票，请提供票务ID和联系人信息" /\
  OrderAgent.extract_ticket_ids
    (TicketQueryAgent.format_results json_loads repr_value (VStr (py "train"))
       (VStr text))
  = [].
Proof.
  intros Hloads.
  assert (H : TicketQueryAgent.format_results json_loads repr_value
                (VStr (py "train")) (VStr text)
              = py "🚄 找到 1 条火车票信息：" ++ OrderAgent.nl ++ OrderAgent.nl
                ++ py "【1】 " ++ OrderAgent.nl
                ++ py "     → " ++ OrderAgent.nl
                ++ py "    出发: " ++ OrderAgent.nl
                ++ py "    到达: " ++ OrderAgent.nl
                ++ py "    💰 ¥ | 余票: 张" ++ OrderAgent.nl
                ++ py "    🎫 票务ID: " ++ OrderAgent.nl
                ++ OrderAgent.nl
                ++ py "💡 如需订票，请提供票务ID和联系人信息").
  { unfold TicketQueryAgent.format_results. rewrite Hloads.
    unfold error_json. cbv beta iota zeta.
    change (truthy (VDict [(py "status", VStr (py "error"));
                           (py "message", VStr message)])) with true.
    cbn [negb]. cbv beta iota.
    rewrite is_str_error_no_data, dict_get_data_absent.
    cbv beta iota. unfold default. cbn [from_option id].
    change (truthy (VList [VDict [(py "status", VStr (py "error"));
                                  (py "message", VStr message)]])) with true.
    cbn [negb]. cbv beta iota.
    change (is_str (Some (VStr (py "train"))) (py "train")) with true.
    cbv beta iota.
    cbn [TicketQueryAgent.record_lines option_map length].
    vm_compute. reflexivity. }
  rewrite H. split; [reflexivity | vm_compute; reflexivity].
Qed.

End Replies.

Lemma format_results_no_data_witness :
  TicketQueryAgent.format_results (fun _ => Some no_data_json) (fun _ => [])
    (VStr (py "train")) (VStr (py "{...}"))
  = py "😔 未找到数据" /\
  contains (py "未找到")
    (TicketQueryAgent.format_results (fun _ => Some no_data_json) (fun _ => [])
       (VStr (py "train")) (VStr (py "{...}")))
  = true.
Proof.
  apply (format_results_no_data (fun _ => Some no_data_json) (fun _ => [])
           (VStr (py "train")) (py "{...}")).
  reflexivity.
Defined.

Lemma format_results_error_document_witness :
  OrderAgent.extract_ticket_ids
    (TicketQueryAgent.format_results
       (fun _ => Some (error_json (py "Table 'train_ticket' doesn't exist")))
       (fun _ => []) (VStr (py "train")) (VStr (py "{...}")))
  = [].
Proof.
  apply (format_results_error_document
           (fun _ => Some (error_json (py "Table 'train_ticket' doesn't exist")))
           (fun _ => []) (py "{...}") (py "Table 'train_ticket' doesn't exist")).
  reflexivity.
Defined.

(** ** The encoder and the conversion loop *)

Lemma json_dumps_encode_value (v : value) :
  json_dumps (_encode_value v) = json_dumps v.
Proof. destruct v; reflexivity. Qed.

Lemma all_some_ext {A B : Type} (f g : A -> option B) (l : list A) :
  (forall x, f x = g x) -> all_some f l = all_some g l.
Proof.
  intros H. induction l as [|x l IH]; [reflexivity |].
  cbn [all_some]. fold (all_some f) (all_some g). rewrite H, IH. reflexivity.
Qed.

Lemma all_some_map {A B C : Type} (f : B -> option C) (g : A -> B) (l : list A) :
  all_some f (map g l) = all_some (fun x => f (g x)) l.
Proof.
  induction l as [|x l IH]; [reflexivity |].
  cbn [map all_some]. fold (all_some f) (all_some (fun x => f (g x))).
  rewrite IH. reflexivity.
Qed.

(** X22: [_encode_value] and [DateTimeEncoder] agree.  Writing a result set
    with the encoder gives the same document whether or not the rows went
    through the conversion loop of [execute_query] first, and raises in the
    same cases: the loop changes nothing in what [execute_query] returns. *)
Theorem encoder_agrees_with_encode_value (rows : list (list (str * value))) :
  json_dumps (success_json (VList (map encode_row rows)))
  = json_dumps (success_json (VList (map VDict rows))).
Proof.
  rewrite !json_dumps_success. f_equal. cbn [json_dumps]. f_equal.
  rewrite !all_some_map. apply all_some_ext. intros row.
  unfold encode_row. cbn [json_dumps]. f_equal.
  rewrite all_some_map. apply all_some_ext. intros [k v].
  cbn [fst snd]. rewrite json_dumps_encode_value. reflexivity.
Qed.

(** ** The guard of the seat counter *)

(** X23: [update_remaining_seats] never takes seats that are not there.
    With the connection alive, it answers [True] only when the row exists,
    has at least [quantity] seats left and [quantity] is not zero, and then
    the row has exactly [quantity] seats fewer and nothing else changed;
    when it answers [False], no table changed. *)
Theorem update_remaining_seats_guard (ticket_type : str) (table : ticket_table)
    (tid q : Z) (w w' : world) (ok : bool) :
  net w = [] ->
  OrderService.table_map ticket_type = Some table ->
  OrderService.update_remaining_seats ticket_type tid q w = (Ret ok, w') ->
  if ok then
    exists row,
      tickets table (db w) !! tid = Some row /\
      q <= remaining_seats row /\ q <> 0 /\
      db w' = set_tickets table (<[tid := deduct q row]> (tickets table (db w)))
                (db w)
  else db w' = db w.
Proof.
  intros Hnet Ht Hrun.
  rewrite (update_remaining_seats_alive _ table) in Hrun by assumption.
  destruct (fst (next (faults w))) as [|msg].
  - injection Hrun as Hok Hw. subst w'. rewrite db_set_db.
    remember (run_update (UpdateSeats table tid q) (db w)) as R eqn:HR.
    destruct (tickets table (db w) !! tid) as [row|] eqn:Hrow.
    + rewrite (run_update_seats table tid q _ row Hrow) in HR.
      destruct ((remaining_seats row >=? q) && negb (q =? 0)) eqn:Hg;
        subst R; cbn [fst snd] in *; subst ok.
      * change (1 >? 0) with true. cbv iota.
        apply andb_true_iff in Hg as [Hge Hne].
        apply Z.geb_le in Hge. apply negb_true_iff, Z.eqb_neq in Hne.
        exists row. auto.
      * change (0 >? 0) with false. cbv iota. reflexivity.
    + unfold run_update in HR. rewrite Hrow in HR. subst R.
      cbn [fst snd] in *. subst ok.
      change (0 >? 0) with false. cbv iota. reflexivity.
  - injection Hrun as Hok Hw. subst ok w'. apply db_pop_fault.
Qed.

Lemma update_remaining_seats_guard_witness :
  exists row,
    tickets train_tickets (one_train 10 10) !! 1 = Some row /\
    3 <= remaining_seats row /\ 3 <> 0 /\
    db (snd (OrderService.update_remaining_seats (py "train") 1 3
               {| db := one_train 10 10; net := []; faults := []; raw := quiet |}))
    = set_tickets train_tickets
        (<[1 := deduct 3 row]> (tickets train_tickets (one_train 10 10)))
        (one_train 10 10).
Proof.
  exact (update_remaining_seats_guard (py "train") train_tickets 1 3
           {| db := one_train 10 10; net := []; faults := []; raw := quiet |}
           (snd (OrderService.update_remaining_seats (py "train") 1 3
                   {| db := one_train 10 10; net := []; faults := [];
                      raw := quiet |}))
           true eq_refl eq_refl eq_refl).
Defined.

(** ** The query the Order Agent sends *)

Section QueryText.

Variable repr_value : value -> str.

(** A parameter of the query that [build_query_text] can use: absent,
    falsy ([None], the empty string, ...) or a string. *)
Definition usable (params : list (str * value)) (key : str) : Prop :=
  match dict_get key params with
  | Some v => truthy v = false \/ exists s, v = VStr s
  | None => True
  end.

Definition is_text (v : value) : Prop := exists s, v = VStr s.

Lemma part_is_text (params : list (str * value)) (key : str)
    (f : value -> value) :
  usable params key -> (forall s, is_text (f (VStr s))) ->
  Forall is_text (OrderAgent.part params key f).
Proof.
  unfold usable, OrderAgent.part. intros Hu Hf.
  destruct (dict_get key params) as [v|]; [| constructor].
  destruct (truthy v) eqn:Ht; [| constructor].
  destruct Hu as [Hu | [s ->]]; [discriminate Hu |].
  constructor; [apply Hf | constructor].
Qed.

Lemma join_parts_text (i : Z) (parts : list value) :
  Forall is_text parts -> exists l, OrderAgent.join_parts i parts = Ret l.
Proof.
  intros H. revert i. induction H as [|v parts [s ->] Hparts IH]; intros i.
  - exists []. reflexivity.
  - destruct (IH (i + 1)) as [l Hl]. exists (s :: l).
    cbn [OrderAgent.join_parts]. rewrite Hl. reflexivity.
Qed.

Lemma starts_with_self_app (h x : str) : starts_with h (h ++ x) = true.
Proof.
  induction h as [|c h IH]; [reflexivity |].
  cbn [app starts_with]. rewrite Z.eqb_refl, IH. reflexivity.
Qed.

Lemma starts_with_join (sep h : str) (l : list str) :
  starts_with h (join sep (h :: l)) = true.
Proof.
  destruct l as [|x l].
  - cbn [join]. rewrite <- (app_nil_r h) at 2. apply starts_with_self_app.
  - change (join sep (h :: x :: l)) with (h ++ sep ++ join sep (x :: l)).
    apply starts_with_self_app.
Qed.

(** The first words of the query, by the type of the ticket. *)
Definition query_head (intent : list (str * value)) : str :=
  let ticket_type := default (VStr []) (dict_get (py "ticket_type") intent) in
  if is_str (Some ticket_type) (py "train") then py "查询火车票"
  else if is_str (Some ticket_type) (py "flight") then py "查询机票"
  else if is_str (Some ticket_type) (py "concert") then py "查询演唱会"
  else py "查询票务".

(** X24: [build_query_text] returns a text, which begins with the words of
    the ticket type, whenever [query_params] is a dictionary (or absent)
    whose values are strings, falsy or absent.  It can only raise for
    parameters that are not a dictionary or for a parameter that is truthy
    and not a string. *)
Theorem build_query_text_returns (intent params : list (str * value)) :
  default (VDict []) (dict_get (py "query_params") intent) = VDict params ->
  (forall key, usable params key) ->
  exists text,
    OrderAgent.build_query_text repr_value intent = Ret text /\
    starts_with (query_head intent) text = true.
Proof.
  intros Hparams Husable.
  assert (Hid : forall s, is_text (id (VStr s))) by (intros s; exists s; reflexivity).
  assert (Hto : forall s, is_text (VStr (py "到" ++ OrderAgent.fmt repr_value (VStr s))))
    by (intros s; eexists; reflexivity).
  unfold OrderAgent.build_query_text, query_head. cbv zeta.
  rewrite Hparams. cbv beta iota delta [OrderAgent.items_of].
  destruct (is_str (Some (default (VStr []) (dict_get (py "ticket_type") intent)))
              (py "train")).
  { match goal with
    | |- context [OrderAgent.join_parts 1 ?l] =>
        destruct (join_parts_text 1 l) as [l' ->]
    end.
    - repeat (apply Forall_app; split); apply part_is_text; auto.
    - eexists. split; [reflexivity | apply starts_with_join]. }
  destruct (is_str (Some (default (VStr []) (dict_get (py "ticket_type") intent)))
              (py "flight")).
  { match goal with
    | |- context [OrderAgent.join_parts 1 ?l] =>
        destruct (join_parts_text 1 l) as [l' ->]
    end.
    - repeat (apply Forall_app; split); apply part_is_text; auto.
    - eexists. split; [reflexivity | apply starts_with_join]. }
  destruct (is_str (Some (default (VStr []) (dict_get (py "ticket_type") intent)))
              (py "concert")).
  { match goal with
    | |- context [OrderAgent.join_parts 1 ?l] =>
        destruct (join_parts_text 1 l) as [l' ->]
    end.
    - repeat (apply Forall_app; split); apply part_is_text; auto.
    - eexists. split; [reflexivity | apply starts_with_join]. }
  eexists. split; [reflexivity |]. vm_compute. reflexivity.
Qed.

End QueryText.

Lemma build_query_text_returns_witness :
  exists text,
    OrderAgent.build_query_text (fun _ => []) example_intent = Ret text /\
    starts_with (query_head example_intent) text = true.
Proof.
  apply (build_query_text_returns (fun _ => []) example_intent
           [ (py "departure_city", VStr (py "北京"));
             (py "arrival_city", VStr (py "上海"));
             (py "date", VStr (py "2026-01-19"));
             (py "seat_type", VStr (py "二等座")) ]).
  - vm_compute. reflexivity.
  - intros key. unfold usable. cbn [dict_get].
    repeat match goal with
           | |- context [if ?b then _ else _] => destruct b
           end; try exact I; right; eexists; reflexivity.
Defined.

(** ** Cancelling when statements fail *)








